(** * Persistence layer of the A2 bot: a shallow embedding

    The development follows the three Python modules of the repository:
    - [models/user_profile.py]            (module [UserProfile] below),
    - [models/managers/conversation.py]   (module [ConversationManager]),
    - [models/managers/storage.py]        (module [StorageManager]).

    Python objects are modelled by the values they hold.  A dictionary is an
    association list in insertion order, as Python iterates it.  Functions
    that can end in an exception return an [outcome]; functions whose body is
    one [try]/[except Exception] return their result directly.  The clock
    ([datetime.now]) is an input: every reading is an explicit argument. *)

From Stdlib Require Import ZArith List String Ascii Bool Lia.
From Stdlib Require Import DecimalString DecimalPos DecimalZ.
Import ListNotations.
Local Open Scope string_scope.
Local Open Scope list_scope.

Set Warnings "-register-all".

(** ** Python values *)

Module Py.

(** The values [json.loads] produces.  A dictionary may be keyed by any
    hashable value (a [Counter] built from a list is), though a decoded
    document has string keys only.  A float is carried by its IEEE-754 bit
    pattern. *)
Inductive pyval : Type :=
| VNone
| VBool (b : bool)
| VInt (z : Z)
| VFloat (bits : Z)
| VStr (s : string)
| VList (items : list pyval)
| VDict (entries : list (pyval * pyval)).

Definition dict := list (pyval * pyval).

Inductive exn : Type :=
| NameError | TypeError | AttributeError | ValueError | KeyError | OSError
| JSONDecodeError.

(** How a call ends: normally with a value, or in an exception.  Both carry
    the state the call leaves behind. *)
Inductive outcome (A S : Type) : Type :=
| Returned (a : A) (s : S)
| Raised (e : exn) (s : S).
Arguments Returned {A S} a s.
Arguments Raised {A S} e s.

(** The source only ever indexes a dictionary by a string.  A string equals
    no value of another type, so the entry is the one whose key is that
    string. *)
Definition key_is (k : string) (key : pyval) : bool :=
  match key with VStr s => String.eqb k s | _ => false end.

(** [d.get(k)] *)
Fixpoint dict_get (k : string) (d : dict) : option pyval :=
  match d with
  | [] => None
  | (k', v) :: d' => if key_is k k' then Some v else dict_get k d'
  end.

(** [k in d] *)
Definition dict_has (k : string) (d : dict) : bool :=
  match dict_get k d with Some _ => true | None => false end.

(** [d[k] = v]: an existing key keeps its position, a new key goes last. *)
Fixpoint dict_set (k : string) (v : pyval) (d : dict) : dict :=
  match d with
  | [] => [(VStr k, v)]
  | (k', v') :: d' =>
      if key_is k k' then (k', v) :: d' else (k', v') :: dict_set k v d'
  end.

(** the mapping left by [d.pop(k)] *)
Definition dict_pop (k : string) (d : dict) : dict :=
  filter (fun kv => negb (key_is k (fst kv))) d.

(** [d.get(k, default)] *)
Definition dict_get_default (k : string) (default : pyval) (d : dict) : pyval :=
  match dict_get k d with Some v => v | None => default end.

(** Python truthiness, as [if x:] tests it. *)
Definition truthy (v : pyval) : bool :=
  match v with
  | VNone => false
  | VBool b => b
  | VInt z => negb (Z.eqb z 0)
  | VFloat bits => negb (Z.eqb (Z.land bits (Z.ones 63)) 0)
  | VStr s => negb (String.eqb s EmptyString)
  | VList l => match l with [] => false | _ => true end
  | VDict d => match d with [] => false | _ => true end
  end.

(** [needle in hay] on strings. *)
Fixpoint contains (needle hay : string) : bool :=
  String.prefix needle hay
  || match hay with
     | EmptyString => false
     | String _ rest => contains needle rest
     end.

(** [k in data] for a string [k]: keys of a mapping, items of a list,
    substrings of a string; anything else is not iterable. *)
Definition py_in (k : string) (data : pyval) : exn + bool :=
  match data with
  | VDict d => inr (dict_has k d)
  | VList l => inr (existsb (key_is k) l)
  | VStr s => inr (contains k s)
  | VNone | VBool _ | VInt _ | VFloat _ => inl TypeError
  end.

(** [data.get(k, default)]: only a mapping has [.get]. *)
Definition py_get (k : string) (default : pyval) (data : pyval) : exn + pyval :=
  match data with
  | VDict d => inr (dict_get_default k default d)
  | _ => inl AttributeError
  end.

(** [data[k] = v]: only a mapping takes a string index. *)
Definition py_setitem (k : string) (v : pyval) (data : pyval) : exn + pyval :=
  match data with
  | VDict d => inr (VDict (dict_set k v d))
  | _ => inl TypeError
  end.

(** [data.pop(k)]: the value and what is left of [data].  A list wants an
    integer index, a string has no [.pop]. *)
Definition py_pop (k : string) (data : pyval) : exn + (pyval * pyval) :=
  match data with
  | VDict d =>
      match dict_get k d with
      | Some v => inr (v, VDict (dict_pop k d))
      | None => inl KeyError
      end
  | VList _ => inl TypeError
  | _ => inl AttributeError
  end.

(** [data.pop(k, default)]; [list.pop] takes one argument at most. *)
Definition py_pop_default (k : string) (default : pyval) (data : pyval)
    : exn + (pyval * pyval) :=
  match data with
  | VDict d => inr (dict_get_default k default d, VDict (dict_pop k d))
  | VList _ => inl TypeError
  | _ => inl AttributeError
  end.

(** [len(v)] *)
Definition py_len (v : pyval) : exn + nat :=
  match v with
  | VStr s => inr (String.length s)
  | VList l => inr (List.length l)
  | VDict d => inr (List.length d)
  | VNone | VBool _ | VInt _ | VFloat _ => inl TypeError
  end.

(** the state a call leaves, however it ends *)
Definition state_of {A S} (o : outcome A S) : S :=
  match o with Returned _ s => s | Raised _ s => s end.

(** Code that runs on a state [S] and may raise. *)
Definition M (S A : Type) : Type := S -> outcome A S.

Definition ret {S A} (a : A) : M S A := fun s => Returned a s.

Definition bind {S A B} (c : M S A) (k : A -> M S B) : M S B :=
  fun s => match c s with
           | Returned a s1 => k a s1
           | Raised e s1 => Raised e s1
           end.

(** a call that touches no state *)
Definition lift {S A} (r : exn + A) : M S A :=
  fun s => match r with inl e => Raised e s | inr a => Returned a s end.

(** an assignment *)
Definition modify {S} (f : S -> S) : M S unit := fun s => Returned tt (f s).

(** Mappings keyed by user id (a Python [int]), in insertion order. *)
Definition umap (A : Type) := list (Z * A).

Fixpoint lookup {A} (uid : Z) (m : umap A) : option A :=
  match m with
  | [] => None
  | (u, a) :: m' => if Z.eqb uid u then Some a else lookup uid m'
  end.

Definition has_key {A} (uid : Z) (m : umap A) : bool :=
  match lookup uid m with Some _ => true | None => false end.

Fixpoint store {A} (uid : Z) (a : A) (m : umap A) : umap A :=
  match m with
  | [] => [(uid, a)]
  | (u, a') :: m' =>
      if Z.eqb uid u then (u, a) :: m' else (u, a') :: store uid a m'
  end.

Definition lookup_default {A} (uid : Z) (default : A) (m : umap A) : A :=
  match lookup uid m with Some a => a | None => default end.

(** [str(n)] for an [int]. *)
Definition str_of_int (n : Z) : string := NilZero.string_of_int (Z.to_int n).

End Py.
Import Py.

Notation "x <- c ;; k" := (bind c (fun x => k))
  (at level 61, c at next level, right associativity).
Notation "c ;;; k" := (bind c (fun _ => k))
  (at level 61, right associativity).

(** ** models/user_profile.py *)

Module UserProfile.

(** A [UserProfile] instance is its [__dict__]. *)
Definition t := dict.

(** The attributes [__init__] assigns, in order. *)
Definition fields : list string :=
  ["user_id"; "name"; "nickname"; "preferred_name"; "personality_traits";
   "interests"; "notable_facts"; "relationship_context";
   "conversation_topics"; "created_at"; "updated_at"].

(** The names the class body defines. *)
Definition methods : list string :=
  ["__init__"; "update_profile"; "to_dict"; "from_dict"; "get_summary"].

(** The names every instance of a plain class finds on its type: those of
    [object] (as of CPython 3.11 and 3.12) and the four the class statement
    adds. *)
Definition inherited : list string :=
  ["__class__"; "__delattr__"; "__dir__"; "__doc__"; "__eq__"; "__format__";
   "__ge__"; "__getattribute__"; "__getstate__"; "__gt__"; "__hash__";
   "__init_subclass__"; "__le__"; "__lt__"; "__ne__"; "__new__";
   "__reduce__"; "__reduce_ex__"; "__repr__"; "__setattr__"; "__sizeof__";
   "__str__"; "__subclasshook__"; "__module__"; "__dict__"; "__weakref__"].

Definition class_attrs : list string := methods ++ inherited.

Definition mem (k : string) (l : list string) : bool :=
  existsb (String.eqb k) l.

(** [hasattr(self, k)]: the instance dictionary first, then the class. *)
Definition hasattr (self : t) (k : string) : bool :=
  dict_has k self || mem k class_attrs.

(** [setattr(self, k, v)].  Three names of the type are data descriptors and
    never reach the instance dictionary: [__class__] accepts only a class,
    [__weakref__] is read-only, and [__dict__] replaces the whole instance
    dictionary when given a dictionary.  Every other name is stored in the
    instance dictionary, in front of whatever the class has under it. *)
Definition setattr (self : t) (k : string) (v : pyval) : exn + t :=
  if String.eqb k "__class__" then inl TypeError
  else if String.eqb k "__weakref__" then inl AttributeError
  else if String.eqb k "__dict__" then
    match v with VDict d => inr d | _ => inl TypeError end
  else inr (dict_set k v self).

(** [UserProfile(user_id)]; the two clock readings are [t_created] and
    [t_updated]. *)
Definition init (user_id : pyval) (t_created t_updated : string) : t :=
  [(VStr "user_id", user_id); (VStr "name", VNone); (VStr "nickname", VNone);
   (VStr "preferred_name", VNone); (VStr "personality_traits", VList []);
   (VStr "interests", VList []); (VStr "notable_facts", VList []);
   (VStr "relationship_context", VList []);
   (VStr "conversation_topics", VList []);
   (VStr "created_at", VStr t_created); (VStr "updated_at", VStr t_updated)].

(** [self.update_profile(field, value)], the clock reading [now]. *)
Definition update_profile (self : t) (field : string) (value : pyval)
    (now : string) : outcome bool t :=
  if hasattr self field then
    match setattr self field value with
    | inl e => Raised e self
    | inr self1 => Returned true (dict_set "updated_at" (VStr now) self1)
    end
  else Returned false self.

(** The three names [setattr] does not store. *)
Definition is_descriptor (k : string) : bool :=
  String.eqb k "__class__" || String.eqb k "__weakref__" || String.eqb k "__dict__".

(** A dictionary as the constructor and guarded [setattr] calls leave it:
    the keys are distinct attribute names, none of them a descriptor. *)
Fixpoint attr_dict (d : dict) : bool :=
  match d with
  | [] => true
  | (VStr k, _) :: rest =>
      negb (is_descriptor k) && negb (dict_has k rest) && attr_dict rest
  | _ :: _ => false
  end.

(** the instance holds every attribute of the constructor *)
Definition has_fields (self : t) : bool :=
  forallb (fun f => dict_has f self) fields.

(** [self.to_dict()] reached through the class. *)
Definition to_dict (self : t) : dict := self.

(** [profile.to_dict()] as a caller writes it: an instance attribute of that
    name is found before the method, and calling it fails. *)
Definition call_to_dict (self : t) : exn + dict :=
  if dict_has "to_dict" self then inl TypeError else inr (to_dict self).

(** The loop of [from_dict].  [hasattr] wants a string for a name. *)
Fixpoint hydrate (profile : t) (items : dict) : outcome unit t :=
  match items with
  | [] => Returned tt profile
  | (VStr k, v) :: rest =>
      if hasattr profile k then
        match setattr profile k v with
        | inl e => Raised e profile
        | inr profile1 => hydrate profile1 rest
        end
      else hydrate profile rest
  | (_, _) :: _ => Raised TypeError profile
  end.

(** [UserProfile.from_dict(data)]; a value without [.get] raises. *)
Definition from_dict (data : pyval) (t_created t_updated : string)
    : exn + t :=
  match data with
  | VDict d =>
      let profile := init (dict_get_default "user_id" VNone d) t_created t_updated in
      match hydrate profile d with
      | Returned _ p => inr p
      | Raised e _ => inl e
      end
  | _ => inl AttributeError
  end.

End UserProfile.

(** ** models/managers/conversation.py *)

Module ConversationManager.

(** The attributes of a [ConversationManager].  [conversations] is a
    [defaultdict(list)]; the storage manager assigns decoded documents to its
    entries, so an entry is any value. *)
Record t : Type := mk {
  conversations : umap pyval;
  conversation_summaries : umap pyval;
  user_profiles : umap UserProfile.t
}.

Definition MAX_HISTORY : nat := 10.

Definition with_conversations (self : t) (c : umap pyval) : t :=
  mk c (conversation_summaries self) (user_profiles self).

(** [l[-n:]] for a positive [n] *)
Definition last_n {A} (n : nat) (l : list A) : list A :=
  skipn (List.length l - n) l.

(** the record [add_message] appends *)
Definition message (content is_from_bot : pyval) (now : string) : pyval :=
  VDict [(VStr "content", content); (VStr "timestamp", VStr now);
         (VStr "from_bot", is_from_bot)].

(** [self.add_message(user_id, content, is_from_bot)], the clock reading
    [now].  Reading [self.conversations[user_id]] creates the empty list for
    a new user; only a list has [.append]. *)
Definition add_message (self : t) (user_id : Z) (content is_from_bot : pyval)
    (now : string) : outcome unit t :=
  let convs :=
    if has_key user_id (conversations self) then conversations self
    else store user_id (VList []) (conversations self) in
  match lookup_default user_id (VList []) convs with
  | VList l =>
      let l1 := l ++ [message content is_from_bot now] in
      let convs1 := store user_id (VList l1) convs in
      if Nat.ltb MAX_HISTORY (List.length l1)
      then Returned tt (with_conversations self
                          (store user_id (VList (last_n MAX_HISTORY l1)) convs1))
      else Returned tt (with_conversations self convs1)
  | _ => Raised AttributeError (with_conversations self convs)
  end.

(** [add_message] called once per entry of [msgs] (content, flag, clock
    reading), stopping at the first call that raises. *)
Fixpoint add_messages (self : t) (user_id : Z)
    (msgs : list (pyval * pyval * string)) : outcome unit t :=
  match msgs with
  | [] => Returned tt self
  | (content, is_from_bot, now) :: rest =>
      match add_message self user_id content is_from_bot now with
      | Returned _ self1 => add_messages self1 user_id rest
      | Raised e self1 => Raised e self1
      end
  end.

(** The history [self.conversations[user_id]] yields, when it is a list. *)
Definition history (self : t) (user_id : Z) : option (list pyval) :=
  match lookup user_id (conversations self) with
  | None => Some []
  | Some (VList l) => Some l
  | Some _ => None
  end.

End ConversationManager.

(** ** Text, [int()] and [pathlib] *)

Module Text.

(** Text is a string of code points below 256.  The white space of
    [str.strip] in that range. *)
Definition is_space (c : ascii) : bool :=
  let n := nat_of_ascii c in
  (((9 <=? n) && (n <=? 13)) || ((28 <=? n) && (n <=? 32))
   || (n =? 133) || (n =? 160))%nat.

(** [not s.strip()] *)
Fixpoint blank (s : string) : bool :=
  match s with
  | EmptyString => true
  | String c rest => is_space c && blank rest
  end.

Fixpoint lstrip (l : list ascii) : list ascii :=
  match l with
  | c :: rest => if is_space c then lstrip rest else l
  | [] => []
  end.

(** [s.strip()] *)
Definition strip (s : string) : string :=
  string_of_list_ascii
    (rev (lstrip (rev (lstrip (list_ascii_of_string s))))).

Definition is_digit (c : ascii) : bool :=
  let n := nat_of_ascii c in ((48 <=? n) && (n <=? 57))%nat.

(** Decimal digits, single underscores allowed between two digits. *)
Fixpoint digits_value (s : string) (acc : Z) (after_digit : bool) : option Z :=
  match s with
  | EmptyString => if after_digit then Some acc else None
  | String c rest =>
      if is_digit c
      then digits_value rest (10 * acc + (Z.of_nat (nat_of_ascii c) - 48)) true
      else if Ascii.eqb c "_"
           then if after_digit then digits_value rest acc false else None
           else None
  end.

(** The white space [int] skips around a number: the white space of ASCII
    and the two spaces above it, U+0085 and U+00A0, which [int] turns into
    blanks first.  The separators U+001C to U+001F, which [str.strip]
    removes, are not skipped: a text that holds one is no number. *)
Definition is_int_space (c : ascii) : bool :=
  let n := nat_of_ascii c in
  (((9 <=? n) && (n <=? 13)) || (n =? 32) || (n =? 133) || (n =? 160))%nat.

Fixpoint int_lstrip (l : list ascii) : list ascii :=
  match l with
  | c :: rest => if is_int_space c then int_lstrip rest else l
  | [] => []
  end.

Definition int_strip (s : string) : string :=
  string_of_list_ascii
    (rev (int_lstrip (rev (int_lstrip (list_ascii_of_string s))))).

(** [int(s)]: [None] stands for [ValueError]. *)
Definition py_int (s : string) : option Z :=
  match int_strip s with
  | String "+" rest => digits_value rest 0 false
  | String "-" rest => option_map Z.opp (digits_value rest 0 false)
  | t => digits_value t 0 false
  end.

(** [s.endswith(e)] *)
Definition ends_with (e s : string) : bool :=
  (String.length e <=? String.length s)%nat
  && String.eqb (substring (String.length s - String.length e) (String.length e) s) e.

(** [s.split(sep)[0]] for a one-character [sep] *)
Fixpoint before (sep : ascii) (s : string) : string :=
  match s with
  | EmptyString => EmptyString
  | String c rest => if Ascii.eqb c sep then EmptyString else String c (before sep rest)
  end.

(** [sep in s] for a one-character [sep] *)
Fixpoint has_char (sep : ascii) (s : string) : bool :=
  match s with
  | EmptyString => false
  | String c rest => Ascii.eqb c sep || has_char sep rest
  end.

(** every character of [s] passes [test] *)
Fixpoint all_chars (test : ascii -> bool) (s : string) : bool :=
  match s with
  | EmptyString => true
  | String c rest => test c && all_chars test rest
  end.

(** the characters [str(n)] is made of *)
Definition numeric (c : ascii) : bool := is_digit c || Ascii.eqb c "-".

End Text.

Module Path.

(** A path is the list of its components; the last one is its name. *)
Definition t := list string.

Definition eqb (p q : t) : bool :=
  (List.length p =? List.length q)%nat
  && forallb (fun ab => String.eqb (fst ab) (snd ab)) (combine p q).

(** [d / n] *)
Definition child (d : t) (n : string) : t := d ++ [n].

Definition name (p : t) : string := last p EmptyString.

Definition parent (p : t) : t := removelast p.

(** [s.rfind('.')], scanning from index [i] with the last hit so far. *)
Fixpoint rfind_dot (s : string) (i : nat) (found : option nat) : option nat :=
  match s with
  | EmptyString => found
  | String c rest => rfind_dot rest (S i) (if Ascii.eqb c "." then Some i else found)
  end.

(** Where the suffix of a name starts: the last dot, unless it is the first
    or the last character. *)
Definition suffix_start (n : string) : option nat :=
  match rfind_dot n 0 None with
  | Some i => if ((0 <? i) && (i <? String.length n - 1))%nat then Some i else None
  | None => None
  end.

Definition suffix (p : t) : string :=
  let n := name p in
  match suffix_start n with
  | Some i => substring i (String.length n - i) n
  | None => EmptyString
  end.

Definition stem (p : t) : string :=
  let n := name p in
  match suffix_start n with
  | Some i => substring 0 i n
  | None => n
  end.

(** [p.with_suffix(sfx)]: [None] stands for [ValueError] (a separator in
    the suffix, a suffix that is no suffix, a path without a name). *)
Definition with_suffix (p : t) (sfx : string) : option t :=
  if Text.has_char "/" sfx then None
  else if (negb (String.eqb sfx EmptyString) && negb (String.prefix "." sfx))
          || String.eqb sfx "." then None
  else if String.eqb (name p) EmptyString then None
  else Some (child (parent p) (stem p ++ sfx)).

End Path.

(** ** The file system *)

Module FS.

(** The regular files, in the order a directory scan yields them. *)
Definition t := list (Path.t * string).

Fixpoint read (p : Path.t) (fs : t) : option string :=
  match fs with
  | [] => None
  | (q, s) :: fs' => if Path.eqb p q then Some s else read p fs'
  end.

Definition exists_ (p : Path.t) (fs : t) : bool :=
  match read p fs with Some _ => true | None => false end.

Fixpoint write (p : Path.t) (s : string) (fs : t) : t :=
  match fs with
  | [] => [(p, s)]
  | (q, s') :: fs' =>
      if Path.eqb p q then (q, s) :: fs' else (q, s') :: write p s fs'
  end.

Definition remove (p : Path.t) (fs : t) : t :=
  filter (fun e => negb (Path.eqb p (fst e))) fs.

(** How a [write_text] ends: it succeeds, it fails before the file is
    opened, or it fails after the file was opened and [n] characters
    reached it. *)
Inductive fault : Type := NoFault | OpenFails | FailsAfter (n : nat).

(** What the operating system answers.  The directories and every reason an
    operation can fail for live here, outside the program's control. *)
Record env : Type := mk_env {
  dir_exists : Path.t -> bool;
  mkdir_raises : Path.t -> bool;
  write_fault : Path.t -> fault;
  unlink_raises : Path.t -> bool;
  replace_raises : Path.t -> Path.t -> bool;
  read_raises : Path.t -> bool
}.

(** [p.write_text(s)]: success flag and the files left. *)
Definition write_text (os : env) (p : Path.t) (s : string) (fs : t) : bool * t :=
  match write_fault os p with
  | NoFault => (true, write p s fs)
  | OpenFails => (false, fs)
  | FailsAfter n => (false, write p (substring 0 n s) fs)
  end.

(** The contents a reader can find while [p.write_text(s)] runs: the file is
    truncated, then grows to the point where the call ends. *)
Definition write_text_steps (os : env) (p : Path.t) (s : string) (fs : t) : list t :=
  match write_fault os p with
  | NoFault => map (fun k => write p (substring 0 k s) fs) (seq 0 (S (String.length s)))
  | OpenFails => []
  | FailsAfter n =>
      map (fun k => write p (substring 0 k s) fs) (seq 0 (S (Nat.min n (String.length s))))
  end.

(** The files after [src.replace(dst)] went through: one atomic step. *)
Definition rename (src dst : Path.t) (fs : t) : t :=
  match read src fs with
  | Some s => if Path.eqb src dst then fs else write dst s (remove src fs)
  | None => fs
  end.

(** [dir.glob("*" + ending)]: the entries of [dir] whose name ends so. *)
Definition glob (dir : Path.t) (ending : string) (fs : t) : list Path.t :=
  map fst
    (filter (fun e => match fst e with
                      | [] => false
                      | _ => Path.eqb (Path.parent (fst e)) dir
                             && Text.ends_with ending (Path.name (fst e))
                      end) fs).

End FS.

(** ** The containers the storage manager fills and saves *)

Module EmotionManager.

(** The attributes of the emotion manager that [storage.py] touches.  The
    allow-set is kept as the list [list(dm_enabled_users)] yields. *)
Record t : Type := mk {
  user_emotions : umap pyval;
  user_memories : umap pyval;
  user_events : umap pyval;
  user_milestones : umap pyval;
  interaction_stats : umap pyval;
  relationship_progress : umap pyval;
  dm_enabled_users : list pyval
}.

Definition with_user_emotions (f : umap pyval -> umap pyval) (em : t) : t :=
  mk (f (user_emotions em)) (user_memories em) (user_events em)
     (user_milestones em) (interaction_stats em) (relationship_progress em)
     (dm_enabled_users em).

Definition with_interaction_stats (f : umap pyval -> umap pyval) (em : t) : t :=
  mk (user_emotions em) (user_memories em) (user_events em)
     (user_milestones em) (f (interaction_stats em)) (relationship_progress em)
     (dm_enabled_users em).

Definition with_relationship_progress (f : umap pyval -> umap pyval) (em : t) : t :=
  mk (user_emotions em) (user_memories em) (user_events em)
     (user_milestones em) (interaction_stats em) (f (relationship_progress em))
     (dm_enabled_users em).

End EmotionManager.

(** ** models/managers/storage.py *)

Module StorageManager.

Module EM := EmotionManager.
Module CM := ConversationManager.

(** The attributes of a [StorageManager]. *)
Record t : Type := mk {
  data_dir : Path.t;
  users_dir : Path.t;
  profiles_dir : Path.t;
  dm_settings_file : Path.t;
  user_profiles_dir : Path.t;
  conversations_dir : Path.t
}.

(** The names the module binds: its five imports and its class.  A name a
    function uses is looked up here when the function runs. *)
Definition module_globals : list string :=
  ["json"; "asyncio"; "datetime"; "timezone"; "Counter"; "Path";
   "StorageManager"].

Definition name_bound (globals : list string) (x : string) : bool :=
  existsb (String.eqb x) globals.

(** What [load_data] and the files it leaves: both managers and the disk. *)
Definition world : Type := EM.t * CM.t * FS.t.

Section Methods.

(** The library calls whose result the source only passes on. *)
Variable json_loads : string -> option pyval.       (* [None]: it raises *)
Variable json_dumps : pyval -> option string.       (* [json.dumps(v, indent=2)] *)
Variable count_items : pyval -> exn + pyval.        (* [Counter] of a string or list *)
Variable dict_of_iterable : pyval -> exn + pyval.   (* [dict] of a non-mapping *)
Variable set_of : pyval -> exn + list pyval.        (* [set(v)], as a list *)

Variable os : FS.env.
Variable self : t.

(** [Counter(v)] *)
Definition Counter (v : pyval) : exn + pyval :=
  match v with
  | VDict d => inr (VDict d)
  | VNone => inr (VDict [])
  | VStr _ | VList _ => count_items v
  | VBool _ | VInt _ | VFloat _ => inl TypeError
  end.

(** [dict(v)] *)
Definition py_dict (v : pyval) : exn + pyval :=
  match v with
  | VDict d => inr (VDict d)
  | _ => dict_of_iterable v
  end.

Definition loads (s : string) : exn + pyval :=
  match json_loads s with Some v => inr v | None => inl JSONDecodeError end.

Definition int_ (s : string) : exn + Z :=
  match Text.py_int s with Some n => inr n | None => inl ValueError end.

(** [file.read_text(encoding="utf-8")] *)
Definition read_text (file : Path.t) (fs : FS.t) : exn + string :=
  if FS.read_raises os file then inl OSError
  else match FS.read file fs with Some s => inr s | None => inl OSError end.

(** One of the five blocks of [verify_data_directories]: [False] when the
    directory is missing and cannot be made. *)
Definition ensure_dir (d : Path.t) : bool :=
  FS.dir_exists os d || negb (FS.mkdir_raises os d).

Definition verify_data_directories (fs : FS.t) : bool * FS.t :=
  if negb (ensure_dir (data_dir self)) then (false, fs)
  else if negb (ensure_dir (users_dir self)) then (false, fs)
  else if negb (ensure_dir (profiles_dir self)) then (false, fs)
  else if negb (ensure_dir (user_profiles_dir self)) then (false, fs)
  else if negb (ensure_dir (conversations_dir self)) then (false, fs)
  else
    let test_file := Path.child (data_dir self) "write_test.tmp" in
    match FS.write_text os test_file "Test write access" fs with
    | (true, fs1) =>
        if FS.unlink_raises os test_file then (false, fs1)
        else (true, FS.remove test_file fs1)
    | (false, fs1) => (false, fs1)
    end.

(** [save_file(path, data, temp_suffix)] *)
Definition save_file (path : Path.t) (data : pyval) (temp_suffix : string)
    (fs : FS.t) : bool * FS.t :=
  match Path.with_suffix path temp_suffix with
  | None => (false, fs)
  | Some temp_path =>
      match json_dumps data with
      | None => (false, fs)
      | Some text =>
          match FS.write_text os temp_path text fs with
          | (true, fs1) =>
              if FS.exists_ temp_path fs1 then
                if FS.replace_raises os temp_path path then (false, fs1)
                else (true, FS.rename temp_path path fs1)
              else (false, fs1)
          | (false, fs1) => (false, fs1)
          end
      end
  end.

(** The states of the disk a reader (or a crash) can meet while
    [save_file] runs, in order; the starting state is not listed. *)
Definition save_file_steps (path : Path.t) (data : pyval) (temp_suffix : string)
    (fs : FS.t) : list FS.t :=
  match Path.with_suffix path temp_suffix with
  | None => []
  | Some temp_path =>
      match json_dumps data with
      | None => []
      | Some text =>
          FS.write_text_steps os temp_path text fs
          ++ match FS.write_text os temp_path text fs with
             | (true, fs1) =>
                 if FS.exists_ temp_path fs1 then
                   if FS.replace_raises os temp_path path then []
                   else [FS.rename temp_path path fs1]
                 else []
             | (false, _) => []
             end
      end
  end.

(** The default of [temp_suffix]. *)
Definition tmp : string := ".tmp".

Definition set_emotion (uid : Z) (v : pyval) : EM.t -> EM.t :=
  EM.with_user_emotions (store uid v).
Definition set_relationship (uid : Z) (v : pyval) : EM.t -> EM.t :=
  EM.with_relationship_progress (store uid v).
Definition set_stats (uid : Z) (v : pyval) : EM.t -> EM.t :=
  EM.with_interaction_stats (store uid v).

(** The body of the [try] of [load_user_profile], from [json.loads] on. *)
Definition split_profile (user_id : Z) (data : pyval) : M EM.t pyval :=
  has_rel <- lift (py_in "relationship" data) ;;
  data1 <- (if has_rel : bool then
              popped <- lift (py_pop "relationship" data) ;;
              modify (set_relationship user_id (fst popped)) ;;;
              ret (snd popped)
            else ret data) ;;
  has_stats <- lift (py_in "interaction_stats" data1) ;;
  if has_stats : bool then
    popped <- lift (py_pop_default "interaction_stats" (VDict []) data1) ;;
    stats <- lift (Counter (fst popped)) ;;
    modify (set_stats user_id stats) ;;;
    ret (snd popped)
  else ret data1.

(** [load_user_profile(user_id, emotion_manager)] *)
Definition load_user_profile (user_id : Z) (em : EM.t) (fs : FS.t)
    : pyval * EM.t :=
  let profile_path := Path.child (profiles_dir self) (str_of_int user_id ++ ".json") in
  if FS.exists_ profile_path fs then
    match (file_content <- lift (read_text profile_path fs) ;;
           if Text.blank file_content then ret None
           else data <- lift (loads file_content) ;;
                rest <- split_profile user_id data ;;
                ret (Some rest)) em with
    | Returned (Some data) em1 => (data, em1)
    | Returned None em1 => (VDict [], em1)
    | Raised _ em1 => (VDict [], em1)
    end
  else (VDict [], em).

(** One of the three blocks of [save_user_profile] for a list family: the
    file is written when the user has a non-empty entry; the message printed
    after a successful write takes [len] of the entry. *)
Definition save_list (ending : string) (container : umap pyval) (user_id : Z)
    : M FS.t unit :=
  fun fs =>
    match lookup user_id container with
    | Some v =>
        if truthy v then
          match save_file (Path.child (profiles_dir self) (str_of_int user_id ++ ending))
                          v tmp fs with
          | (true, fs1) => (lift (py_len v) ;;; ret tt) fs1
          | (false, fs1) => Returned tt fs1
          end
        else Returned tt fs
    | None => Returned tt fs
    end.

(** The body of the [try] of [save_user_profile].  [data] is the object the
    emotion container holds for [user_id] when it holds one, so the two
    assignments show in the container; a user without an entry gets a new
    dictionary that nothing else refers to. *)
Definition save_user_profile_body (user_id : Z) : M (EM.t * FS.t) unit :=
  fun '(em, fs) =>
    if FS.mkdir_raises os (profiles_dir self) then Raised OSError (em, fs)
    else
      let path := Path.child (profiles_dir self) (str_of_int user_id ++ ".json") in
      let data := lookup_default user_id (VDict []) (EM.user_emotions em) in
      let keep (d : pyval) (m : EM.t) : EM.t :=
        if has_key user_id (EM.user_emotions em) then set_emotion user_id d m else m in
      match py_setitem "relationship"
              (lookup_default user_id (VDict []) (EM.relationship_progress em)) data with
      | inl e => Raised e (em, fs)
      | inr data1 =>
          let em1 := keep data1 em in
          match py_dict (lookup_default user_id (VDict []) (EM.interaction_stats em1)) with
          | inl e => Raised e (em1, fs)
          | inr stats =>
              match py_setitem "interaction_stats" stats data1 with
              | inl e => Raised e (em1, fs)
              | inr data2 =>
                  let em2 := keep data2 em1 in
                  let fs1 := snd (save_file path data2 tmp fs) in
                  match (save_list "_memories.json" (EM.user_memories em2) user_id ;;;
                         save_list "_events.json" (EM.user_events em2) user_id ;;;
                         save_list "_milestones.json" (EM.user_milestones em2) user_id) fs1 with
                  | Returned _ fs2 => Returned tt (em2, fs2)
                  | Raised e fs2 => Raised e (em2, fs2)
                  end
              end
          end
      end.

(** [save_user_profile(user_id, emotion_manager)] *)
Definition save_user_profile (user_id : Z) (em : EM.t) (fs : FS.t)
    : bool * (EM.t * FS.t) :=
  match save_user_profile_body user_id (em, fs) with
  | Returned _ s => (true, s)
  | Raised _ s => (false, s)
  end.

(** [save_conversation(user_id, conversation_manager)], the clock reading
    [now].  Nothing in its [try] can raise. *)
Definition save_conversation (user_id : Z) (cm : CM.t) (now : string)
    (fs : FS.t) : bool * FS.t :=
  let fs1 :=
    match lookup user_id (CM.conversations cm) with
    | Some conv =>
        snd (save_file (Path.child (conversations_dir self)
                          (str_of_int user_id ++ "_conversations.json")) conv tmp fs)
    | None => fs
    end in
  let fs2 :=
    match lookup user_id (CM.conversation_summaries cm) with
    | Some summary =>
        snd (save_file (Path.child (conversations_dir self)
                          (str_of_int user_id ++ "_summary.json"))
               (VDict [(VStr "summary", summary); (VStr "updated_at", VStr now)])
               tmp fs1)
    | None => fs1
    end in
  (true, fs2).

(** [save_user_profile_data(user_id, profile)] *)
Definition save_user_profile_data (user_id : Z) (profile : UserProfile.t)
    (fs : FS.t) : bool * FS.t :=
  match UserProfile.call_to_dict profile with
  | inl _ => (false, fs)
  | inr d =>
      (true, snd (save_file (Path.child (user_profiles_dir self)
                               (str_of_int user_id ++ "_profile.json"))
                    (VDict d) tmp fs))
  end.

(** [save_dm_settings(dm_enabled_users)] *)
Definition save_dm_settings (dm_enabled_users : list pyval) (fs : FS.t)
    : bool * FS.t :=
  save_file (dm_settings_file self)
    (VDict [(VStr "enabled_users", VList dm_enabled_users)]) tmp fs.

(** One turn of the loop of [save_data]; [clock] gives the reading taken
    while the summary of a user is written. *)
Definition save_user (conversation_manager : option CM.t) (clock : Z -> string)
    (user_id : Z) (acc : bool * (EM.t * FS.t)) : bool * (EM.t * FS.t) :=
  let '(success, (em, fs)) := acc in
  let '(profile_success, (em1, fs1)) := save_user_profile user_id em fs in
  let success1 := success && profile_success in
  match conversation_manager with
  | Some cm =>
      if has_key user_id (CM.conversations cm) then
        let '(conv_success, fs2) := save_conversation user_id cm (clock user_id) fs1 in
        let success2 := success1 && conv_success in
        match lookup user_id (CM.user_profiles cm) with
        | Some profile =>
            let '(profile_success2, fs3) := save_user_profile_data user_id profile fs2 in
            (success2 && profile_success2, (em1, fs3))
        | None => (success2, (em1, fs2))
        end
      else (success1, (em1, fs1))
  | None => (success1, (em1, fs1))
  end.

(** [save_data(emotion_manager, conversation_manager)]: the loop runs over
    the keys the emotion container has when it starts. *)
Definition save_data (em : EM.t) (conversation_manager : option CM.t)
    (clock : Z -> string) (fs : FS.t) : bool * (EM.t * FS.t) :=
  let '(success, (em1, fs1)) :=
    fold_left (fun acc user_id => save_user conversation_manager clock user_id acc)
              (map fst (EM.user_emotions em)) (true, (em, fs)) in
  let '(dm_success, fs2) := save_dm_settings (EM.dm_enabled_users em1) fs1 in
  (success && dm_success, (em1, fs2)).

(** The body of the [try] in the first loop of [load_data]: [true] when the
    file was counted as a profile, [false] when it was empty ([continue]).
    The document is stored whole, and the two sub-documents are read with
    [.get], which leaves them in it. *)
Definition load_profile_entry (file : Path.t) (fs : FS.t) : M EM.t bool :=
  uid <- lift (int_ (Path.stem file)) ;;
  file_content <- lift (read_text file fs) ;;
  if Text.blank file_content then ret false
  else
    data <- lift (loads file_content) ;;
    modify (set_emotion uid data) ;;;
    has_rel <- lift (py_in "relationship" data) ;;
    (if has_rel : bool then
       v <- lift (py_get "relationship" (VDict []) data) ;;
       modify (set_relationship uid v)
     else ret tt) ;;;
    has_stats <- lift (py_in "interaction_stats" data) ;;
    (if has_stats : bool then
       v <- lift (py_get "interaction_stats" (VDict []) data) ;;
       stats <- lift (Counter v) ;;
       modify (set_stats uid stats)
     else ret tt) ;;;
    ret true.

(** The first loop of [load_data], with its two counters. *)
Fixpoint load_profiles (files : list Path.t) (fs : FS.t)
    (profile_count error_count : nat) (em : EM.t) : nat * nat * EM.t :=
  match files with
  | [] => (profile_count, error_count, em)
  | file :: rest =>
      if Text.has_char "_" (Path.stem file)
      then load_profiles rest fs profile_count error_count em
      else
        match load_profile_entry file fs em with
        | Returned true em1 => load_profiles rest fs (S profile_count) error_count em1
        | Returned false em1 => load_profiles rest fs profile_count error_count em1
        | Raised _ em1 => load_profiles rest fs profile_count (S error_count) em1
        end
  end.

(** The loops over [*_memories.json], [*_events.json], [*_milestones.json]
    and [*_conversations.json] have one body: the decoded file becomes the
    entry of the user named before the first underscore. *)
Definition load_family_entry (file : Path.t) (fs : FS.t) : M (umap pyval) bool :=
  uid <- lift (int_ (Text.before "_" (Path.stem file))) ;;
  file_content <- lift (read_text file fs) ;;
  if negb (Text.blank file_content) then
    data <- lift (loads file_content) ;;
    modify (store uid data) ;;;
    ret true
  else ret false.

(** The body of the loop over [*_summary.json]. *)
Definition load_summary_entry (file : Path.t) (fs : FS.t) : M (umap pyval) bool :=
  uid <- lift (int_ (Text.before "_" (Path.stem file))) ;;
  file_content <- lift (read_text file fs) ;;
  if negb (Text.blank file_content) then
    data <- lift (loads file_content) ;;
    summary <- lift (py_get "summary" (VStr EmptyString) data) ;;
    modify (store uid summary) ;;;
    ret true
  else ret false.

(** The body of the loop over [*_profile.json]: the class is taken from the
    profile the manager already holds for the user, a [KeyError] when it
    holds none.  [stamps] gives the two clock readings of the constructor. *)
Definition load_profile_data_entry (stamps : Path.t -> string * string)
    (file : Path.t) (fs : FS.t) : M (umap UserProfile.t) bool :=
  uid <- lift (int_ (Text.before "_" (Path.stem file))) ;;
  file_content <- lift (read_text file fs) ;;
  if negb (Text.blank file_content) then
    data <- lift (loads file_content) ;;
    (fun profiles => match lookup uid profiles with
                     | Some _ => Returned tt profiles
                     | None => Raised KeyError profiles
                     end) ;;;
    profile <- lift (UserProfile.from_dict data (fst (stamps file)) (snd (stamps file))) ;;
    modify (store uid profile) ;;;
    ret true
  else ret false.

(** A loop whose body is wrapped in [try]/[except Exception]: the count of
    the turns that loaded a file, and the container. *)
Fixpoint try_each {St} (body : Path.t -> M St bool) (files : list Path.t)
    (count : nat) (s : St) : nat * St :=
  match files with
  | [] => (count, s)
  | file :: rest =>
      match body file s with
      | Returned true s1 => try_each body rest (S count) s1
      | Returned false s1 => try_each body rest count s1
      | Raised _ s1 => try_each body rest count s1
      end
  end.

(** The loop that adds [first_interaction]; [clock] gives the reading taken
    for a user.  Nothing catches what it raises. *)
Fixpoint backfill (clock : Z -> string) (uids : list Z) : M EM.t unit :=
  match uids with
  | [] => ret tt
  | uid :: rest =>
      fun em =>
        let data := lookup_default uid VNone (EM.user_emotions em) in
        (has_first <- lift (py_in "first_interaction" data) ;;
         if has_first : bool then backfill clock rest
         else
           v <- lift (py_get "last_interaction" (VStr (clock uid)) data) ;;
           data1 <- lift (py_setitem "first_interaction" v data) ;;
           modify (set_emotion uid data1) ;;;
           backfill clock rest) em
  end.

(** [load_dm_settings()] *)
Definition load_dm_settings (fs : FS.t) : list pyval :=
  if FS.exists_ (dm_settings_file self) fs then
    match (file_content <- lift (read_text (dm_settings_file self) fs) ;;
           if negb (Text.blank file_content) then
             data <- lift (loads file_content) ;;
             users <- lift (py_get "enabled_users" (VList []) data) ;;
             lift (set_of users)
           else ret []) tt with
    | Returned users _ => users
    | Raised _ _ => []
    end
  else [].

(** What [load_data] returns, and the two numbers of the line
    "Loaded {profile_count} profiles with {error_count} errors" when it gets
    to print it. *)
Record load_result : Type := mk_result {
  success : bool;
  profiles_reported : option (nat * nat)
}.

(** [load_data(emotion_manager, conversation_manager)] in a module whose
    global names are [globals].  The second assignment calls [defaultdict]. *)
Definition load_data (globals : list string) (clock : Z -> string)
    (stamps : Path.t -> string * string) (w : world)
    : outcome load_result world :=
  let '(em, cm, fs) := w in
  let em0 := EM.with_user_emotions (fun _ => []) em in
  if negb (name_bound globals "defaultdict") then Raised NameError (em0, cm, fs)
  else
    let em1 := EM.mk [] [] [] [] [] [] (EM.dm_enabled_users em) in
    match verify_data_directories fs with
    | (false, fs1) => Returned (mk_result false None) (em1, cm, fs1)
    | (true, fs1) =>
        let '(profile_count, error_count, em2) :=
          load_profiles (FS.glob (profiles_dir self) ".json" fs1) fs1 0 0 em1 in
        let printed := (profile_count, error_count) in
        let '(memory_count, memories) :=
          try_each (fun f => load_family_entry f fs1)
            (FS.glob (profiles_dir self) "_memories.json" fs1) 0 (EM.user_memories em2) in
        let '(events_count, events) :=
          try_each (fun f => load_family_entry f fs1)
            (FS.glob (profiles_dir self) "_events.json" fs1) 0 (EM.user_events em2) in
        let '(milestones_count, milestones) :=
          try_each (fun f => load_family_entry f fs1)
            (FS.glob (profiles_dir self) "_milestones.json" fs1) 0 (EM.user_milestones em2) in
        let em3 := EM.mk (EM.user_emotions em2) memories events milestones
                     (EM.interaction_stats em2) (EM.relationship_progress em2)
                     (EM.dm_enabled_users em2) in
        (* [profile_count] starts again from zero here *)
        let '(profile_count, profiles) :=
          try_each (fun f => load_profile_data_entry stamps f fs1)
            (FS.glob (user_profiles_dir self) "_profile.json" fs1) 0 (CM.user_profiles cm) in
        let '(conversation_count, conversations) :=
          try_each (fun f => load_family_entry f fs1)
            (FS.glob (conversations_dir self) "_conversations.json" fs1) 0
            (CM.conversations cm) in
        let '(summary_count, summaries) :=
          try_each (fun f => load_summary_entry f fs1)
            (FS.glob (conversations_dir self) "_summary.json" fs1) 0
            (CM.conversation_summaries cm) in
        let cm1 := CM.mk conversations summaries profiles in
        match backfill clock (map fst (EM.user_emotions em3)) em3 with
        | Raised e em4 => Raised e (em4, cm1, fs1)
        | Returned _ em4 =>
            let em5 := EM.mk (EM.user_emotions em4) (EM.user_memories em4)
                         (EM.user_events em4) (EM.user_milestones em4)
                         (EM.interaction_stats em4) (EM.relationship_progress em4)
                         (load_dm_settings fs1) in
            Returned (mk_result (0 <? profile_count)%nat (Some printed))
                     (em5, cm1, fs1)
        end
    end.

End Methods.

(** The files the first loop of [load_data] reads: those of
    [profiles_dir.glob("*.json")] whose stem has no underscore. *)
Definition composites (self : t) (fs : FS.t) : list Path.t :=
  filter (fun file => negb (Text.has_char "_" (Path.stem file)))
         (FS.glob (profiles_dir self) ".json" fs).

(** A file that can be read, is not blank and does not decode. *)
Definition malformed (json_loads : string -> option pyval) (os : FS.env)
    (fs : FS.t) (file : Path.t) : Prop :=
  FS.read_raises os file = false
  /\ exists text, FS.read file fs = Some text
                  /\ Text.blank text = false /\ json_loads text = None.

(** A file named after user [uid] that decodes to the mapping [d], whose
    statistics, when it has any, are a mapping. *)
Definition decodes_to (json_loads : string -> option pyval) (os : FS.env)
    (fs : FS.t) (file : Path.t) (uid : Z) (d : dict) : Prop :=
  Text.py_int (Path.stem file) = Some uid
  /\ FS.read_raises os file = false
  /\ (exists text, FS.read file fs = Some text
                   /\ Text.blank text = false /\ json_loads text = Some (VDict d))
  /\ match dict_get "interaction_stats" d with
     | None | Some (VDict _) => True
     | Some _ => False
     end.

(** The document [save_user_profile] builds from the entry [d] of a user
    whose statistics are [c]. *)
Definition recomposed (em : EM.t) (uid : Z) (d c : dict) : pyval :=
  VDict (dict_set "interaction_stats" (VDict c)
           (dict_set "relationship"
              (lookup_default uid (VDict []) (EM.relationship_progress em)) d)).

End StorageManager.

(** ** The three list families of [save_user_profile] *)

Module Family.

Inductive t : Type := Memories | Events | Milestones.

(** the ending of the file name, as the f-strings spell it *)
Definition ending (f : t) : string :=
  match f with
  | Memories => "_memories.json"
  | Events => "_events.json"
  | Milestones => "_milestones.json"
  end.

(** the container the family lives in *)
Definition container (f : t) (em : EmotionManager.t) : umap pyval :=
  match f with
  | Memories => EmotionManager.user_memories em
  | Events => EmotionManager.user_events em
  | Milestones => EmotionManager.user_milestones em
  end.

(** The ending is a base without a dot, then [.json]. *)
Definition base (f : t) : string :=
  match f with
  | Memories => "_memories"
  | Events => "_events"
  | Milestones => "_milestones"
  end.

(** The bases of the other files a user gets: the composite document, the
    conversation, the summary, the profile. *)
Definition other_bases : list string :=
  [EmptyString; "_conversations"; "_summary"; "_profile"].

(** the path [save_file] writes first: [.json] replaced by [.tmp] *)
Definition temp_path (self : StorageManager.t) (f : t) (user_id : Z) : Path.t :=
  Path.child (StorageManager.profiles_dir self) (str_of_int user_id ++ (base f ++ ".tmp")).

(** [profiles_dir / f"{user_id}_memories.json"] and its two siblings *)
Definition path (self : StorageManager.t) (f : t) (user_id : Z) : Path.t :=
  Path.child (StorageManager.profiles_dir self) (str_of_int user_id ++ ending f).

(** the entry of the user is missing or a list *)
Definition listed (f : t) (em : EmotionManager.t) (user_id : Z) : bool :=
  match lookup user_id (container f em) with
  | None | Some (VList _) => true
  | Some _ => false
  end.

(** the entry of the user is missing or empty: nothing to save *)
Definition vacant (f : t) (em : EmotionManager.t) (user_id : Z) : bool :=
  match lookup user_id (container f em) with
  | None => true
  | Some v => negb (truthy v)
  end.

End Family.

(** ** Library functions and a disk for the examples *)

Module Demo.

Local Open Scope string_scope.

Definition quote : string := String "034"%char EmptyString.
Definition newline : string := String "010"%char EmptyString.

(** [s] between double quotes *)
Definition q (s : string) : string := quote ++ s ++ quote.

Fixpoint spaces (n : nat) : string :=
  match n with O => EmptyString | S k => String " " (spaces k) end.

(** Printable ASCII other than the double quote and the backslash: what
    [json.dumps] copies as it is. *)
Fixpoint plain (s : string) : bool :=
  match s with
  | EmptyString => true
  | String c rest =>
      let n := nat_of_ascii c in
      ((32 <=? n) && (n <=? 126) && negb (n =? 34) && negb (n =? 92))%nat
      && plain rest
  end.

(** [json.dumps(v, indent=2)] on documents without floats, with plain
    strings and string keys; [None] outside that fragment. *)
Fixpoint dumps_at (level : nat) (v : pyval) : option string :=
  let pad := newline ++ spaces (2 * S level) in
  let close := newline ++ spaces (2 * level) in
  match v with
  | VNone => Some "null"
  | VBool true => Some "true"
  | VBool false => Some "false"
  | VInt z => Some (str_of_int z)
  | VFloat _ => None
  | VStr s => if plain s then Some (q s) else None
  | VList [] => Some "[]"
  | VList items =>
      let fix go (l : list pyval) : option (list string) :=
        match l with
        | nil => Some nil
        | cons x rest =>
            match dumps_at (S level) x, go rest with
            | Some a, Some b => Some (cons a b)
            | _, _ => None
            end
        end in
      match go items with
      | Some parts => Some ("[" ++ pad ++ String.concat ("," ++ pad) parts ++ close ++ "]")
      | None => None
      end
  | VDict [] => Some "{}"
  | VDict entries =>
      let fix go (l : list (pyval * pyval)) : option (list string) :=
        match l with
        | nil => Some nil
        | cons (VStr k, x) rest =>
            if plain k then
              match dumps_at (S level) x, go rest with
              | Some a, Some b => Some (cons (q k ++ ": " ++ a) b)
              | _, _ => None
              end
            else None
        | cons _ _ => None
        end in
      match go entries with
      | Some parts => Some ("{" ++ pad ++ String.concat ("," ++ pad) parts ++ close ++ "}")
      | None => None
      end
  end.

Definition dumps (v : pyval) : option string := dumps_at 0 v.

(** The composite document of user 42 and its text. *)
Definition doc42 : pyval :=
  VDict [(VStr "mood", VStr "happy");
         (VStr "relationship", VDict [(VStr "trust", VInt 5)]);
         (VStr "interaction_stats", VDict [(VStr "greet", VInt 3)])].

Definition text42 : string :=
  "{" ++ q "mood" ++ ":" ++ q "happy" ++ ","
      ++ q "relationship" ++ ":{" ++ q "trust" ++ ":5},"
      ++ q "interaction_stats" ++ ":{" ++ q "greet" ++ ":3}}".

(** A second composite document, a profile document and a text that is no
    JSON. *)
Definition doc7 : pyval := VDict [(VStr "mood", VStr "calm")].
Definition text7 : string := "{" ++ q "mood" ++ ":" ++ q "calm" ++ "}".

Definition profile42 : pyval := VDict [(VStr "user_id", VInt 42); (VStr "name", VStr "Ann")].
Definition profile42_text : string :=
  "{" ++ q "user_id" ++ ":42," ++ q "name" ++ ":" ++ q "Ann" ++ "}".

Definition broken_text : string := "{" ++ q "mood" ++ ":".

(** [json.loads] on the texts above: the documents they spell, and a
    decoding error for the broken one.  Other texts do not occur. *)
Definition loads (s : string) : option pyval :=
  if String.eqb s text42 then Some doc42
  else if String.eqb s text7 then Some doc7
  else if String.eqb s profile42_text then Some profile42
  else None.

(** [Counter] on a sequence, [dict] on a non-mapping, [set]: the examples
    reach them with empty arguments at most. *)
Definition count_items (v : pyval) : exn + pyval :=
  match v with
  | VList [] | VStr EmptyString => inr (VDict [])
  | _ => inl TypeError
  end.

Definition dict_of_iterable (v : pyval) : exn + pyval :=
  match v with
  | VList [] | VStr EmptyString => inr (VDict [])
  | _ => inl TypeError
  end.

Definition set_of (v : pyval) : exn + list pyval :=
  match v with
  | VList [] | VStr EmptyString | VDict [] => inr []
  | _ => inl TypeError
  end.

(** A disk on which every directory exists and nothing fails. *)
Definition quiet : FS.env :=
  FS.mk_env (fun _ => true) (fun _ => false) (fun _ => FS.NoFault)
            (fun _ => false) (fun _ _ => false) (fun _ => false).

(** A layout of the data directories. *)
Definition storage : StorageManager.t :=
  StorageManager.mk ["data"] ["data"; "users"] ["data"; "users"; "profiles"]
    ["data"; "dm_settings.json"] ["data"; "users"; "user_profiles"]
    ["data"; "users"; "conversations"].

(** Fifteen messages, numbered. *)
Definition fifteen_messages : list (pyval * pyval * string) :=
  map (fun n => (VStr (str_of_int (Z.of_nat n)), VBool false, str_of_int (Z.of_nat n)))
      (seq 1 15).

Definition no_emotions : EmotionManager.t := EmotionManager.mk [] [] [] [] [] [] [].
Definition no_conversations : ConversationManager.t := ConversationManager.mk [] [] [].

(** A profiles directory that holds [42.json] alone; one that holds two
    decodable documents and a broken one. *)
Definition only_42 : FS.t :=
  [(["data"; "users"; "profiles"; "42.json"], text42)].

Definition two_good_one_broken : FS.t :=
  [(["data"; "users"; "profiles"; "42.json"], text42);
   (["data"; "users"; "profiles"; "9.json"], broken_text);
   (["data"; "users"; "profiles"; "7.json"], text7)].

(** A manager that knows user 42 only, and the same with one memory. *)
Definition happy : pyval := VDict [(VStr "mood", VStr "happy")].

Definition one_user : EmotionManager.t :=
  EmotionManager.mk [(42%Z, happy)] [] [] [] [] [] [].

Definition one_memory : EmotionManager.t :=
  EmotionManager.mk [(42%Z, happy)] [(42%Z, VList [VStr "met at the park"])] [] [] [] [] [].

(** A manager that holds a memory of user 7 and no emotions of anyone. *)
Definition memory_only : EmotionManager.t :=
  EmotionManager.mk [] [(7%Z, VList [VStr "met at the park"])] [] [] [] [] [].

(** A disk that refuses to open [42.tmp] in the profiles directory. *)
Definition no_room_for_42 : FS.env :=
  FS.mk_env (fun _ => true) (fun _ => false)
    (fun p => if Path.eqb p ["data"; "users"; "profiles"; "42.tmp"]
              then FS.OpenFails else FS.NoFault)
    (fun _ => false) (fun _ _ => false) (fun _ => false).

(** A disk on which no directory can be made. *)
Definition no_mkdir : FS.env :=
  FS.mk_env (fun _ => false) (fun _ => true) (fun _ => FS.NoFault)
    (fun _ => false) (fun _ _ => false) (fun _ => false).

(** The module with the missing name imported. *)
Definition globals_with_defaultdict : list string :=
  "defaultdict" :: StorageManager.module_globals.

End Demo.

(** ** models/user_profile.py: [get_summary] *)

Module ProfileSummary.

(** The items of a list when all of them are strings; [str.join] raises for
    anything else. *)
Fixpoint strings_of (items : list pyval) : option (list string) :=
  match items with
  | [] => Some []
  | VStr s :: rest => option_map (cons s) (strings_of rest)
  | _ :: _ => None
  end.

(** the characters of a string, as iterating it yields them *)
Definition chars (s : string) : list string :=
  map (fun c => String c EmptyString) (list_ascii_of_string s).

(** [sep.join(v[:n])]: a list is cut to its first [n] items, which must all
    be strings; a string is cut to its first [n] characters, which are then
    joined; no other truthy value can be sliced.  [None]: it raises. *)
Definition joined_prefix (sep : string) (n : nat) (v : pyval) : option string :=
  match v with
  | VList l => option_map (String.concat sep) (strings_of (firstn n l))
  | VStr s => Some (String.concat sep (chars (substring 0 n s)))
  | _ => None
  end.

(** [self.<field>] for a field the class does not define: the instance
    dictionary or [AttributeError]. *)
Definition read_field (self : UserProfile.t) (field : string) : option pyval :=
  dict_get field self.

Section WithStr.

(** [str(v)] for a value that is no string: what an f-string puts for it. *)
Variable py_str : pyval -> string.

(** [f"{v}"] *)
Definition format (v : pyval) : string :=
  match v with VStr s => s | _ => py_str v end.

(** The first block of [get_summary]: the name shown, if any. *)
Definition name_part (self : UserProfile.t) : option (list string) :=
  match read_field self "preferred_name" with
  | None => None
  | Some preferred =>
      if truthy preferred then Some [("Name: " ++ format preferred)%string]
      else
        match read_field self "nickname" with
        | None => None
        | Some nickname =>
            if truthy nickname then Some [("Name: " ++ format nickname)%string]
            else
              match read_field self "name" with
              | None => None
              | Some name =>
                  if truthy name then Some [("Name: " ++ format name)%string] else Some []
              end
        end
  end.

(** One of the four blocks that show the head of a list. *)
Definition list_part (label sep : string) (n : nat) (field : string)
    (self : UserProfile.t) : option (list string) :=
  match read_field self field with
  | None => None
  | Some v =>
      if truthy v
      then option_map (fun s => [(label ++ s)%string]) (joined_prefix sep n v)
      else Some []
  end.

(** The entries of [summary], in order. *)
Definition summary_parts (self : UserProfile.t) : option (list string) :=
  match name_part self with
  | None => None
  | Some a =>
  match list_part "Personality: " ", " 3 "personality_traits" self with
  | None => None
  | Some b =>
  match list_part "Interests: " ", " 3 "interests" self with
  | None => None
  | Some c =>
  match list_part "Notable facts: " "; " 2 "notable_facts" self with
  | None => None
  | Some d =>
  match list_part "Relationship context: " "; " 2 "relationship_context" self with
  | None => None
  | Some e => Some (a ++ b ++ c ++ d ++ e)
  end end end end end.

(** [self.get_summary()]; [None]: it raises. *)
Definition get_summary (self : UserProfile.t) : option string :=
  option_map (String.concat " | ") (summary_parts self).

End WithStr.

(** A profile as the heuristics of the bot leave it: the three names are
    [None] or strings, the four lists are lists of strings. *)
Definition name_typed (v : pyval) : bool :=
  match v with VNone | VStr _ => true | _ => false end.

Definition list_typed (v : pyval) : bool :=
  match v with
  | VList l => match strings_of l with Some _ => true | None => false end
  | _ => false
  end.

Definition field_is (test : pyval -> bool) (self : UserProfile.t) (field : string) : bool :=
  match dict_get field self with Some v => test v | None => false end.

Definition well_typed (self : UserProfile.t) : bool :=
  forallb (field_is name_typed self) ["preferred_name"; "nickname"; "name"]
  && forallb (field_is list_typed self)
       ["personality_traits"; "interests"; "notable_facts"; "relationship_context"].

End ProfileSummary.

(** ** models/managers/conversation.py: the other methods *)

Module Conversation.

Module CM := ConversationManager.

Definition with_user_profiles (self : CM.t) (p : umap UserProfile.t) : CM.t :=
  CM.mk (CM.conversations self) (CM.conversation_summaries self) p.

Definition with_summaries (self : CM.t) (s : umap pyval) : CM.t :=
  CM.mk (CM.conversations self) s (CM.user_profiles self).

Definition newline : string := String "010"%char EmptyString.

(** [msg[k]] for a string [k]: only a mapping has string keys.  [None]: it
    raises. *)
Definition py_getitem (k : string) (msg : pyval) : option pyval :=
  match msg with VDict d => dict_get k d | _ => None end.

(** What [for msg in v] runs over; [None]: [v] is not iterable. *)
Definition items_of (v : pyval) : option (list pyval) :=
  match v with
  | VList l => Some l
  | VStr s => Some (map VStr (ProfileSummary.chars s))
  | VDict d => Some (map fst d)
  | VNone | VBool _ | VInt _ | VFloat _ => None
  end.

Section WithStr.

Variable py_str : pyval -> string.

(** The line of one message. *)
Definition line (msg : pyval) : option string :=
  match py_getitem "from_bot" msg with
  | None => None
  | Some from_bot =>
      match py_getitem "content" msg with
      | None => None
      | Some content =>
          Some ((if truthy from_bot then "A2" else "User")
                ++ ": " ++ ProfileSummary.format py_str content)%string
      end
  end.

Fixpoint lines (msgs : list pyval) : option (list string) :=
  match msgs with
  | [] => Some []
  | msg :: rest =>
      match line msg with
      | None => None
      | Some l => option_map (cons l) (lines rest)
      end
  end.

(** [self.get_conversation_history(user_id)]; [None]: it raises. *)
Definition get_conversation_history (self : CM.t) (user_id : Z) : option string :=
  match lookup user_id (CM.conversations self) with
  | None => Some "No prior conversation."
  | Some v =>
      match items_of v with
      | None => None
      | Some msgs => option_map (String.concat newline) (lines msgs)
      end
  end.

End WithStr.

(** [self.get_or_create_profile(user_id, username)]: the profile and the
    manager afterwards.  [t_created] and [t_updated] are the clock readings
    of the constructor, used when a profile is made. *)
Definition get_or_create_profile (self : CM.t) (user_id : Z) (username : pyval)
    (t_created t_updated : string) : UserProfile.t * CM.t :=
  match lookup user_id (CM.user_profiles self) with
  | Some profile => (profile, self)
  | None =>
      let profile0 := UserProfile.init (VInt user_id) t_created t_updated in
      let profile := if truthy username then dict_set "name" username profile0
                     else profile0 in
      (profile, with_user_profiles self (store user_id profile (CM.user_profiles self)))
  end.

(** [self.update_name_recognition(user_id, name, nickname, preferred_name)];
    the profile is changed in place, so the manager holds the result. *)
Definition update_name_recognition (self : CM.t) (user_id : Z)
    (name nickname preferred_name : pyval) (t_created t_updated now : string)
    : UserProfile.t * CM.t :=
  let '(profile, self1) := get_or_create_profile self user_id VNone t_created t_updated in
  let profile1 := if truthy name then dict_set "name" name profile else profile in
  let profile2 := if truthy nickname then dict_set "nickname" nickname profile1
                  else profile1 in
  let profile3 := if truthy preferred_name
                  then dict_set "preferred_name" preferred_name profile2
                  else profile2 in
  let profile4 := dict_set "updated_at" (VStr now) profile3 in
  (profile4, with_user_profiles self1 (store user_id profile4 (CM.user_profiles self1))).

(** [self.get_preferred_name(user_id)]; [None]: it raises (the profile lacks
    the attribute read). *)
Definition get_preferred_name (self : CM.t) (user_id : Z) : option pyval :=
  match lookup user_id (CM.user_profiles self) with
  | None => Some VNone
  | Some profile =>
      match ProfileSummary.read_field profile "preferred_name" with
      | None => None
      | Some preferred =>
          if truthy preferred then Some preferred
          else
            match ProfileSummary.read_field profile "nickname" with
            | None => None
            | Some nickname =>
                if truthy nickname then Some nickname
                else
                  match ProfileSummary.read_field profile "name" with
                  | None => None
                  | Some name => if truthy name then Some name else Some VNone
                  end
            end
      end
  end.

End Conversation.

(** ** models/managers/storage.py: the loaders of one user *)

Module StorageLoaders.

Module CM := ConversationManager.

Section Methods.

Variable json_loads : string -> option pyval.
Variable os : FS.env.
Variable self : StorageManager.t.

Definition conversation_path (user_id : Z) : Path.t :=
  Path.child (StorageManager.conversations_dir self)
    (str_of_int user_id ++ "_conversations.json")%string.

Definition summary_path (user_id : Z) : Path.t :=
  Path.child (StorageManager.conversations_dir self)
    (str_of_int user_id ++ "_summary.json")%string.

Definition profile_path (user_id : Z) : Path.t :=
  Path.child (StorageManager.user_profiles_dir self)
    (str_of_int user_id ++ "_profile.json")%string.

(** The first half of the [try] of [load_conversation]. *)
Definition load_history (user_id : Z) (fs : FS.t) : M CM.t unit :=
  if FS.exists_ (conversation_path user_id) fs then
    file_content <- lift (StorageManager.read_text os (conversation_path user_id) fs) ;;
    if negb (Text.blank file_content) then
      data <- lift (StorageManager.loads json_loads file_content) ;;
      modify (fun cm => CM.with_conversations cm (store user_id data (CM.conversations cm)))
    else ret tt
  else ret tt.

(** The second half. *)
Definition load_summary (user_id : Z) (fs : FS.t) : M CM.t unit :=
  if FS.exists_ (summary_path user_id) fs then
    file_content <- lift (StorageManager.read_text os (summary_path user_id) fs) ;;
    if negb (Text.blank file_content) then
      data <- lift (StorageManager.loads json_loads file_content) ;;
      summary <- lift (py_get "summary" (VStr EmptyString) data) ;;
      modify (fun cm => Conversation.with_summaries cm
                          (store user_id summary (CM.conversation_summaries cm)))
    else ret tt
  else ret tt.

(** [load_conversation(user_id, conversation_manager)] *)
Definition load_conversation (user_id : Z) (cm : CM.t) (fs : FS.t) : bool * CM.t :=
  match (load_history user_id fs ;;; load_summary user_id fs) cm with
  | Returned _ cm1 => (true, cm1)
  | Raised _ cm1 => (false, cm1)
  end.

(** [load_user_profile_data(user_id, conversation_manager)]; the class of
    the new profile is read off the profile the manager holds. *)
Definition load_user_profile_data (user_id : Z) (cm : CM.t)
    (t_created t_updated : string) (fs : FS.t) : bool * CM.t :=
  if FS.exists_ (profile_path user_id) fs then
    match (file_content <- lift (StorageManager.read_text os (profile_path user_id) fs) ;;
           if negb (Text.blank file_content) then
             data <- lift (StorageManager.loads json_loads file_content) ;;
             (fun cm0 => match lookup user_id (CM.user_profiles cm0) with
                         | Some _ => Returned tt cm0
                         | None => Raised KeyError cm0
                         end) ;;;
             profile <- lift (UserProfile.from_dict data t_created t_updated) ;;
             modify (fun cm0 => Conversation.with_user_profiles cm0
                                  (store user_id profile (CM.user_profiles cm0))) ;;;
             ret true
           else ret false) cm with
    | Returned b cm1 => (b, cm1)
    | Raised _ cm1 => (false, cm1)
    end
  else (false, cm).

End Methods.

End StorageLoaders.

(** ** models/managers/conversation.py: [generate_summary] *)

Module Summaries.

Module CM := ConversationManager.

Local Open Scope string_scope.

(** [str.lower] on text of code points below 256: the letters [A-Z], and the
    accented capitals but the multiplication sign. *)
Definition lower_char (c : ascii) : ascii :=
  let n := nat_of_ascii c in
  if (((65 <=? n) && (n <=? 90))
      || ((192 <=? n) && (n <=? 222) && negb (n =? 215)))%nat
  then ascii_of_nat (n + 32) else c.

Fixpoint lower (s : string) : string :=
  match s with
  | EmptyString => EmptyString
  | String c rest => String (lower_char c) (lower rest)
  end.

(** [s.split()]: the runs of characters between white space; [word] is the
    run being read. *)
Fixpoint split_from (s : string) (word : string) : list string :=
  match s with
  | EmptyString => if String.eqb word EmptyString then nil else cons word nil
  | String c rest =>
      if Text.is_space c
      then if String.eqb word EmptyString then split_from rest EmptyString
           else cons word (split_from rest EmptyString)
      else split_from rest (word ++ String c EmptyString)
  end.

Definition split (s : string) : list string := split_from s EmptyString.

Definition stop_words : list string :=
  cons "about" (cons "would" (cons "could" (cons "should" (cons "their"
    (cons "there" (cons "these" (cons "those" (cons "have" (cons "being" nil))))))))).

(** [len(word) > 4 and word not in [...]] *)
Definition is_topic (word : string) : bool :=
  (4 <? String.length word)%nat && negb (existsb (String.eqb word) stop_words).

(** The words the fallback adds to [topics], in the order it adds them.
    Only a string has [.lower]; [None]: the loop raises. *)
Fixpoint topic_words (msgs : list pyval) : option (list string) :=
  match msgs with
  | nil => Some nil
  | cons msg rest =>
      match Conversation.py_getitem "content" msg with
      | Some (VStr content) =>
          option_map (app (filter is_topic (split (lower content)))) (topic_words rest)
      | _ => None
      end
  end.

(** [text[-1000:]] when the text is longer than that *)
Definition clip (text : string) : string :=
  if (1000 <? String.length text)%nat
  then substring (String.length text - 1000) 1000 text
  else text.

Definition not_enough : string := "Not enough conversation history for a summary.".
Definition no_topic : string := "Brief conversation with no clear topic.".

Section WithLibrary.

Variable py_str : pyval -> string.

(** The order in which a set of strings is iterated, given the strings in
    the order they were added. *)
Variable set_order : list string -> list string.

(** [helper]: [None] when no transformer helper is given or usable;
    otherwise what the guarded call of the summarizer assigns to [summary]
    for a text, [None] when it assigns nothing (it raised, or gave no
    result). *)
Variable helper : option (string -> option pyval).

(** The fallback: a summary from the words of the recent messages. *)
Definition from_topics (recent : list pyval) : option pyval :=
  match topic_words recent with
  | None => None
  | Some words =>
      match set_order words with
      | nil => Some (VStr no_topic)
      | topics =>
          Some (VStr ("Recent conversation about: "
                      ++ String.concat ", " (firstn 3 topics) ++ "."))
      end
  end.

(** [self.generate_summary(user_id, transformer_helper)]: the summary
    returned and the manager afterwards.  [None]: the call raises; it does
    so before it has stored anything. *)
Definition generate_summary (self : CM.t) (user_id : Z) : option (pyval * CM.t) :=
  match lookup user_id (CM.conversations self) with
  | None => Some (VStr not_enough, self)
  | Some entry =>
      match py_len entry with
      | inl _ => None
      | inr n =>
          if (n <? 3)%nat then Some (VStr not_enough, self)
          else
            match entry with
            | VList l =>
                let recent_msgs := CM.last_n 5 l in
                match Conversation.lines py_str recent_msgs with
                | None => None
                | Some history =>
                    let conversation_text := String.concat Conversation.newline history in
                    let summary :=
                      match helper with
                      | Some summarize =>
                          match summarize (clip conversation_text) with
                          | Some v => v
                          | None => VStr EmptyString
                          end
                      | None => VStr EmptyString
                      end in
                    let store_summary (v : pyval) :=
                      Some (v, Conversation.with_summaries self
                                 (store user_id v (CM.conversation_summaries self))) in
                    if truthy summary then store_summary summary
                    else
                      match from_topics recent_msgs with
                      | None => None
                      | Some v => store_summary v
                      end
                end
            | _ => None
            end
      end
  end.

End WithLibrary.

End Summaries.

(** ** models/managers/conversation.py: [extract_profile_info] *)

Module ProfileInfo.

Module CM := ConversationManager.

Local Open Scope string_scope.

Definition interest_patterns : list string :=
  cons "I (?:like|love|enjoy) (\w+ing)"
    (cons "I'm (?:interested in|passionate about) ([^.,]+)"
       (cons "favorite (?:hobby|activity) is ([^.,]+)" nil)).

Definition trait_patterns : list string :=
  cons "I am (?:quite |very |extremely |really |)(\w+)"
    (cons "I'm (?:quite |very |extremely |really |)(\w+)"
       (cons "I consider myself (?:quite |very |extremely |really |)(\w+)" nil)).

Definition personality_traits : list string :=
  cons "shy" (cons "outgoing" (cons "confident" (cons "anxious" (cons "creative"
    (cons "logical" (cons "hardworking" (cons "laid-back" (cons "organized"
    (cons "spontaneous" (cons "sensitive" (cons "resilient" (cons "introverted"
    (cons "extroverted" (cons "curious" (cons "cautious" nil))))))))))))))).

Definition fact_patterns : list string :=
  cons "I (?:work as|am) an? ([^.,]+)"
    (cons "I live in ([^.,]+)"
       (cons "I'm from ([^.,]+)"
          (cons "I've been ([^.,]+)" nil))).

Definition name_patterns : list string :=
  cons "my name(?:'s| is) ([^.,]+)"
    (cons "call me ([^.,]+)"
       (cons "I go by ([^.,]+)" nil)).

(** A [for] loop whose body may raise. *)
Fixpoint for_each {St A} (body : A -> M St unit) (l : list A) : M St unit :=
  match l with
  | nil => ret tt
  | cons x rest => body x ;;; for_each body rest
  end.

(** [if c not in profile.<field>: profile.<field>.append(c)]: membership is
    tested on whatever the attribute holds, and only a list has
    [.append]. *)
Definition append_new (field : string) (c : string) : M UserProfile.t unit :=
  fun profile =>
    match dict_get field profile with
    | None => Raised AttributeError profile
    | Some v =>
        match py_in c v with
        | inl e => Raised e profile
        | inr true => Returned tt profile
        | inr false =>
            match v with
            | VList l => Returned tt (dict_set field (VList (l ++ cons (VStr c) nil)) profile)
            | _ => Raised AttributeError profile
            end
        end
    end.

Section WithRegex.

(** [re.finditer(pattern, text, re.I)]: group 0 and group 1 of each match,
    in order.  [re.search] finds the first of them. *)
Variable finditer : string -> string -> list (string * string).

Definition search (pattern text : string) : option (string * string) :=
  match finditer pattern text with
  | nil => None
  | cons m _ => Some m
  end.

Definition extract_interests (message_content : string) : M UserProfile.t unit :=
  for_each (fun pattern =>
    for_each (fun m : string * string =>
      let interest := Summaries.lower (Text.strip (snd m)) in
      if negb (String.eqb interest EmptyString) then append_new "interests" interest
      else ret tt)
      (finditer pattern message_content))
    interest_patterns.

Definition extract_traits (message_content : string) : M UserProfile.t unit :=
  for_each (fun pattern =>
    for_each (fun m : string * string =>
      let trait := Summaries.lower (Text.strip (snd m)) in
      if existsb (String.eqb trait) personality_traits
      then append_new "personality_traits" trait
      else ret tt)
      (finditer pattern message_content))
    trait_patterns.

Definition extract_facts (message_content : string) : M UserProfile.t unit :=
  for_each (fun pattern =>
    for_each (fun m : string * string =>
      let fact := Text.strip (fst m) in
      if negb (String.eqb fact EmptyString) then append_new "notable_facts" fact
      else ret tt)
      (finditer pattern message_content))
    fact_patterns.

Definition extract_names (message_content : string) : M UserProfile.t unit :=
  for_each (fun pattern =>
    match search pattern message_content with
    | Some m =>
        let name_value := Text.strip (snd m) in
        if contains "nickname" (Summaries.lower message_content)
           || contains "call me" (Summaries.lower message_content)
        then modify (dict_set "nickname" (VStr name_value))
        else modify (dict_set "name" (VStr name_value))
    | None => ret tt
    end)
    name_patterns.

(** The body of [extract_profile_info] on the profile. *)
Definition extract_body (message_content now : string) : M UserProfile.t unit :=
  extract_interests message_content ;;;
  extract_traits message_content ;;;
  extract_facts message_content ;;;
  extract_names message_content ;;;
  modify (dict_set "updated_at" (VStr now)).

(** [self.extract_profile_info(user_id, message_content)].  The profile is
    the object the manager holds, so what the body did to it before it
    raised shows in the manager. *)
Definition extract_profile_info (self : CM.t) (user_id : Z) (message_content : string)
    (t_created t_updated now : string) : outcome UserProfile.t CM.t :=
  let '(profile, self1) :=
    Conversation.get_or_create_profile self user_id VNone t_created t_updated in
  let held (p : UserProfile.t) : CM.t :=
    Conversation.with_user_profiles self1 (store user_id p (CM.user_profiles self1)) in
  match extract_body message_content now profile with
  | Returned _ p => Returned p (held p)
  | Raised e p => Raised e (held p)
  end.

End WithRegex.

End ProfileInfo.

(** ** What a round trip through the disk needs *)

Module RoundTrip.

(** A disk on which no write, no replace and no read fails. *)
Definition reliable (os : FS.env) : Prop :=
  (forall p, FS.write_fault os p = FS.NoFault)
  /\ (forall p q, FS.replace_raises os p q = false)
  /\ (forall p, FS.read_raises os p = false).

(** [json.dumps] serializes [v] to a text that [json.loads] decodes to [v]
    again.  (Not every value is such: a key that is no string comes back as
    one.) *)
Definition round_trips (json_dumps : pyval -> option string)
    (json_loads : string -> option pyval) (v : pyval) : Prop :=
  exists text, json_dumps v = Some text
               /\ Text.blank text = false /\ json_loads text = Some v.

(** [json.loads] on the texts [Demo.dumps] makes of [docs]; other texts do
    not occur in the examples. *)
Definition loads_of (docs : list pyval) (s : string) : option pyval :=
  find (fun d => match Demo.dumps d with
                 | Some text => String.eqb s text
                 | None => false
                 end) docs.

End RoundTrip.

(** ** Examples for the loaders *)

Module Samples.

Local Open Scope string_scope.

(** A history of one message and a summary, and the manager that holds them
    for user 42 together with a profile. *)
Definition greeting : pyval :=
  VList [ConversationManager.message (VStr "hello") (VBool false) "t0"].

Definition summary_doc : pyval :=
  VDict [(VStr "summary", VStr "a greeting"); (VStr "updated_at", VStr "t1")].

Definition ann : UserProfile.t :=
  dict_set "interests" (VList [VStr "chess"])
    (dict_set "name" (VStr "Ann") (UserProfile.init (VInt 42) "t0" "t1")).

Definition talked : ConversationManager.t :=
  ConversationManager.mk [(42%Z, greeting)] [(42%Z, VStr "a greeting")] [(42%Z, ann)].

(** The same user, known by an empty profile only. *)
Definition met : ConversationManager.t :=
  ConversationManager.mk [] [] [(42%Z, UserProfile.init (VInt 42) "t2" "t3")].

(** An emotion manager that knows user 42 with a relationship, statistics
    and one memory. *)
Definition bonded : EmotionManager.t :=
  EmotionManager.mk [(42%Z, Demo.happy)] [(42%Z, VList [VStr "met at the park"])] [] []
    [(42%Z, VDict [(VStr "greet", VInt 3)])] [(42%Z, VDict [(VStr "trust", VInt 5)])] [].

(** Six messages; the first does not reach the summary of the other five. *)
Definition six_messages : list pyval :=
  [ConversationManager.message (VStr "Good morning everyone") (VBool false) "t0";
   ConversationManager.message (VStr "I love playing chess") (VBool false) "t1";
   ConversationManager.message (VStr "That sounds wonderful") (VBool true) "t2";
   ConversationManager.message (VStr "see you") (VBool false) "t3";
   ConversationManager.message (VStr "bye") (VBool true) "t4";
   ConversationManager.message (VStr "ok") (VBool false) "t5"].

Definition chess_talk : ConversationManager.t :=
  ConversationManager.mk [(42%Z, VList six_messages)] [] [].

(** A message and what [re.finditer] finds in it for the patterns of
    [extract_profile_info]: one interest and one trait. *)
Definition painter : string := "I love painting and I am very shy".

Definition finditer (pattern text : string) : list (string * string) :=
  if String.eqb text painter then
    if String.eqb pattern "I (?:like|love|enjoy) (\w+ing)"
    then [("I love painting", "painting")]
    else if String.eqb pattern "I am (?:quite |very |extremely |really |)(\w+)"
    then [("I am very shy", "shy")]
    else []
  else [].

End Samples.

(** * Properties

    Everything below is proved about the definitions above. *)

(** ** Dictionaries *)

Lemma dict_get_set_same k v d : dict_get k (dict_set k v d) = Some v.
Proof.
  induction d as [|[k' v'] d IH]; simpl.
  - now rewrite String.eqb_refl.
  - destruct (key_is k k') eqn:E; simpl; now rewrite E.
Qed.

Lemma key_is_eq k k' key : key_is k key = true -> key_is k' key = true -> k' = k.
Proof.
  destruct key; simpl; try discriminate.
  intros H1 H2. apply String.eqb_eq in H1, H2. congruence.
Qed.

Lemma dict_get_set_other k k' v d :
  k' <> k -> dict_get k' (dict_set k v d) = dict_get k' d.
Proof.
  intros Hne. induction d as [|[k0 v0] d IH]; simpl.
  - destruct (String.eqb k' k) eqn:E; [apply String.eqb_eq in E; contradiction | reflexivity].
  - destruct (key_is k k0) eqn:E; simpl.
    + destruct (key_is k' k0) eqn:E'; [|reflexivity].
      exfalso. apply Hne. eapply key_is_eq; eassumption.
    + destruct (key_is k' k0); [reflexivity | exact IH].
Qed.

Lemma dict_has_set_same k v d : dict_has k (dict_set k v d) = true.
Proof. unfold dict_has. now rewrite dict_get_set_same. Qed.

Lemma dict_has_set_other k k' v d :
  k' <> k -> dict_has k' (dict_set k v d) = dict_has k' d.
Proof. intros H. unfold dict_has. now rewrite dict_get_set_other. Qed.

Lemma dict_has_set_mono k k' v d :
  dict_has k' d = true -> dict_has k' (dict_set k v d) = true.
Proof.
  intros H. destruct (string_dec k' k) as [->|Hne].
  - apply dict_has_set_same.
  - now rewrite dict_has_set_other.
Qed.

Lemma dict_get_pop_same k d : dict_get k (dict_pop k d) = None.
Proof.
  induction d as [|[k' v'] d IH]; simpl; [reflexivity|].
  destruct (key_is k k') eqn:E; simpl; [exact IH | now rewrite E].
Qed.

Lemma dict_get_pop_other k k' d :
  k' <> k -> dict_get k' (dict_pop k d) = dict_get k' d.
Proof.
  intros Hne. induction d as [|[k0 v0] d IH]; simpl; [reflexivity|].
  destruct (key_is k k0) eqn:E; simpl.
  - destruct (key_is k' k0) eqn:E'; [|exact IH].
    exfalso. apply Hne. eapply key_is_eq; eassumption.
  - destruct (key_is k' k0); [reflexivity | exact IH].
Qed.

Lemma dict_has_pop_same k d : dict_has k (dict_pop k d) = false.
Proof. unfold dict_has. now rewrite dict_get_pop_same. Qed.

(** ** Containers keyed by user id *)

Lemma lookup_store_same {A} uid (a : A) m : lookup uid (store uid a m) = Some a.
Proof.
  induction m as [|[u a'] m IH]; simpl.
  - now rewrite Z.eqb_refl.
  - destruct (Z.eqb uid u) eqn:E; simpl; now rewrite E.
Qed.

Lemma lookup_store_other {A} uid uid' (a : A) m :
  uid' <> uid -> lookup uid' (store uid a m) = lookup uid' m.
Proof.
  intros Hne. induction m as [|[u a'] m IH]; simpl.
  - destruct (Z.eqb uid' uid) eqn:E; [apply Z.eqb_eq in E; contradiction | reflexivity].
  - destruct (Z.eqb uid u) eqn:E; simpl.
    + apply Z.eqb_eq in E; subst u.
      destruct (Z.eqb uid' uid) eqn:E'; [apply Z.eqb_eq in E'; contradiction | reflexivity].
    + destruct (Z.eqb uid' u); [reflexivity | exact IH].
Qed.

Lemma keys_store_present {A} uid (a : A) m :
  has_key uid m = true -> map fst (store uid a m) = map fst m.
Proof.
  unfold has_key. induction m as [|[u a'] m IH]; simpl; [discriminate|].
  destruct (Z.eqb uid u) eqn:E; simpl; [reflexivity|].
  intros H. now rewrite IH.
Qed.

(** ** Conversation history *)

Section History.
Import ConversationManager.

Lemma last_n_short {A} n (l : list A) : (List.length l <= n)%nat -> last_n n l = l.
Proof.
  intros H. unfold last_n. replace (List.length l - n)%nat with 0%nat by lia.
  reflexivity.
Qed.

Lemma last_n_length {A} n (l : list A) : (List.length (last_n n l) <= n)%nat.
Proof. unfold last_n. rewrite length_skipn. lia. Qed.

Lemma last_n_app_one {A} n (l : list A) (x : A) :
  (0 < n)%nat -> last_n n (last_n n l ++ [x]) = last_n n (l ++ [x]).
Proof.
  intros Hn.
  destruct (Nat.le_gt_cases (List.length l) n) as [Hle|Hgt].
  - now rewrite (last_n_short n l Hle).
  - unfold last_n at 1 3. rewrite !length_app. simpl.
    assert (Hk : List.length (last_n n l) = n).
    { unfold last_n. rewrite length_skipn. lia. }
    rewrite Hk.
    replace (n + 1 - n)%nat with 1%nat by lia.
    replace (List.length l + 1 - n)%nat with (1 + (List.length l - n))%nat by lia.
    rewrite !skipn_app, Hk. unfold last_n. rewrite skipn_skipn.
    replace (1 - n)%nat with 0%nat by lia.
    replace (1 + (List.length l - n) - List.length l)%nat with 0%nat by lia.
    reflexivity.
Qed.

(** What one call does to a history that is a list. *)
Lemma add_message_history self uid content flag now l :
  history self uid = Some l ->
  exists self',
    add_message self uid content flag now = Returned tt self'
    /\ lookup uid (conversations self')
       = Some (VList (last_n MAX_HISTORY (l ++ [message content flag now]))).
Proof.
  unfold history, add_message, has_key, lookup_default.
  destruct (lookup uid (conversations self)) as [v|] eqn:E.
  - destruct v; try discriminate. intros [= ->]. rewrite E.
    destruct (Nat.ltb MAX_HISTORY _) eqn:Hlt; eexists; split; try reflexivity; simpl.
    + now rewrite lookup_store_same.
    + rewrite lookup_store_same. apply Nat.ltb_ge in Hlt.
      now rewrite last_n_short.
  - intros [= <-]. rewrite lookup_store_same. simpl.
    eexists; split; [reflexivity|]. simpl. now rewrite lookup_store_same.
Qed.

Lemma add_message_raises self uid content flag now e self' :
  add_message self uid content flag now = Raised e self' ->
  history self uid = None.
Proof.
  unfold history, add_message, has_key, lookup_default.
  destruct (lookup uid (conversations self)) as [v|] eqn:E.
  - rewrite E. destruct v; try reflexivity.
    destruct (Nat.ltb _ _); discriminate.
  - rewrite lookup_store_same. simpl. discriminate.
Qed.

Lemma add_messages_history msgs : forall self uid full,
  history self uid = Some (last_n MAX_HISTORY full) ->
  exists self',
    add_messages self uid msgs = Returned tt self'
    /\ history self' uid
       = Some (last_n MAX_HISTORY
                 (full ++ map (fun m => message (fst (fst m)) (snd (fst m)) (snd m)) msgs)).
Proof.
  induction msgs as [|[[c b] now] msgs IH]; intros self uid full Hh; simpl.
  - exists self. split; [reflexivity|]. now rewrite app_nil_r.
  - destruct (add_message_history self uid c b now _ Hh) as [s1 [Hs1 Hl1]].
    rewrite Hs1.
    rewrite last_n_app_one in Hl1 by (unfold MAX_HISTORY; lia).
    assert (Hh1 : history s1 uid = Some (last_n MAX_HISTORY (full ++ [message c b now]))).
    { unfold history. now rewrite Hl1. }
    destruct (IH s1 uid _ Hh1) as [s2 [Hs2 Hl2]].
    exists s2. split; [exact Hs2|]. rewrite Hl2. now rewrite <- app_assoc.
Qed.

End History.

(** C8. After every call of [add_message] that returns, the history of the
    user is a list of at most ten messages, and the call raises only when the
    stored entry is not a list; fifteen calls on an empty history leave
    exactly the last ten messages, in the order they were appended. *)
Theorem add_message_bounded_history :
  (forall self uid content flag now,
     match ConversationManager.add_message self uid content flag now with
     | Returned _ self' =>
         exists l, lookup uid (ConversationManager.conversations self') = Some (VList l)
                   /\ (List.length l <= 10)%nat
     | Raised _ _ => ConversationManager.history self uid = None
     end)
  /\ (forall self uid msgs,
        ConversationManager.history self uid = Some [] ->
        List.length msgs = 15%nat ->
        exists self',
          ConversationManager.add_messages self uid msgs = Returned tt self'
          /\ ConversationManager.history self' uid
             = Some (skipn 5 (map (fun m => ConversationManager.message
                                              (fst (fst m)) (snd (fst m)) (snd m)) msgs))).
Proof.
  split.
  - intros self uid content flag now.
    destruct (ConversationManager.add_message self uid content flag now) as [[] s'|e s'] eqn:E.
    + destruct (ConversationManager.history self uid) as [l|] eqn:Hh.
      * destruct (add_message_history self uid content flag now _ Hh) as [s1 [Hs1 Hl]].
        rewrite Hs1 in E. injection E as <-.
        eexists. split; [exact Hl|]. apply last_n_length.
      * exfalso. revert E Hh.
        unfold ConversationManager.history, ConversationManager.add_message,
          has_key, lookup_default.
        destruct (lookup uid (ConversationManager.conversations self)) as [v|] eqn:Hv;
          [|discriminate].
        rewrite Hv. destruct v; try discriminate.
    + eapply add_message_raises; eassumption.
  - intros self uid msgs Hh Hlen.
    destruct (add_messages_history msgs self uid [] Hh) as [s' [Hs' Hl]].
    exists s'. split; [exact Hs'|]. rewrite Hl. simpl.
    unfold ConversationManager.last_n. rewrite length_map, Hlen. reflexivity.
Qed.

Lemma add_message_bounded_history_witness :
  exists self',
    ConversationManager.add_messages (ConversationManager.mk [] [] []) 42 Demo.fifteen_messages
    = Returned tt self'
    /\ ConversationManager.history self' 42
       = Some (skipn 5 (map (fun m => ConversationManager.message
                                        (fst (fst m)) (snd (fst m)) (snd m))
                            Demo.fifteen_messages)).
Proof.
  apply (proj2 add_message_bounded_history); reflexivity.
Defined.

(** ** The profile entity *)

Section Profile.
Import UserProfile.

Lemma mem_fields_not_descriptor f :
  In f fields -> is_descriptor f = false.
Proof.
  unfold fields. simpl. intros H.
  repeat (destruct H as [<-|H]; [reflexivity|]). contradiction.
Qed.

Lemma setattr_plain self k v :
  is_descriptor k = false -> setattr self k v = inr (dict_set k v self).
Proof.
  unfold is_descriptor, setattr. intros H.
  apply orb_false_iff in H as [H H3]. apply orb_false_iff in H as [H1 H2].
  now rewrite H1, H2, H3.
Qed.

Lemma hasattr_set_other self k k' v :
  k' <> k -> hasattr (dict_set k v self) k' = hasattr self k'.
Proof. intros H. unfold hasattr. now rewrite dict_has_set_other. Qed.

(** What the loop of [from_dict] leaves: an item of the document reaches the
    attribute of its name exactly when [hasattr] found that name on the
    profile the loop started from. *)
Lemma hydrate_get items : forall profile,
  attr_dict items = true ->
  exists profile',
    hydrate profile items = Returned tt profile'
    /\ forall k,
         dict_get k profile'
         = match dict_get k items with
           | Some v => if hasattr profile k then Some v else dict_get k profile
           | None => dict_get k profile
           end.
Proof.
  induction items as [|[key v] items IH]; intros profile Hwf.
  - exists profile. split; reflexivity.
  - simpl in Hwf. destruct key; try discriminate.
    apply andb_true_iff in Hwf as [Hwf Hrest].
    apply andb_true_iff in Hwf as [Hdesc Hfresh].
    apply negb_true_iff in Hdesc, Hfresh.
    assert (Hnone : dict_get s items = None).
    { unfold dict_has in Hfresh. destruct (dict_get s items); [discriminate|reflexivity]. }
    simpl. destruct (hasattr profile s) eqn:Hs.
    + rewrite setattr_plain by exact Hdesc.
      destruct (IH (dict_set s v profile) Hrest) as [p' [Hp' Hget]].
      exists p'. split; [exact Hp'|]. intros k. rewrite Hget.
      destruct (String.eqb k s) eqn:Hk.
      * apply String.eqb_eq in Hk; subst k. rewrite Hnone, Hs.
        apply dict_get_set_same.
      * apply String.eqb_neq in Hk.
        rewrite hasattr_set_other, dict_get_set_other by exact Hk. reflexivity.
    + destruct (IH profile Hrest) as [p' [Hp' Hget]].
      exists p'. split; [exact Hp'|]. intros k. rewrite Hget.
      destruct (String.eqb k s) eqn:Hk; [|reflexivity].
      apply String.eqb_eq in Hk; subst k. now rewrite Hnone, Hs.
Qed.

Lemma hasattr_init_field uid t0 t1 f :
  In f fields -> hasattr (init uid t0 t1) f = true.
Proof.
  unfold fields. simpl. intros H.
  repeat (destruct H as [<-|H]; [reflexivity|]). contradiction.
Qed.

Lemma has_fields_get self f :
  has_fields self = true -> In f fields ->
  exists v, dict_get f self = Some v.
Proof.
  unfold has_fields. rewrite forallb_forall. intros H Hin.
  specialize (H f Hin). unfold dict_has in H.
  destruct (dict_get f self) as [v|]; [now exists v | discriminate].
Qed.

End Profile.

(** C5, the claim as stated fails: [get_summary] is none of the eleven
    fields, yet [update_profile] accepts it and gives the instance a new
    attribute of that name; and an update of [updated_at] leaves the clock
    reading there, not the value passed. *)
Lemma update_profile_accepts_method_name :
  UserProfile.mem "get_summary" UserProfile.fields = false
  /\ UserProfile.update_profile (UserProfile.init (VInt 42) "t0" "t0")
       "get_summary" (VInt 1) "t1"
     = Returned true (UserProfile.init (VInt 42) "t0" "t1"
                        ++ [(VStr "get_summary", VInt 1)])
  /\ UserProfile.update_profile (UserProfile.init (VInt 42) "t0" "t0")
       "updated_at" (VStr "never") "t1"
     = Returned true (UserProfile.init (VInt 42) "t0" "t1").
Proof. repeat split. Qed.

(** C5, amended.  When [hasattr] finds no attribute of the name (the
    instance holds none and the class provides none), [update_profile]
    returns [False] and leaves the profile as it was.  For each of the eleven
    fields that the profile holds it returns [True], stores the clock reading
    in [updated_at], stores the value in the field unless the field is
    [updated_at] itself, and leaves every other attribute as it was. *)
Theorem update_profile_spec (self : UserProfile.t) (field : string)
    (value : pyval) (now : string) :
  (UserProfile.hasattr self field = false ->
   UserProfile.update_profile self field value now = Returned false self)
  /\ (In field UserProfile.fields -> dict_has field self = true ->
      exists self',
        UserProfile.update_profile self field value now = Returned true self'
        /\ dict_get "updated_at" self' = Some (VStr now)
        /\ (field <> "updated_at" -> dict_get field self' = Some value)
        /\ (forall k, k <> field -> k <> "updated_at" ->
                      dict_get k self' = dict_get k self)).
Proof.
  split.
  - intros H. unfold UserProfile.update_profile. now rewrite H.
  - intros Hin Hhas. unfold UserProfile.update_profile, UserProfile.hasattr.
    rewrite Hhas. simpl.
    rewrite setattr_plain by now apply mem_fields_not_descriptor.
    eexists. split; [reflexivity|]. repeat split.
    + apply dict_get_set_same.
    + intros Hne. rewrite dict_get_set_other by exact Hne. apply dict_get_set_same.
    + intros k Hk1 Hk2. now rewrite !dict_get_set_other.
Qed.

Lemma update_profile_spec_witness :
  UserProfile.update_profile (UserProfile.init (VInt 42) "t0" "t0")
    "favourite_colour" (VStr "red") "t1"
  = Returned false (UserProfile.init (VInt 42) "t0" "t0")
  /\ exists self',
       UserProfile.update_profile (UserProfile.init (VInt 42) "t0" "t0")
         "nickname" (VStr "Ann") "t1" = Returned true self'
       /\ dict_get "updated_at" self' = Some (VStr "t1")
       /\ ("nickname" <> "updated_at" -> dict_get "nickname" self' = Some (VStr "Ann"))
       /\ (forall k, k <> "nickname" -> k <> "updated_at" ->
                     dict_get k self'
                     = dict_get k (UserProfile.init (VInt 42) "t0" "t0")).
Proof.
  split.
  - apply (proj1 (update_profile_spec (UserProfile.init (VInt 42) "t0" "t0")
                    "favourite_colour" (VStr "red") "t1")).
    reflexivity.
  - apply (proj2 (update_profile_spec (UserProfile.init (VInt 42) "t0" "t0")
                    "nickname" (VStr "Ann") "t1")).
    + simpl. tauto.
    + reflexivity.
Defined.

(** C6, the claim as stated fails: a document key that is no profile field
    but names a method is not ignored; it becomes an attribute of the
    instance. *)
Lemma from_dict_adds_method_name :
  UserProfile.mem "get_summary" UserProfile.fields = false
  /\ UserProfile.from_dict (VDict [(VStr "get_summary", VStr "x")]) "t0" "t1"
     = inr (UserProfile.init VNone "t0" "t1" ++ [(VStr "get_summary", VStr "x")]).
Proof. split; reflexivity. Qed.

(** C6, amended.  For a profile that holds the eleven fields and whose
    dictionary has distinct attribute names (none of [__class__], [__dict__],
    [__weakref__]), [from_dict(to_dict(P))] returns a profile equal to [P] on
    each of the eleven fields.  For a document with such keys, [from_dict]
    returns a profile; a key that [hasattr] does not find on a new instance
    (no field, no name of the class) is not an attribute of it; and a field
    the document lacks has the value the constructor gave it, [user_id]
    being [None]. *)
Theorem from_dict_spec (t_created t_updated : string) :
  (forall self,
     UserProfile.attr_dict self = true -> UserProfile.has_fields self = true ->
     exists self',
       UserProfile.from_dict (VDict (UserProfile.to_dict self)) t_created t_updated
       = inr self'
       /\ forall f, In f UserProfile.fields -> dict_get f self' = dict_get f self)
  /\ (forall doc,
        UserProfile.attr_dict doc = true ->
        exists self',
          UserProfile.from_dict (VDict doc) t_created t_updated = inr self'
          /\ (forall k,
                UserProfile.hasattr (UserProfile.init VNone t_created t_updated) k = false ->
                dict_has k self' = false)
          /\ (forall f,
                In f UserProfile.fields -> dict_has f doc = false ->
                dict_get f self'
                = dict_get f (UserProfile.init VNone t_created t_updated))).
Proof.
  split.
  - intros self Hwf Hfields. unfold UserProfile.from_dict, UserProfile.to_dict.
    destruct (hydrate_get self
                (UserProfile.init (dict_get_default "user_id" VNone self)
                   t_created t_updated) Hwf) as [p' [Hp' Hget]].
    rewrite Hp'. exists p'. split; [reflexivity|].
    intros f Hf. rewrite Hget.
    destruct (has_fields_get self f Hfields Hf) as [v Hv]. rewrite Hv.
    now rewrite hasattr_init_field.
  - intros doc Hwf. unfold UserProfile.from_dict.
    destruct (hydrate_get doc
                (UserProfile.init (dict_get_default "user_id" VNone doc)
                   t_created t_updated) Hwf) as [p' [Hp' Hget]].
    rewrite Hp'. exists p'. split; [reflexivity|]. split.
    + intros k Hk. unfold dict_has. rewrite Hget.
      assert (Hk' : forall uid, UserProfile.hasattr
                                  (UserProfile.init uid t_created t_updated) k = false).
      { intros uid. revert Hk. unfold UserProfile.hasattr, dict_has. simpl.
        destruct (String.eqb k "user_id"); [discriminate|]. exact (fun H => H). }
      rewrite Hk'.
      assert (Hnone : dict_get k (UserProfile.init (dict_get_default "user_id" VNone doc)
                                    t_created t_updated) = None).
      { specialize (Hk' (dict_get_default "user_id" VNone doc)).
        unfold UserProfile.hasattr in Hk'. apply orb_false_iff in Hk' as [Hk' _].
        unfold dict_has in Hk'.
        destruct (dict_get k _); [discriminate|reflexivity]. }
      rewrite Hnone. now destruct (dict_get k doc).
    + intros f Hf Hmiss. rewrite Hget. unfold dict_has in Hmiss.
      destruct (dict_get f doc) eqn:Hd; [discriminate|].
      unfold dict_get_default.
      destruct (String.eqb f "user_id") eqn:Hu.
      * apply String.eqb_eq in Hu; subst f. now rewrite Hd.
      * simpl. now rewrite Hu.
Qed.

Lemma from_dict_spec_witness :
  (exists self',
     UserProfile.from_dict
       (VDict (UserProfile.to_dict (UserProfile.init (VInt 42) "t0" "t1"))) "t2" "t3"
     = inr self'
     /\ forall f, In f UserProfile.fields ->
                  dict_get f self' = dict_get f (UserProfile.init (VInt 42) "t0" "t1"))
  /\ (exists self',
        UserProfile.from_dict (VDict [(VStr "name", VStr "Ann"); (VStr "legacy", VInt 1)])
          "t2" "t3" = inr self'
        /\ (forall k,
              UserProfile.hasattr (UserProfile.init VNone "t2" "t3") k = false ->
              dict_has k self' = false)
        /\ (forall f,
              In f UserProfile.fields ->
              dict_has f [(VStr "name", VStr "Ann"); (VStr "legacy", VInt 1)] = false ->
              dict_get f self' = dict_get f (UserProfile.init VNone "t2" "t3"))).
Proof.
  split.
  - apply (proj1 (from_dict_spec "t2" "t3")); reflexivity.
  - apply (proj2 (from_dict_spec "t2" "t3")); reflexivity.
Defined.

(** ** Paths and files *)

Lemma path_eqb_eq p q : Path.eqb p q = true <-> p = q.
Proof.
  unfold Path.eqb. revert q.
  induction p as [|a p IH]; intros [|b q]; simpl; split; intros H;
    try reflexivity; try discriminate.
  - apply andb_true_iff in H as [Hlen H]. apply andb_true_iff in H as [Hab H].
    apply String.eqb_eq in Hab. subst b. f_equal. apply IH.
    now rewrite Hlen, H.
  - injection H as -> ->. rewrite String.eqb_refl. simpl.
    destruct (IH q) as [_ Hq]. specialize (Hq eq_refl).
    apply andb_true_iff in Hq as [Hlen Hq]. simpl in Hlen.
    now rewrite Hlen, Hq.
Qed.

Lemma path_eqb_refl p : Path.eqb p p = true.
Proof. now apply path_eqb_eq. Qed.

Lemma path_eqb_neq p q : p <> q -> Path.eqb p q = false.
Proof.
  intros H. destruct (Path.eqb p q) eqn:E; [|reflexivity].
  apply path_eqb_eq in E. contradiction.
Qed.

Lemma read_write_same p s fs : FS.read p (FS.write p s fs) = Some s.
Proof.
  induction fs as [|[q s'] fs IH]; simpl.
  - now rewrite path_eqb_refl.
  - destruct (Path.eqb p q) eqn:E; simpl; now rewrite E.
Qed.

Lemma read_write_other p q s fs :
  q <> p -> FS.read q (FS.write p s fs) = FS.read q fs.
Proof.
  intros Hne. induction fs as [|[r s'] fs IH]; simpl.
  - now rewrite path_eqb_neq.
  - destruct (Path.eqb p r) eqn:E; simpl.
    + apply path_eqb_eq in E; subst r. now rewrite path_eqb_neq.
    + destruct (Path.eqb q r); [reflexivity | exact IH].
Qed.

Lemma read_remove_same p fs : FS.read p (FS.remove p fs) = None.
Proof.
  induction fs as [|[q s] fs IH]; simpl; [reflexivity|].
  destruct (Path.eqb p q) eqn:E; simpl; [exact IH | now rewrite E].
Qed.

Lemma read_remove_other p q fs :
  q <> p -> FS.read q (FS.remove p fs) = FS.read q fs.
Proof.
  intros Hne. induction fs as [|[r s] fs IH]; simpl; [reflexivity|].
  destruct (Path.eqb p r) eqn:E; simpl.
  - apply path_eqb_eq in E; subst r. now rewrite path_eqb_neq.
  - destruct (Path.eqb q r); [reflexivity | exact IH].
Qed.

(** After a rename the destination holds what the source held. *)
Lemma read_rename_dst src dst s fs :
  FS.read src fs = Some s -> FS.read dst (FS.rename src dst fs) = Some s.
Proof.
  intros H. unfold FS.rename. rewrite H.
  destruct (Path.eqb src dst) eqn:E.
  - apply path_eqb_eq in E; now subst dst.
  - apply read_write_same.
Qed.

Lemma read_rename_other src dst q fs :
  q <> src -> q <> dst -> FS.read q (FS.rename src dst fs) = FS.read q fs.
Proof.
  intros H1 H2. unfold FS.rename.
  destruct (FS.read src fs); [|reflexivity].
  destruct (Path.eqb src dst); [reflexivity|].
  rewrite read_write_other by exact H2. now apply read_remove_other.
Qed.

(** A write to another path shows on no step at this one. *)
Lemma write_text_other os p q s fs :
  q <> p -> FS.read q (snd (FS.write_text os p s fs)) = FS.read q fs.
Proof.
  intros H. unfold FS.write_text.
  destruct (FS.write_fault os p); simpl; try reflexivity; now apply read_write_other.
Qed.

Lemma write_text_steps_other os p q s fs st :
  q <> p -> In st (FS.write_text_steps os p s fs) -> FS.read q st = FS.read q fs.
Proof.
  intros H. unfold FS.write_text_steps.
  destruct (FS.write_fault os p); intros Hin;
    [ | destruct Hin | ];
    apply in_map_iff in Hin as [k [<- _]]; now apply read_write_other.
Qed.

Lemma write_text_ok os p s fs fs1 :
  FS.write_text os p s fs = (true, fs1) -> fs1 = FS.write p s fs.
Proof.
  unfold FS.write_text. destruct (FS.write_fault os p); intros [= <-]; reflexivity.
Qed.

Lemma substring_all (s : string) : substring 0 (String.length s) s = s.
Proof. induction s as [|c s IH]; simpl; [reflexivity | now rewrite IH]. Qed.

Lemma substring_min n (s : string) :
  substring 0 (Nat.min n (String.length s)) s = substring 0 n s.
Proof.
  revert n. induction s as [|c s IH]; intros [|n]; simpl; try reflexivity.
  now rewrite IH.
Qed.

Lemma last_map_seq {A} (f : nat -> A) n d : last (map f (seq 0 (S n))) d = f n.
Proof.
  rewrite seq_S, map_app. simpl. apply last_last.
Qed.

Section Atomicity.

Variable json_dumps : pyval -> option string.
Variable os : FS.env.

Let save_file := StorageManager.save_file json_dumps os.
Let save_file_steps := StorageManager.save_file_steps json_dumps os.

(** The three guarantees of [save_file] on a path that is not its own
    temporary path. *)
Lemma save_file_atomic_aux path data temp_suffix fs :
  Path.with_suffix path temp_suffix <> Some path ->
  (fst (save_file path data temp_suffix fs) = true ->
   exists text, json_dumps data = Some text
                /\ FS.read path (snd (save_file path data temp_suffix fs)) = Some text)
  /\ (fst (save_file path data temp_suffix fs) = false ->
      FS.read path (snd (save_file path data temp_suffix fs)) = FS.read path fs)
  /\ (forall st, In st (save_file_steps path data temp_suffix fs) ->
        FS.read path st = FS.read path fs
        \/ exists text, json_dumps data = Some text /\ FS.read path st = Some text).
Proof.
  intros Hne. unfold save_file, save_file_steps,
    StorageManager.save_file, StorageManager.save_file_steps.
  destruct (Path.with_suffix path temp_suffix) as [temp|] eqn:Ht;
    [|repeat split; simpl; try discriminate; try reflexivity; contradiction].
  assert (Hpt : path <> temp) by (intros ->; now apply Hne).
  destruct (json_dumps data) as [text|] eqn:Hd;
    [|repeat split; simpl; try discriminate; try reflexivity; contradiction].
  destruct (FS.write_text os temp text fs) as [ok fs1] eqn:Hw.
  assert (Hfs1 : FS.read path fs1 = FS.read path fs).
  { replace fs1 with (snd (FS.write_text os temp text fs)) by now rewrite Hw.
    now apply write_text_other. }
  destruct ok.
  - pose proof (write_text_ok _ _ _ _ _ Hw) as ->.
    unfold FS.exists_. rewrite read_write_same.
    destruct (FS.replace_raises os temp path); simpl.
    + repeat split; try discriminate; try (intros _; exact Hfs1).
      intros st Hin. rewrite app_nil_r in Hin. left.
      eapply write_text_steps_other; eassumption.
    + repeat split; try discriminate.
      * intros _. exists text. split; [reflexivity|].
        apply read_rename_dst, read_write_same.
      * intros st Hin. apply in_app_or in Hin as [Hin|Hin];
           [|destruct Hin as [<-|[]]].
        -- left. eapply write_text_steps_other; eassumption.
        -- right. exists text. split; [reflexivity|].
           apply read_rename_dst, read_write_same.
  - simpl. repeat split; try discriminate; try (intros _; exact Hfs1).
    intros st Hin. rewrite app_nil_r in Hin. left.
    eapply write_text_steps_other; eassumption.
Qed.

(** The last state listed is the one [save_file] returns. *)
Lemma save_file_steps_end path data temp_suffix fs :
  last (save_file_steps path data temp_suffix fs) fs
  = snd (save_file path data temp_suffix fs).
Proof.
  unfold save_file, save_file_steps,
    StorageManager.save_file, StorageManager.save_file_steps.
  destruct (Path.with_suffix path temp_suffix) as [temp|]; [|reflexivity].
  destruct (json_dumps data) as [text|]; [|reflexivity].
  unfold FS.write_text, FS.write_text_steps.
  destruct (FS.write_fault os temp) as [| |n].
  - unfold FS.exists_. rewrite read_write_same.
    destruct (FS.replace_raises os temp path).
    + rewrite app_nil_r, last_map_seq. now rewrite substring_all.
    + apply last_last.
  - reflexivity.
  - rewrite app_nil_r, last_map_seq. now rewrite substring_min.
Qed.

End Atomicity.

(** C7: a path whose suffix is already [.tmp] is its own temporary path, so
    the text goes straight into the final file and no rename protects it.
    A write that fails after two characters then returns [False] and leaves
    those two characters in the final file where [old] was: partial new
    content in place of the content before the call. *)
Lemma save_file_partial_on_tmp_path :
  Path.with_suffix ["data"; "settings.tmp"] StorageManager.tmp
  = Some ["data"; "settings.tmp"]
  /\ StorageManager.save_file Demo.dumps
       (FS.mk_env (fun _ => true) (fun _ => false) (fun _ => FS.FailsAfter 2)
                  (fun _ => false) (fun _ _ => false) (fun _ => false))
       ["data"; "settings.tmp"] (VInt 12345) StorageManager.tmp
       [(["data"; "settings.tmp"], "old")]
     = (false, [(["data"; "settings.tmp"], "12")]).
Proof. split; reflexivity. Qed.

(** X31.  For every path whose temporary path (the path with its suffix
    replaced by the temporary suffix) is not the path itself, every record
    and every behaviour of the disk: when [save_file] returns [True] the
    final path holds the full serialization of the record; when it returns
    [False] the final path holds what it held before the call; and in every
    state of the disk met while the call runs, the last of which is the
    state the call returns, the final path holds either what it held before
    or the full serialization. *)
Theorem save_file_atomic (json_dumps : pyval -> option string) (os : FS.env)
    (path : Path.t) (data : pyval) (temp_suffix : string) (fs : FS.t) :
  Path.with_suffix path temp_suffix <> Some path ->
  (fst (StorageManager.save_file json_dumps os path data temp_suffix fs) = true ->
   exists text,
     json_dumps data = Some text
     /\ FS.read path (snd (StorageManager.save_file json_dumps os path data temp_suffix fs))
        = Some text)
  /\ (fst (StorageManager.save_file json_dumps os path data temp_suffix fs) = false ->
      FS.read path (snd (StorageManager.save_file json_dumps os path data temp_suffix fs))
      = FS.read path fs)
  /\ (forall st,
        In st (StorageManager.save_file_steps json_dumps os path data temp_suffix fs) ->
        FS.read path st = FS.read path fs
        \/ exists text, json_dumps data = Some text /\ FS.read path st = Some text)
  /\ last (StorageManager.save_file_steps json_dumps os path data temp_suffix fs) fs
     = snd (StorageManager.save_file json_dumps os path data temp_suffix fs).
Proof.
  intros H.
  destruct (save_file_atomic_aux json_dumps os path data temp_suffix fs H) as (H1 & H2 & H3).
  repeat split; try assumption. apply save_file_steps_end.
Qed.

Lemma save_file_atomic_witness :
  (fst (StorageManager.save_file Demo.dumps Demo.quiet ["data"; "dm_settings.json"]
          (VInt 12345) StorageManager.tmp [(["data"; "dm_settings.json"], "old")]) = true ->
   exists text,
     Demo.dumps (VInt 12345) = Some text
     /\ FS.read ["data"; "dm_settings.json"]
          (snd (StorageManager.save_file Demo.dumps Demo.quiet ["data"; "dm_settings.json"]
                  (VInt 12345) StorageManager.tmp [(["data"; "dm_settings.json"], "old")]))
        = Some text)
  /\ (fst (StorageManager.save_file Demo.dumps Demo.quiet ["data"; "dm_settings.json"]
             (VInt 12345) StorageManager.tmp [(["data"; "dm_settings.json"], "old")]) = false ->
      FS.read ["data"; "dm_settings.json"]
        (snd (StorageManager.save_file Demo.dumps Demo.quiet ["data"; "dm_settings.json"]
                (VInt 12345) StorageManager.tmp [(["data"; "dm_settings.json"], "old")]))
      = FS.read ["data"; "dm_settings.json"] [(["data"; "dm_settings.json"], "old")])
  /\ (forall st,
        In st (StorageManager.save_file_steps Demo.dumps Demo.quiet
                 ["data"; "dm_settings.json"] (VInt 12345) StorageManager.tmp
                 [(["data"; "dm_settings.json"], "old")]) ->
        FS.read ["data"; "dm_settings.json"] st
        = FS.read ["data"; "dm_settings.json"] [(["data"; "dm_settings.json"], "old")]
        \/ exists text, Demo.dumps (VInt 12345) = Some text
                        /\ FS.read ["data"; "dm_settings.json"] st = Some text)
  /\ last (StorageManager.save_file_steps Demo.dumps Demo.quiet
             ["data"; "dm_settings.json"] (VInt 12345) StorageManager.tmp
             [(["data"; "dm_settings.json"], "old")])
          [(["data"; "dm_settings.json"], "old")]
     = snd (StorageManager.save_file Demo.dumps Demo.quiet ["data"; "dm_settings.json"]
              (VInt 12345) StorageManager.tmp [(["data"; "dm_settings.json"], "old")]).
Proof.
  apply (save_file_atomic Demo.dumps Demo.quiet ["data"; "dm_settings.json"]
           (VInt 12345) StorageManager.tmp [(["data"; "dm_settings.json"], "old")]).
  vm_compute. discriminate.
Defined.

(** ** File names *)

Lemma append_assoc (a b c : string) : ((a ++ b) ++ c = a ++ (b ++ c))%string.
Proof. induction a as [|x a IH]; simpl; [reflexivity | now rewrite IH]. Qed.

Lemma append_length (a b : string) :
  String.length (a ++ b) = (String.length a + String.length b)%nat.
Proof. induction a as [|x a IH]; simpl; [reflexivity | now rewrite IH]. Qed.

Lemma substring_prefix (a b : string) :
  substring 0 (String.length a) (a ++ b) = a.
Proof.
  induction a as [|x a IH]; simpl.
  - now destruct b.
  - now rewrite IH.
Qed.

Lemma rfind_dot_app (a b : string) : forall i found,
  Text.has_char "." a = false ->
  Path.rfind_dot (a ++ b) i found = Path.rfind_dot b (i + String.length a) found.
Proof.
  induction a as [|x a IH]; intros i found H; simpl.
  - now rewrite Nat.add_0_r.
  - simpl in H. apply orb_false_iff in H as [Hx Ha].
    rewrite Hx, IH by exact Ha. f_equal. lia.
Qed.

Lemma rfind_dot_none (a : string) i found :
  Text.has_char "." a = false -> Path.rfind_dot a i found = found.
Proof.
  intros H. revert i. induction a as [|x a IH]; intros i; simpl; [reflexivity|].
  simpl in H. apply orb_false_iff in H as [Hx Ha]. rewrite Hx. now apply IH.
Qed.

(** The temporary path of [<stem>.<ext>] is [<stem>.tmp]. *)
Lemma with_suffix_tmp dir (stem ext : string) :
  stem <> EmptyString -> ext <> EmptyString ->
  Text.has_char "." stem = false -> Text.has_char "." ext = false ->
  Path.with_suffix (Path.child dir (stem ++ String "." ext)) StorageManager.tmp
  = Some (Path.child dir (stem ++ ".tmp")).
Proof.
  intros Hs He Hds Hde.
  unfold Path.with_suffix, StorageManager.tmp, Path.stem, Path.name, Path.parent,
    Path.child. simpl Text.has_char. cbv iota. simpl orb. cbv iota.
  rewrite last_last, removelast_last.
  assert (Hn : String.eqb (stem ++ String "." ext) EmptyString = false).
  { destruct stem; [contradiction | reflexivity]. }
  rewrite Hn.
  unfold Path.suffix_start. rewrite rfind_dot_app by exact Hds. simpl.
  rewrite rfind_dot_none by exact Hde.
  rewrite append_length. simpl.
  assert (H1 : (0 <? String.length stem)%nat = true).
  { apply Nat.ltb_lt. destruct stem; [contradiction | simpl; lia]. }
  assert (H2 : (String.length stem <? String.length stem + S (String.length ext) - 1)%nat = true).
  { apply Nat.ltb_lt. destruct ext; [contradiction | simpl; lia]. }
  rewrite H1, H2. simpl. now rewrite substring_prefix.
Qed.

Lemma child_inj d1 d2 n1 n2 : Path.child d1 n1 = Path.child d2 n2 -> d1 = d2 /\ n1 = n2.
Proof. unfold Path.child. intros H. apply app_inj_tail in H. exact H. Qed.

Lemma uint_numeric d : Text.all_chars Text.numeric (NilEmpty.string_of_uint d) = true.
Proof. induction d; simpl; try reflexivity; exact IHd. Qed.

Lemma str_of_int_numeric n : Text.all_chars Text.numeric (str_of_int n) = true.
Proof.
  unfold str_of_int, NilZero.string_of_int, NilZero.string_of_uint.
  destruct (Z.to_int n) as [d|d]; destruct d; simpl; try reflexivity;
    apply uint_numeric.
Qed.

Lemma str_of_int_nonempty n : str_of_int n <> EmptyString.
Proof.
  unfold str_of_int, NilZero.string_of_int, NilZero.string_of_uint.
  destruct (Z.to_int n) as [d|d]; destruct d; simpl; discriminate.
Qed.

Lemma numeric_no_dot s : Text.all_chars Text.numeric s = true -> Text.has_char "." s = false.
Proof.
  induction s as [|c s IH]; simpl; [reflexivity|].
  intros H. apply andb_true_iff in H as [Hc Hs]. rewrite (IH Hs).
  destruct (Ascii.eqb c ".") eqn:E; [|reflexivity].
  apply Ascii.eqb_eq in E. subst c. discriminate.
Qed.

Lemma str_of_int_inj n m : str_of_int n = str_of_int m -> n = m.
Proof.
  unfold str_of_int. intros H. apply to_int_inj.
  assert (Hnn : forall z, Z.to_int z <> Decimal.Pos Decimal.Nil
                          /\ Z.to_int z <> Decimal.Neg Decimal.Nil).
  { intros [|p|p]; simpl; split; try discriminate;
      intros [= E]; now apply Unsigned.to_uint_nonnil in E. }
  destruct (Hnn n) as [Hn1 Hn2]. destruct (Hnn m) as [Hm1 Hm2].
  pose proof (NilZero.isi _ Hn1 Hn2) as En.
  pose proof (NilZero.isi _ Hm1 Hm2) as Em.
  rewrite H in En. rewrite En in Em. now injection Em.
Qed.

(** A name is the user id followed by an ending that starts with a
    character no number holds: the two parts can be read back. *)
Lemma numeric_app_inj (a b s t : string) c1 c2 s' t' :
  Text.all_chars Text.numeric a = true -> Text.all_chars Text.numeric b = true ->
  s = String c1 s' -> t = String c2 t' ->
  Text.numeric c1 = false -> Text.numeric c2 = false ->
  (a ++ s = b ++ t)%string -> a = b /\ s = t.
Proof.
  intros Ha Hb -> -> H1 H2. revert b Hb.
  induction a as [|x a IH]; intros [|y b] Hb H; simpl in *.
  - split; [reflexivity | exact H].
  - injection H as -> _. apply andb_true_iff in Hb as [Hy _]. congruence.
  - injection H as -> _. apply andb_true_iff in Ha as [Hx _]. congruence.
  - injection H as -> H. apply andb_true_iff in Ha as [_ Ha].
    apply andb_true_iff in Hb as [_ Hb].
    destruct (IH Ha b Hb H) as [-> E]. split; [reflexivity | exact E].
Qed.

Lemma has_char_app c (a b : string) :
  Text.has_char c (a ++ b) = Text.has_char c a || Text.has_char c b.
Proof.
  induction a as [|x a IH]; simpl; [reflexivity|].
  rewrite IH. now rewrite orb_assoc.
Qed.

(** The temporary path of [<uid><base>.<ext>]. *)
Lemma temp_of_named dir uid (base ext : string) :
  ext <> EmptyString ->
  Text.has_char "." base = false -> Text.has_char "." ext = false ->
  Path.with_suffix (Path.child dir (str_of_int uid ++ (base ++ String "." ext)))
    StorageManager.tmp
  = Some (Path.child dir (str_of_int uid ++ (base ++ ".tmp"))).
Proof.
  intros He Hb Hx. rewrite <- !append_assoc. apply with_suffix_tmp.
  - pose proof (str_of_int_nonempty uid). destruct (str_of_int uid); [contradiction|discriminate].
  - exact He.
  - rewrite has_char_app, Hb, orb_false_r.
    apply numeric_no_dot, str_of_int_numeric.
  - exact Hx.
Qed.

(** Two names made of a user id and an ending are equal only when both
    parts are. *)
Lemma named_inj u1 u2 c1 e1 c2 e2 :
  Text.numeric c1 = false -> Text.numeric c2 = false ->
  (str_of_int u1 ++ String c1 e1 = str_of_int u2 ++ String c2 e2)%string ->
  u1 = u2 /\ String c1 e1 = String c2 e2.
Proof.
  intros H1 H2 H.
  destruct (numeric_app_inj (str_of_int u1) (str_of_int u2) _ _ c1 c2 e1 e2
              (str_of_int_numeric u1) (str_of_int_numeric u2) eq_refl eq_refl H1 H2 H)
    as [Hu He].
  split; [now apply str_of_int_inj | exact He].
Qed.

(** ** Saving *)

Lemma state_of_bind {S A B} (P : S -> Prop) (c : M S A) (k : A -> M S B) s :
  P s ->
  (forall s0, P s0 -> P (state_of (c s0))) ->
  (forall a s0, P s0 -> P (state_of (k a s0))) ->
  P (state_of (bind c k s)).
Proof.
  intros Hs Hc Hk. unfold bind. specialize (Hc s Hs).
  destruct (c s) as [a s1|e s1]; simpl in *; [now apply Hk | exact Hc].
Qed.

Section Saving.

Variable json_dumps : pyval -> option string.
Variable dict_of_iterable : pyval -> exn + pyval.
Variable os : FS.env.
Variable self : StorageManager.t.

Let save_file := StorageManager.save_file json_dumps os.
Let save_list := StorageManager.save_list json_dumps os self.
Let save_user_profile := StorageManager.save_user_profile json_dumps dict_of_iterable os self.
Let save_data := StorageManager.save_data json_dumps dict_of_iterable os self.

(** A file that is neither the target nor the temporary path of a
    [save_file] keeps its content. *)
Lemma save_file_other path data sfx fs q :
  q <> path -> Path.with_suffix path sfx <> Some q ->
  FS.read q (snd (save_file path data sfx fs)) = FS.read q fs.
Proof.
  intros H1 H2. unfold save_file, StorageManager.save_file.
  destruct (Path.with_suffix path sfx) as [temp|]; [|reflexivity].
  assert (Hq : q <> temp) by (intros ->; now apply H2).
  destruct (json_dumps data) as [text|]; [|reflexivity].
  destruct (FS.write_text os temp text fs) as [ok fs1] eqn:Hw.
  assert (Hfs1 : FS.read q fs1 = FS.read q fs).
  { replace fs1 with (snd (FS.write_text os temp text fs)) by now rewrite Hw.
    now apply write_text_other. }
  destruct ok; [|exact Hfs1].
  destruct (FS.exists_ temp fs1); [|exact Hfs1].
  destruct (FS.replace_raises os temp path); [exact Hfs1|]. simpl.
  now rewrite read_rename_other.
Qed.

(** The same for a file named after a user. *)
Lemma save_named_other dir uid base ext data fs q :
  ext <> EmptyString ->
  Text.has_char "." base = false -> Text.has_char "." ext = false ->
  q <> Path.child dir (str_of_int uid ++ (base ++ String "." ext)) ->
  q <> Path.child dir (str_of_int uid ++ (base ++ ".tmp")) ->
  FS.read q (snd (save_file (Path.child dir (str_of_int uid ++ (base ++ String "." ext)))
                            data StorageManager.tmp fs))
  = FS.read q fs.
Proof.
  intros He Hb Hx H1 H2. apply save_file_other; [exact H1|].
  rewrite temp_of_named by assumption. intros [= E]. now apply H2.
Qed.

(** When nothing fails, the target holds the serialization afterwards. *)
Lemma save_file_writes path temp data text fs :
  Path.with_suffix path StorageManager.tmp = Some temp ->
  json_dumps data = Some text ->
  FS.write_fault os temp = FS.NoFault ->
  FS.replace_raises os temp path = false ->
  FS.read path (snd (save_file path data StorageManager.tmp fs)) = Some text
  /\ fst (save_file path data StorageManager.tmp fs) = true.
Proof.
  intros Ht Hd Hw Hr. unfold save_file, StorageManager.save_file, FS.write_text.
  rewrite Ht, Hd, Hw. unfold FS.exists_. rewrite read_write_same, Hr. simpl.
  split; [|reflexivity]. apply read_rename_dst, read_write_same.
Qed.

Lemma ending_base f : Family.ending f = (Family.base f ++ String "." "json")%string.
Proof. now destruct f. Qed.

Lemma base_no_dot f : Text.has_char "." (Family.base f) = false.
Proof. now destruct f. Qed.

Lemma family_temp f uid :
  Path.with_suffix (Family.path self f uid) StorageManager.tmp = Some (Family.temp_path self f uid).
Proof.
  unfold Family.path, Family.temp_path. rewrite ending_base.
  apply temp_of_named; [discriminate | apply base_no_dot | reflexivity].
Qed.

Lemma save_list_skip f em uid fs :
  Family.vacant f em uid = true ->
  save_list (Family.ending f) (Family.container f em) uid fs = Returned tt fs.
Proof.
  unfold Family.vacant, save_list, StorageManager.save_list.
  destruct (lookup uid (Family.container f em)) as [v|]; [|reflexivity].
  intros H. apply negb_true_iff in H. now rewrite H.
Qed.

Lemma save_list_other f em uid fs q :
  q <> Family.path self f uid -> q <> Family.temp_path self f uid ->
  FS.read q (state_of (save_list (Family.ending f) (Family.container f em) uid fs))
  = FS.read q fs.
Proof.
  intros H1 H2. unfold save_list, StorageManager.save_list.
  destruct (lookup uid (Family.container f em)) as [v|]; [|reflexivity].
  destruct (truthy v); [|reflexivity].
  fold (Family.path self f uid).
  assert (Hfr : FS.read q (snd (save_file (Family.path self f uid) v StorageManager.tmp fs))
                = FS.read q fs).
  { apply save_file_other; [exact H1|]. rewrite family_temp. intros [= E]. now apply H2. }
  unfold save_file in Hfr.
  destruct (StorageManager.save_file json_dumps os (Family.path self f uid) v
              StorageManager.tmp fs) as [ok fs1].
  simpl in Hfr. destruct ok; [|exact Hfr].
  unfold bind, lift, ret. destruct (py_len v); exact Hfr.
Qed.

Lemma save_list_returns f em uid fs :
  Family.listed f em uid = true ->
  exists fs', save_list (Family.ending f) (Family.container f em) uid fs = Returned tt fs'.
Proof.
  unfold Family.listed, save_list, StorageManager.save_list.
  destruct (lookup uid (Family.container f em)) as [v|]; [|now eexists].
  destruct v; try discriminate. intros _.
  destruct (truthy (VList items)); [|now eexists].
  destruct (StorageManager.save_file _ _ _ _ _ _) as [[] fs1]; now eexists.
Qed.

Lemma save_list_writes f em uid fs l text :
  lookup uid (Family.container f em) = Some (VList l) -> l <> [] ->
  json_dumps (VList l) = Some text ->
  FS.write_fault os (Family.temp_path self f uid) = FS.NoFault ->
  FS.replace_raises os (Family.temp_path self f uid) (Family.path self f uid) = false ->
  exists fs',
    save_list (Family.ending f) (Family.container f em) uid fs = Returned tt fs'
    /\ FS.read (Family.path self f uid) fs' = Some text.
Proof.
  intros Hl Hne Hd Hw Hr. unfold save_list, StorageManager.save_list.
  rewrite Hl. destruct l as [|x l]; [contradiction|]. cbn [truthy].
  fold (Family.path self f uid).
  destruct (save_file_writes (Family.path self f uid) (Family.temp_path self f uid)
              (VList (x :: l)) text fs (family_temp f uid) Hd Hw Hr) as [Hread Hok].
  unfold save_file in Hread, Hok.
  destruct (StorageManager.save_file json_dumps os (Family.path self f uid)
              (VList (x :: l)) StorageManager.tmp fs) as [ok fs1].
  simpl in Hread, Hok. subst ok. eexists. split; [reflexivity | exact Hread].
Qed.

Let EM_frame (uid : Z) (em em' : EmotionManager.t) : Prop :=
  EmotionManager.user_memories em' = EmotionManager.user_memories em
  /\ EmotionManager.user_events em' = EmotionManager.user_events em
  /\ EmotionManager.user_milestones em' = EmotionManager.user_milestones em
  /\ EmotionManager.interaction_stats em' = EmotionManager.interaction_stats em
  /\ EmotionManager.relationship_progress em' = EmotionManager.relationship_progress em
  /\ EmotionManager.dm_enabled_users em' = EmotionManager.dm_enabled_users em
  /\ (forall u, u <> uid ->
        lookup u (EmotionManager.user_emotions em')
        = lookup u (EmotionManager.user_emotions em)).

Lemma EM_frame_refl uid em : EM_frame uid em em.
Proof. repeat split. Qed.

Lemma EM_frame_set uid v em em' :
  EM_frame uid em em' -> EM_frame uid em (StorageManager.set_emotion uid v em').
Proof.
  intros (H1 & H2 & H3 & H4 & H5 & H6 & H7). repeat split; try assumption.
  intros u Hu. simpl. rewrite lookup_store_other by exact Hu. now apply H7.
Qed.

(** [save_user_profile] changes nothing in the manager but the emotion entry
    of its user. *)
Lemma save_user_profile_em uid em fs :
  EM_frame uid em (fst (snd (save_user_profile uid em fs))).
Proof.
  unfold save_user_profile, StorageManager.save_user_profile,
    StorageManager.save_user_profile_body.
  destruct (FS.mkdir_raises os _); [apply EM_frame_refl|].
  destruct (py_setitem "relationship" _ _) as [e|data1]; [apply EM_frame_refl|].
  destruct (has_key uid (EmotionManager.user_emotions em)).
  - destruct (StorageManager.py_dict _ _) as [e|stats];
      [apply EM_frame_set, EM_frame_refl|].
    destruct (py_setitem "interaction_stats" _ _) as [e|data2];
      [apply EM_frame_set, EM_frame_refl|].
    match goal with |- context [bind ?c ?k ?s] => destruct (bind c k s) end;
      apply EM_frame_set, EM_frame_set, EM_frame_refl.
  - destruct (StorageManager.py_dict _ _) as [e|stats]; [apply EM_frame_refl|].
    destruct (py_setitem "interaction_stats" _ _) as [e|data2]; [apply EM_frame_refl|].
    match goal with |- context [bind ?c ?k ?s] => destruct (bind c k s) end;
      apply EM_frame_refl.
Qed.

Let composite (uid : Z) : Path.t :=
  Path.child (StorageManager.profiles_dir self) (str_of_int uid ++ ".json").

Let save_lists (em : EmotionManager.t) (uid : Z) : M FS.t unit :=
  save_list "_memories.json" (EmotionManager.user_memories em) uid ;;;
  save_list "_events.json" (EmotionManager.user_events em) uid ;;;
  save_list "_milestones.json" (EmotionManager.user_milestones em) uid.

(** A property of the disk that the write of the composite document and the
    three family blocks keep is kept by [save_user_profile]. *)
Lemma save_user_profile_fs (P : FS.t -> Prop) uid em fs :
  P fs ->
  (forall data fs0, P fs0 -> P (snd (save_file (composite uid) data StorageManager.tmp fs0))) ->
  (forall f fs0, P fs0 ->
     P (state_of (save_list (Family.ending f) (Family.container f em) uid fs0))) ->
  P (snd (snd (save_user_profile uid em fs))).
Proof.
  intros H0 Hc Hl.
  assert (Hlists : forall fs0, P fs0 -> P (state_of (save_lists em uid fs0))).
  { intros fs0 H. unfold save_lists.
    apply state_of_bind; [exact H | apply (Hl Family.Memories) |].
    intros _ s0 Hs0.
    apply state_of_bind; [exact Hs0 | apply (Hl Family.Events) |].
    intros _ s1 Hs1. apply (Hl Family.Milestones), Hs1. }
  unfold save_user_profile, StorageManager.save_user_profile,
    StorageManager.save_user_profile_body.
  destruct (FS.mkdir_raises os _); [exact H0|].
  destruct (py_setitem "relationship" _ _) as [e|data1]; [exact H0|].
  destruct (has_key uid (EmotionManager.user_emotions em)).
  - destruct (StorageManager.py_dict _ _) as [e|stats]; [exact H0|].
    destruct (py_setitem "interaction_stats" _ _) as [e|data2]; [exact H0|].
    specialize (Hlists _ (Hc data2 fs H0)). unfold save_lists, save_list, save_file, composite in Hlists.
    simpl EmotionManager.user_memories. simpl EmotionManager.user_events.
    simpl EmotionManager.user_milestones.
    match goal with |- context [bind ?c ?k ?s] => destruct (bind c k s) end; exact Hlists.
  - destruct (StorageManager.py_dict _ _) as [e|stats]; [exact H0|].
    destruct (py_setitem "interaction_stats" _ _) as [e|data2]; [exact H0|].
    specialize (Hlists _ (Hc data2 fs H0)). unfold save_lists, save_list, save_file, composite in Hlists.
    match goal with |- context [bind ?c ?k ?s] => destruct (bind c k s) end; exact Hlists.
Qed.

Let save_user := StorageManager.save_user json_dumps dict_of_iterable os self.

Lemma save_user_em cm clock uid acc :
  EM_frame uid (fst (snd acc)) (fst (snd (save_user cm clock uid acc))).
Proof.
  destruct acc as [success [em fs]]. unfold save_user, StorageManager.save_user.
  pose proof (save_user_profile_em uid em fs) as H.
  unfold save_user_profile in H.
  destruct (StorageManager.save_user_profile json_dumps dict_of_iterable os self uid em fs)
    as [ok [em1 fs1]]. simpl in H.
  destruct cm as [cm|]; [|exact H].
  destruct (has_key uid _); [|exact H].
  destruct (StorageManager.save_conversation json_dumps os self uid cm (clock uid) fs1)
    as [ok2 fs2].
  destruct (lookup uid _); [|exact H].
  destruct (StorageManager.save_user_profile_data json_dumps os self uid t fs2); exact H.
Qed.

(** A property of the disk kept by the writes of one user's files is kept by
    one turn of the loop of [save_data]. *)
Lemma save_user_fs (P : FS.t -> Prop) cm clock uid acc :
  P (snd (snd acc)) ->
  (forall dir base data fs0,
     In base Family.other_bases -> P fs0 ->
     P (snd (save_file (Path.child dir (str_of_int uid ++ (base ++ String "." "json")))
                       data StorageManager.tmp fs0))) ->
  (forall f fs0, P fs0 ->
     P (state_of (save_list (Family.ending f) (Family.container f (fst (snd acc))) uid fs0))) ->
  P (snd (snd (save_user cm clock uid acc))).
Proof.
  destruct acc as [success [em fs]]. cbn [fst snd]. intros H0 Hn Hl.
  unfold save_user, StorageManager.save_user.
  assert (H1 : P (snd (snd (save_user_profile uid em fs)))).
  { apply save_user_profile_fs; [exact H0 | | exact Hl].
    intros data fs0 Hfs0. apply (Hn _ EmptyString); [simpl; tauto | exact Hfs0]. }
  unfold save_user_profile in H1.
  destruct (StorageManager.save_user_profile json_dumps dict_of_iterable os self uid em fs)
    as [ok [em1 fs1]]. simpl in H1.
  destruct cm as [cm|]; [|exact H1].
  destruct (has_key uid _); [|exact H1].
  assert (H2 : P (snd (StorageManager.save_conversation json_dumps os self uid cm
                         (clock uid) fs1))).
  { unfold StorageManager.save_conversation. simpl.
    assert (Hc : P match lookup uid (ConversationManager.conversations cm) with
                   | Some conv =>
                       snd (StorageManager.save_file json_dumps os
                              (Path.child (StorageManager.conversations_dir self)
                                 (str_of_int uid ++ "_conversations.json"))
                              conv StorageManager.tmp fs1)
                   | None => fs1
                   end).
    { destruct (lookup uid _); [|exact H1].
      apply (Hn _ "_conversations"); [simpl; tauto | exact H1]. }
    destruct (lookup uid (ConversationManager.conversation_summaries cm)); [|exact Hc].
    apply (Hn _ "_summary"); [simpl; tauto | exact Hc]. }
  destruct (StorageManager.save_conversation json_dumps os self uid cm (clock uid) fs1)
    as [ok2 fs2]. simpl in H2.
  destruct (lookup uid _) as [profile|]; [|exact H2].
  unfold StorageManager.save_user_profile_data.
  destruct (UserProfile.call_to_dict profile); [exact H2|]. simpl.
  apply (Hn _ "_profile"); [simpl; tauto | exact H2].
Qed.

Ltac names_differ :=
  let H := fresh in
  intros H; apply child_inj in H as [_ H]; cbn [append Family.ending Family.base] in H;
  apply named_inj in H; [destruct H as [_ H]; discriminate H | reflexivity | reflexivity].

Lemma family_not_other fam u dir uid base :
  In base Family.other_bases ->
  Family.path self fam u
  <> Path.child dir (str_of_int uid ++ (base ++ String "." "json")).
Proof.
  unfold Family.path, Family.other_bases. intros Hb.
  simpl in Hb. destruct Hb as [<-|[<-|[<-|[<-|[]]]]]; destruct fam; names_differ.
Qed.

Lemma family_not_other_temp fam u dir uid base :
  In base Family.other_bases ->
  Family.path self fam u <> Path.child dir (str_of_int uid ++ (base ++ ".tmp")).
Proof.
  unfold Family.path, Family.other_bases. intros Hb.
  simpl in Hb. destruct Hb as [<-|[<-|[<-|[<-|[]]]]]; destruct fam; names_differ.
Qed.

Lemma family_not_temp fam u f uid :
  Family.path self fam u <> Family.temp_path self f uid.
Proof. unfold Family.path, Family.temp_path. destruct fam, f; names_differ. Qed.

Lemma family_path_inj fam u f uid :
  Family.path self fam u = Family.path self f uid -> fam = f /\ u = uid.
Proof.
  unfold Family.path. intros H. apply child_inj in H as [_ H].
  destruct fam, f; cbn [Family.ending] in H; apply named_inj in H;
    try reflexivity; destruct H as [-> H]; try discriminate H; split; reflexivity.
Qed.

Lemma fold_invariant (I : bool * (EmotionManager.t * FS.t) -> Prop) cm clock keys :
  forall acc,
    I acc ->
    (forall uid acc0, In uid keys -> I acc0 -> I (save_user cm clock uid acc0)) ->
    I (fold_left (fun acc0 uid => save_user cm clock uid acc0) keys acc).
Proof.
  induction keys as [|k keys IH]; intros acc H0 Hstep; simpl; [exact H0|].
  apply IH.
  - apply Hstep; [now left | exact H0].
  - intros uid acc0 Hin. apply Hstep. now right.
Qed.

Let same_families (em em' : EmotionManager.t) : Prop :=
  forall f, Family.container f em' = Family.container f em.

Lemma EM_frame_families uid em em' : EM_frame uid em em' -> same_families em em'.
Proof. intros (H1 & H2 & H3 & _) f. now destruct f. Qed.

(** One turn of the loop leaves the family file of a user with nothing to
    save as it is. *)
Lemma save_user_leaves_vacant fam u cm clock uid acc :
  Family.vacant fam (fst (snd acc)) u = true ->
  FS.read (Family.path self fam u) (snd (snd (save_user cm clock uid acc)))
  = FS.read (Family.path self fam u) (snd (snd acc)).
Proof.
  intros Hv.
  apply (save_user_fs (fun fs' => FS.read (Family.path self fam u) fs'
                                  = FS.read (Family.path self fam u) (snd (snd acc)))).
  - reflexivity.
  - intros dir base data fs0 Hb H. rewrite <- H.
    apply save_named_other; try reflexivity; try discriminate.
    + unfold Family.other_bases in Hb. simpl in Hb.
      destruct Hb as [<-|[<-|[<-|[<-|[]]]]]; reflexivity.
    + now apply family_not_other.
    + now apply family_not_other_temp.
  - intros f fs0 H. rewrite <- H.
    destruct (Z.eq_dec u uid) as [->|Hu].
    + destruct fam, f; try (rewrite save_list_skip by exact Hv; reflexivity);
        apply save_list_other;
        try apply family_not_temp;
        intros E; apply family_path_inj in E as [E _]; discriminate E.
    + apply save_list_other; [|apply family_not_temp].
      intros E. apply family_path_inj in E as [_ E]. contradiction.
Qed.

(** [save_data] leaves it as it is, too. *)
Lemma save_data_leaves_vacant fam u em cm clock fs :
  StorageManager.dm_settings_file self <> Family.path self fam u ->
  Path.with_suffix (StorageManager.dm_settings_file self) StorageManager.tmp
  <> Some (Family.path self fam u) ->
  Family.vacant fam em u = true ->
  FS.read (Family.path self fam u) (snd (snd (save_data em cm clock fs)))
  = FS.read (Family.path self fam u) fs.
Proof.
  intros Hdm1 Hdm2 Hv. unfold save_data, StorageManager.save_data.
  pose proof (fold_invariant
    (fun acc => same_families em (fst (snd acc))
                /\ FS.read (Family.path self fam u) (snd (snd acc))
                   = FS.read (Family.path self fam u) fs)
    cm clock (map fst (EmotionManager.user_emotions em)) (true, (em, fs))) as Hfold.
  unfold save_user in Hfold.
  destruct (fold_left _ _ _) as [success [em1 fs1]].
  destruct Hfold as [_ Hread].
  - split; [intros f; reflexivity | reflexivity].
  - intros uid acc0 _ [Hfam Hr]. split.
    + intros f. rewrite <- Hfam.
      apply (EM_frame_families uid), save_user_em.
    + rewrite <- Hr. apply save_user_leaves_vacant.
      unfold Family.vacant. now rewrite Hfam.
  - simpl in Hread. unfold StorageManager.save_dm_settings.
    destruct (StorageManager.save_file json_dumps os _ _ _ fs1) as [ok fs2] eqn:E.
    simpl. rewrite <- Hread.
    replace fs2 with (snd (save_file (StorageManager.dm_settings_file self)
                             (VDict [(VStr "enabled_users",
                                      VList (EmotionManager.dm_enabled_users em1))])
                             StorageManager.tmp fs1))
      by (unfold save_file; now rewrite E).
    apply save_file_other; [intros E'; now apply Hdm1 | exact Hdm2].
Qed.

Lemma lookup_has_key {A} uid (m : umap A) a : lookup uid m = Some a -> has_key uid m = true.
Proof. unfold has_key. now intros ->. Qed.

Lemma lookup_in_keys {A} uid (m : umap A) a : lookup uid m = Some a -> In uid (map fst m).
Proof.
  induction m as [|[u x] m IH]; simpl; [discriminate|].
  destruct (Z.eqb uid u) eqn:E.
  - apply Z.eqb_eq in E. now left.
  - intros H. right. now apply IH.
Qed.

(** What [save_user_profile] leaves when the directory can be made, the
    emotion entry is a mapping and so is the statistics entry. *)
Lemma save_user_profile_good uid em fs d c :
  FS.mkdir_raises os (StorageManager.profiles_dir self) = false ->
  lookup uid (EmotionManager.user_emotions em) = Some (VDict d) ->
  lookup_default uid (VDict []) (EmotionManager.interaction_stats em) = VDict c ->
  snd (save_user_profile uid em fs)
  = (StorageManager.set_emotion uid (StorageManager.recomposed em uid d c)
       (StorageManager.set_emotion uid
          (VDict (dict_set "relationship"
                    (lookup_default uid (VDict []) (EmotionManager.relationship_progress em)) d))
          em),
     state_of (save_lists em uid
                 (snd (save_file (composite uid) (StorageManager.recomposed em uid d c)
                                 StorageManager.tmp fs)))).
Proof.
  intros Hmk Hd Hc.
  unfold save_user_profile, StorageManager.save_user_profile,
    StorageManager.save_user_profile_body.
  rewrite Hmk. rewrite (lookup_has_key _ _ _ Hd).
  assert (Hd' : lookup_default uid (VDict []) (EmotionManager.user_emotions em) = VDict d)
    by (unfold lookup_default; now rewrite Hd).
  rewrite Hd'. cbn [py_setitem].
  cbn [StorageManager.set_emotion EmotionManager.with_user_emotions
       EmotionManager.interaction_stats].
  rewrite Hc. cbn [StorageManager.py_dict py_setitem].
  cbn [EmotionManager.user_memories EmotionManager.user_events
       EmotionManager.user_milestones EmotionManager.user_emotions].
  unfold save_lists, save_list, save_file, composite, StorageManager.recomposed.
  match goal with
  | |- snd (match (match ?x with _ => _ end) with _ => _ end) = (_, state_of ?y) =>
      change y with x; destruct x; reflexivity
  end.
Qed.

(** The three family blocks in a row, for a user whose entries are lists:
    the non-empty list of family [fam] is in its file afterwards. *)
Lemma save_lists_writes fam em u fs l text :
  (forall f, Family.listed f em u = true) ->
  lookup u (Family.container fam em) = Some (VList l) -> l <> [] ->
  json_dumps (VList l) = Some text ->
  FS.write_fault os (Family.temp_path self fam u) = FS.NoFault ->
  FS.replace_raises os (Family.temp_path self fam u) (Family.path self fam u) = false ->
  FS.read (Family.path self fam u) (state_of (save_lists em u fs)) = Some text.
Proof.
  intros Hlisted Hl Hne Hd Hw Hr.
  assert (Hother : forall f fs0, f <> fam ->
            FS.read (Family.path self fam u)
              (state_of (save_list (Family.ending f) (Family.container f em) u fs0))
            = FS.read (Family.path self fam u) fs0).
  { intros f fs0 Hf. apply save_list_other; [|apply family_not_temp].
    intros E. apply family_path_inj in E as [E _]. now apply Hf. }
  unfold save_lists, bind.
  destruct (save_list_returns Family.Memories em u fs (Hlisted _)) as [fs1 E1].
  cbn [Family.ending Family.container] in E1. rewrite E1.
  destruct (save_list_returns Family.Events em u fs1 (Hlisted _)) as [fs2 E2].
  cbn [Family.ending Family.container] in E2. rewrite E2.
  destruct (save_list_returns Family.Milestones em u fs2 (Hlisted _)) as [fs3 E3].
  cbn [Family.ending Family.container] in E3. rewrite E3. cbn [state_of].
  pose proof (Hother Family.Memories fs) as O1.
  pose proof (Hother Family.Events fs1) as O2.
  pose proof (Hother Family.Milestones fs2) as O3.
  cbn [Family.ending Family.container] in O1, O2, O3.
  rewrite E1 in O1. rewrite E2 in O2. rewrite E3 in O3. cbn [state_of] in O1, O2, O3.
  destruct fam.
  - destruct (save_list_writes Family.Memories em u fs l text Hl Hne Hd Hw Hr) as [fs' [E R]].
    cbn [Family.ending Family.container] in E. rewrite E1 in E. injection E as <-.
    rewrite O3, O2 by discriminate. exact R.
  - destruct (save_list_writes Family.Events em u fs1 l text Hl Hne Hd Hw Hr) as [fs' [E R]].
    cbn [Family.ending Family.container] in E. rewrite E2 in E. injection E as <-.
    rewrite O3 by discriminate. exact R.
  - destruct (save_list_writes Family.Milestones em u fs2 l text Hl Hne Hd Hw Hr) as [fs' [E R]].
    cbn [Family.ending Family.container] in E. rewrite E3 in E. injection E as <-.
    exact R.
Qed.

(** What the loop of [save_data] keeps true of the manager: the containers
    other than the emotions are those of [em], and the emotion entry of [u]
    is a mapping. *)
Let steady (em : EmotionManager.t) (u : Z) (em' : EmotionManager.t) : Prop :=
  same_families em em'
  /\ EmotionManager.interaction_stats em' = EmotionManager.interaction_stats em
  /\ exists d, lookup u (EmotionManager.user_emotions em') = Some (VDict d).

Lemma save_user_steady em u c cm clock uid acc :
  FS.mkdir_raises os (StorageManager.profiles_dir self) = false ->
  lookup_default u (VDict []) (EmotionManager.interaction_stats em) = VDict c ->
  steady em u (fst (snd acc)) ->
  steady em u (fst (snd (save_user cm clock uid acc))).
Proof.
  intros Hmk Hc (Hfam & Hstats & d & Hd).
  pose proof (save_user_em cm clock uid acc) as Hframe.
  pose proof Hframe as (_ & _ & _ & Hs & _ & _ & Hother).
  split; [|split].
  - intros f. rewrite <- Hfam. now apply (EM_frame_families uid).
  - now rewrite Hs.
  - destruct (Z.eq_dec u uid) as [<-|Hu]; [|exists d; now rewrite Hother].
    destruct acc as [success [em0 fs0]]. cbn [fst snd] in *.
    unfold save_user, StorageManager.save_user.
    assert (Hc0 : lookup_default u (VDict []) (EmotionManager.interaction_stats em0) = VDict c)
      by now rewrite Hstats.
    pose proof (save_user_profile_good u em0 fs0 d c Hmk Hd Hc0) as Hgood.
    unfold save_user_profile in Hgood.
    destruct (StorageManager.save_user_profile json_dumps dict_of_iterable os self u em0 fs0)
      as [ok [em1 fs1]]. cbn [snd] in Hgood. injection Hgood as -> _.
    eexists.
    destruct cm as [cm|]; [|cbn [fst snd]; simpl; apply lookup_store_same].
    destruct (has_key u _); [|cbn [fst snd]; simpl; apply lookup_store_same].
    destruct (StorageManager.save_conversation _ _ _ _ _ _ _) as [ok2 fs2].
    destruct (lookup u (StorageManager.CM.user_profiles cm));
      [|cbn [fst snd]; simpl; apply lookup_store_same].
    destruct (StorageManager.save_user_profile_data _ _ _ _ _ _);
      cbn [fst snd]; simpl; apply lookup_store_same.
Qed.

(** After [save_user_profile], the rest of a turn writes files with the
    other bases only. *)
Lemma save_user_tail (P : FS.t -> Prop) cm clock uid success em fs :
  P (snd (snd (save_user_profile uid em fs))) ->
  (forall dir base data fs0,
     In base Family.other_bases -> P fs0 ->
     P (snd (save_file (Path.child dir (str_of_int uid ++ (base ++ String "." "json")))
                       data StorageManager.tmp fs0))) ->
  P (snd (snd (save_user cm clock uid (success, (em, fs))))).
Proof.
  intros H1 Hn. unfold save_user, StorageManager.save_user.
  unfold save_user_profile in H1.
  destruct (StorageManager.save_user_profile json_dumps dict_of_iterable os self uid em fs)
    as [ok [em1 fs1]]. simpl in H1.
  destruct cm as [cm|]; [|exact H1].
  destruct (has_key uid _); [|exact H1].
  assert (H2 : P (snd (StorageManager.save_conversation json_dumps os self uid cm
                         (clock uid) fs1))).
  { unfold StorageManager.save_conversation. simpl.
    assert (Hc : P match lookup uid (ConversationManager.conversations cm) with
                   | Some conv =>
                       snd (StorageManager.save_file json_dumps os
                              (Path.child (StorageManager.conversations_dir self)
                                 (str_of_int uid ++ "_conversations.json"))
                              conv StorageManager.tmp fs1)
                   | None => fs1
                   end).
    { destruct (lookup uid _); [|exact H1].
      apply (Hn _ "_conversations"); [simpl; tauto | exact H1]. }
    destruct (lookup uid (ConversationManager.conversation_summaries cm)); [|exact Hc].
    apply (Hn _ "_summary"); [simpl; tauto | exact Hc]. }
  destruct (StorageManager.save_conversation json_dumps os self uid cm (clock uid) fs1)
    as [ok2 fs2]. simpl in H2.
  destruct (lookup uid _) as [profile|]; [|exact H2].
  unfold StorageManager.save_user_profile_data.
  destruct (UserProfile.call_to_dict profile); [exact H2|]. simpl.
  apply (Hn _ "_profile"); [simpl; tauto | exact H2].
Qed.

Lemma other_write_keeps fam u dir uid base data fs0 :
  In base Family.other_bases ->
  FS.read (Family.path self fam u)
    (snd (save_file (Path.child dir (str_of_int uid ++ (base ++ String "." "json")))
                    data StorageManager.tmp fs0))
  = FS.read (Family.path self fam u) fs0.
Proof.
  intros Hb. apply save_named_other; try reflexivity; try discriminate.
  - unfold Family.other_bases in Hb. simpl in Hb.
    destruct Hb as [<-|[<-|[<-|[<-|[]]]]]; reflexivity.
  - now apply family_not_other.
  - now apply family_not_other_temp.
Qed.

(** The turn of user [u] puts the non-empty list in its file. *)
Lemma save_user_writes fam em u c cm clock acc l text :
  FS.mkdir_raises os (StorageManager.profiles_dir self) = false ->
  lookup_default u (VDict []) (EmotionManager.interaction_stats em) = VDict c ->
  steady em u (fst (snd acc)) ->
  (forall f, Family.listed f em u = true) ->
  lookup u (Family.container fam em) = Some (VList l) -> l <> [] ->
  json_dumps (VList l) = Some text ->
  FS.write_fault os (Family.temp_path self fam u) = FS.NoFault ->
  FS.replace_raises os (Family.temp_path self fam u) (Family.path self fam u) = false ->
  FS.read (Family.path self fam u) (snd (snd (save_user cm clock u acc))) = Some text.
Proof.
  intros Hmk Hc (Hfam & Hstats & d & Hd) Hlisted Hl Hne Hdumps Hw Hr.
  destruct acc as [success [em0 fs0]]. cbn [fst snd] in *.
  apply (save_user_tail (fun fs' => FS.read (Family.path self fam u) fs' = Some text)).
  - assert (Hc0 : lookup_default u (VDict []) (EmotionManager.interaction_stats em0) = VDict c)
      by now rewrite Hstats.
    rewrite (save_user_profile_good u em0 fs0 d c Hmk Hd Hc0). cbn [snd].
    apply save_lists_writes with (l := l); try assumption.
    + intros f. unfold Family.listed. rewrite Hfam. apply Hlisted.
    + now rewrite Hfam.
  - intros dir base data fs1 Hb H. now rewrite other_write_keeps.
Qed.

(** The turn of another user leaves that file alone. *)
Lemma save_user_keeps fam u cm clock uid acc :
  uid <> u ->
  FS.read (Family.path self fam u) (snd (snd (save_user cm clock uid acc)))
  = FS.read (Family.path self fam u) (snd (snd acc)).
Proof.
  intros Hu.
  apply (save_user_fs (fun fs' => FS.read (Family.path self fam u) fs'
                                  = FS.read (Family.path self fam u) (snd (snd acc)))).
  - reflexivity.
  - intros dir base data fs0 Hb H. now rewrite other_write_keeps.
  - intros f fs0 H. rewrite <- H.
    apply save_list_other; [|apply family_not_temp].
    intros E. apply family_path_inj in E as [_ E]. now apply Hu.
Qed.

Lemma fold_left_app_user cm clock k1 k2 acc :
  fold_left (fun acc0 uid => save_user cm clock uid acc0) (k1 ++ k2) acc
  = fold_left (fun acc0 uid => save_user cm clock uid acc0) k2
      (fold_left (fun acc0 uid => save_user cm clock uid acc0) k1 acc).
Proof. apply fold_left_app. Qed.

(** [save_data] puts the non-empty list of a user it visits in its file. *)
Lemma save_data_writes_family fam u em cm clock fs d c l text :
  StorageManager.dm_settings_file self <> Family.path self fam u ->
  Path.with_suffix (StorageManager.dm_settings_file self) StorageManager.tmp
  <> Some (Family.path self fam u) ->
  FS.mkdir_raises os (StorageManager.profiles_dir self) = false ->
  lookup u (EmotionManager.user_emotions em) = Some (VDict d) ->
  lookup_default u (VDict []) (EmotionManager.interaction_stats em) = VDict c ->
  (forall f, Family.listed f em u = true) ->
  lookup u (Family.container fam em) = Some (VList l) -> l <> [] ->
  json_dumps (VList l) = Some text ->
  FS.write_fault os (Family.temp_path self fam u) = FS.NoFault ->
  FS.replace_raises os (Family.temp_path self fam u) (Family.path self fam u) = false ->
  FS.read (Family.path self fam u) (snd (snd (save_data em cm clock fs))) = Some text.
Proof.
  intros Hdm1 Hdm2 Hmk Hd Hc Hlisted Hl Hne Hdumps Hw Hr.
  unfold save_data, StorageManager.save_data.
  destruct (in_split _ _ (lookup_in_keys _ _ _ Hd)) as [k1 [k2 Hkeys]].
  rewrite Hkeys.
  change (fold_left _ (k1 ++ u :: k2) (true, (em, fs)))
    with (fold_left (fun acc0 uid => save_user cm clock uid acc0) (k1 ++ u :: k2)
            (true, (em, fs))).
  rewrite fold_left_app_user. cbn [fold_left].
  set (acc1 := fold_left _ k1 _).
  assert (H1 : steady em u (fst (snd acc1))).
  { apply (fold_invariant (fun acc => steady em u (fst (snd acc)))).
    - split; [intros f; reflexivity | split; [reflexivity | now exists d]].
    - intros uid acc0 _ H. now apply save_user_steady with (c := c). }
  set (acc2 := save_user cm clock u acc1).
  assert (H2 : steady em u (fst (snd acc2))
               /\ FS.read (Family.path self fam u) (snd (snd acc2)) = Some text).
  { split.
    - now apply save_user_steady with (c := c).
    - eapply save_user_writes; eassumption. }
  pose proof (fold_invariant
    (fun acc => steady em u (fst (snd acc))
                /\ FS.read (Family.path self fam u) (snd (snd acc)) = Some text)
    cm clock k2 acc2 H2) as Hfold.
  unfold save_user in Hfold. fold acc1 in acc2.
  change (StorageManager.save_user json_dumps dict_of_iterable os self cm clock u acc1)
    with acc2.
  destruct (fold_left _ k2 acc2) as [success [em3 fs3]].
  destruct Hfold as [_ Hread].
  - intros uid acc0 _ [Hs Hq]. split.
    + now apply save_user_steady with (c := c).
    + destruct (Z.eq_dec uid u) as [->|Hu].
      * eapply save_user_writes; eassumption.
      * fold (save_user cm clock uid acc0). now rewrite save_user_keeps.
  - cbn [fst snd] in Hread. unfold StorageManager.save_dm_settings.
    destruct (StorageManager.save_file json_dumps os _ _ _ fs3) as [ok fs4] eqn:E.
    simpl. rewrite <- Hread.
    replace fs4 with (snd (save_file (StorageManager.dm_settings_file self)
                             (VDict [(VStr "enabled_users",
                                      VList (EmotionManager.dm_enabled_users em3))])
                             StorageManager.tmp fs3))
      by (unfold save_file; now rewrite E).
    apply save_file_other; [intros E'; now apply Hdm1 | exact Hdm2].
Qed.

Lemma dict_set_same k v d : dict_get k d = Some v -> dict_set k v d = d.
Proof.
  induction d as [|[k' v'] d IH]; simpl; [discriminate|].
  destruct (key_is k k'); [now intros [= ->] | intros H; now rewrite IH].
Qed.

(** Building the document again from the document changes nothing. *)
Lemma recomposed_again em uid d c d' :
  StorageManager.recomposed em uid d c = VDict d' ->
  StorageManager.recomposed em uid d' c = VDict d'.
Proof.
  unfold StorageManager.recomposed. intros [= <-]. f_equal.
  rewrite (dict_set_same "relationship").
  - apply dict_set_same, dict_get_set_same.
  - rewrite dict_get_set_other by discriminate. apply dict_get_set_same.
Qed.

Lemma save_user_em_eq cm clock uid success em fs :
  fst (snd (save_user cm clock uid (success, (em, fs))))
  = fst (snd (save_user_profile uid em fs)).
Proof.
  unfold save_user, StorageManager.save_user, save_user_profile.
  destruct (StorageManager.save_user_profile json_dumps dict_of_iterable os self uid em fs)
    as [ok [em1 fs1]].
  destruct cm as [cm|]; [|reflexivity].
  destruct (has_key uid _); [|reflexivity].
  destruct (StorageManager.save_conversation _ _ _ _ _ _ _) as [ok2 fs2].
  destruct (lookup uid _); [|reflexivity].
  destruct (StorageManager.save_user_profile_data _ _ _ _ _ _); reflexivity.
Qed.

(** After [save_user_profile] the entry is the recomposed document. *)
Lemma save_user_profile_entry uid em fs d c :
  FS.mkdir_raises os (StorageManager.profiles_dir self) = false ->
  lookup uid (EmotionManager.user_emotions em) = Some (VDict d) ->
  lookup_default uid (VDict []) (EmotionManager.interaction_stats em) = VDict c ->
  lookup uid (EmotionManager.user_emotions (fst (snd (save_user_profile uid em fs))))
  = Some (StorageManager.recomposed em uid d c).
Proof.
  intros Hmk Hd Hc. rewrite (save_user_profile_good uid em fs d c Hmk Hd Hc).
  cbn [fst]. simpl. apply lookup_store_same.
Qed.

(** And so it is after [save_data]. *)
Lemma save_data_entry uid em cm clock fs d c :
  FS.mkdir_raises os (StorageManager.profiles_dir self) = false ->
  lookup uid (EmotionManager.user_emotions em) = Some (VDict d) ->
  lookup_default uid (VDict []) (EmotionManager.interaction_stats em) = VDict c ->
  lookup uid (EmotionManager.user_emotions (fst (snd (save_data em cm clock fs))))
  = Some (StorageManager.recomposed em uid d c).
Proof.
  intros Hmk Hd Hc. unfold save_data, StorageManager.save_data.
  set (I := fun (done : bool) (acc : bool * (EmotionManager.t * FS.t)) =>
    EmotionManager.interaction_stats (fst (snd acc)) = EmotionManager.interaction_stats em
    /\ EmotionManager.relationship_progress (fst (snd acc))
       = EmotionManager.relationship_progress em
    /\ (lookup uid (EmotionManager.user_emotions (fst (snd acc)))
        = Some (StorageManager.recomposed em uid d c)
        \/ (done = false
            /\ lookup uid (EmotionManager.user_emotions (fst (snd acc))) = Some (VDict d)))).
  assert (Hown : forall done acc, I done acc -> I true (save_user cm clock uid acc)).
  { intros done [success [em0 fs0]] (Hs & Hr & He). cbn [fst snd] in *.
    pose proof (save_user_em cm clock uid (success, (em0, fs0))) as (_ & _ & _ & Hs' & Hr' & _).
    cbn [fst snd] in *. split; [congruence | split; [congruence|]]. left.
    rewrite save_user_em_eq.
    assert (Hc0 : lookup_default uid (VDict []) (EmotionManager.interaction_stats em0) = VDict c)
      by now rewrite Hs.
    destruct He as [He | [_ He]].
    - destruct (StorageManager.recomposed em uid d c) as [| | | | | |d'] eqn:Erec;
        try discriminate Erec.
      rewrite (save_user_profile_entry uid em0 fs0 d' c Hmk He Hc0). f_equal.
      pose proof (recomposed_again em uid d c d' Erec) as Hagain.
      unfold StorageManager.recomposed in *. rewrite Hr. exact Hagain.
    - rewrite (save_user_profile_entry uid em0 fs0 d c Hmk He Hc0).
      unfold StorageManager.recomposed. now rewrite Hr. }
  assert (Hother : forall done u acc, u <> uid -> I done acc -> I done (save_user cm clock u acc)).
  { intros done u acc Hu (Hs & Hr & He).
    pose proof (save_user_em cm clock u acc) as (_ & _ & _ & Hs' & Hr' & _ & Hl).
    split; [congruence | split; [congruence|]].
    rewrite (Hl uid) by (intros E; now apply Hu). exact He. }
  destruct (in_split _ _ (lookup_in_keys _ _ _ Hd)) as [k1 [k2 Hkeys]].
  rewrite Hkeys.
  change (fold_left _ (k1 ++ uid :: k2) (true, (em, fs)))
    with (fold_left (fun acc0 u => save_user cm clock u acc0) (k1 ++ uid :: k2)
            (true, (em, fs))).
  rewrite fold_left_app_user. cbn [fold_left].
  assert (H1 : exists done, I done (fold_left (fun acc0 u => save_user cm clock u acc0) k1
                                      (true, (em, fs)))).
  { apply (fold_invariant (fun acc => exists done, I done acc)).
    - exists false. repeat split. right. now split.
    - intros u acc0 _ [done H]. destruct (Z.eq_dec u uid) as [->|Hu].
      + exists true. eapply Hown, H.
      + exists done. now apply Hother. }
  destruct H1 as [done H1].
  pose proof (fold_invariant (I true) cm clock k2 _ (Hown _ _ H1)) as H2.
  match type of H2 with _ -> I true ?x => destruct x as [success [em3 fs3]] end.
  destruct H2 as (_ & _ & [H2 | [H2 _]]); [| | discriminate H2].
  - intros u acc0 _ H. destruct (Z.eq_dec u uid) as [->|Hu].
    + eapply Hown, H.
    + now apply Hother.
  - destruct (StorageManager.save_dm_settings _ _ _ _ _) as [ok fs4]. exact H2.
Qed.

End Saving.

(** C2: [save_data] on a disk that refuses the temporary file of the
    composite document of user 42.  That write fails, [42.json] is not there
    afterwards, and [save_data] still returns [True]: [save_user_profile]
    drops the result of [save_file]. *)
Lemma save_data_true_after_failed_write :
  fst (StorageManager.save_file Demo.dumps Demo.no_room_for_42
         ["data"; "users"; "profiles"; "42.json"]
         (StorageManager.recomposed Demo.one_user 42 [(VStr "mood", VStr "happy")] [])
         StorageManager.tmp []) = false
  /\ fst (StorageManager.save_data Demo.dumps Demo.dict_of_iterable Demo.no_room_for_42
            Demo.storage Demo.one_user None (fun _ => "t") []) = true
  /\ FS.read ["data"; "users"; "profiles"; "42.json"]
       (snd (snd (StorageManager.save_data Demo.dumps Demo.dict_of_iterable
                    Demo.no_room_for_42 Demo.storage Demo.one_user None
                    (fun _ => "t") []))) = None.
Proof. repeat split. Qed.

(** C9, the claim as stated fails: user 7 has a memory and no entry in the
    emotion container; [save_data] visits the users of that container only
    and writes no [7_memories.json]. *)
Lemma save_data_skips_user_without_emotions :
  lookup 7 (EmotionManager.user_memories Demo.memory_only)
  = Some (VList [VStr "met at the park"])
  /\ FS.read (Family.path Demo.storage Family.Memories 7)
       (snd (snd (StorageManager.save_data Demo.dumps Demo.dict_of_iterable Demo.quiet
                    Demo.storage Demo.memory_only None (fun _ => "t") []))) = None.
Proof. split; reflexivity. Qed.

(** C9, amended.  In a layout where the settings file and its temporary
    path are not the family file of the user: [save_data] leaves the
    memories file of a user as it is when the user's memories are missing or
    empty; and it leaves the serialized list in that file when the user has
    an entry in the emotion container that is a mapping (the statistics
    being a mapping or missing), the user's memories, events and milestones
    are lists, the memories are not empty and neither the directory nor the
    write of that file fails.  The same holds for events and milestones. *)
Theorem save_data_family_files
    (json_dumps : pyval -> option string) (dict_of_iterable : pyval -> exn + pyval)
    (os : FS.env) (self : StorageManager.t) (em : EmotionManager.t)
    (cm : option ConversationManager.t) (clock : Z -> string) (fs : FS.t)
    (fam : Family.t) (uid : Z) :
  StorageManager.dm_settings_file self <> Family.path self fam uid ->
  Path.with_suffix (StorageManager.dm_settings_file self) StorageManager.tmp
  <> Some (Family.path self fam uid) ->
  (Family.vacant fam em uid = true ->
   FS.read (Family.path self fam uid)
     (snd (snd (StorageManager.save_data json_dumps dict_of_iterable os self em cm clock fs)))
   = FS.read (Family.path self fam uid) fs)
  /\ (forall d c l text,
        FS.mkdir_raises os (StorageManager.profiles_dir self) = false ->
        lookup uid (EmotionManager.user_emotions em) = Some (VDict d) ->
        lookup_default uid (VDict []) (EmotionManager.interaction_stats em) = VDict c ->
        (forall f, Family.listed f em uid = true) ->
        lookup uid (Family.container fam em) = Some (VList l) -> l <> [] ->
        json_dumps (VList l) = Some text ->
        FS.write_fault os (Family.temp_path self fam uid) = FS.NoFault ->
        FS.replace_raises os (Family.temp_path self fam uid) (Family.path self fam uid)
        = false ->
        FS.read (Family.path self fam uid)
          (snd (snd (StorageManager.save_data json_dumps dict_of_iterable os self
                       em cm clock fs)))
        = Some text).
Proof.
  intros Hdm1 Hdm2. split.
  - now apply save_data_leaves_vacant.
  - intros d c l text. now apply save_data_writes_family.
Qed.

Lemma save_data_family_files_witness :
  FS.read (Family.path Demo.storage Family.Memories 42)
    (snd (snd (StorageManager.save_data Demo.dumps Demo.dict_of_iterable Demo.quiet
                 Demo.storage Demo.one_user None (fun _ => "t") [])))
  = FS.read (Family.path Demo.storage Family.Memories 42) []
  /\ FS.read (Family.path Demo.storage Family.Memories 42)
       (snd (snd (StorageManager.save_data Demo.dumps Demo.dict_of_iterable Demo.quiet
                    Demo.storage Demo.one_memory None (fun _ => "t") [])))
     = Demo.dumps (VList [VStr "met at the park"]).
Proof.
  split.
  - apply (proj1 (save_data_family_files Demo.dumps Demo.dict_of_iterable Demo.quiet
                    Demo.storage Demo.one_user None (fun _ => "t") []
                    Family.Memories 42
                    ltac:(discriminate) ltac:(vm_compute; discriminate))).
    reflexivity.
  - apply (proj2 (save_data_family_files Demo.dumps Demo.dict_of_iterable Demo.quiet
                    Demo.storage Demo.one_memory None (fun _ => "t") []
                    Family.Memories 42
                    ltac:(discriminate) ltac:(vm_compute; discriminate))
             [(VStr "mood", VStr "happy")] [] [VStr "met at the park"]);
      try reflexivity; try discriminate.
    intros f; destruct f; reflexivity.
Defined.

(** C10, the claim as stated fails: when the profiles directory cannot be
    made, [save_user_profile] returns [False] before it touches the mapping
    of user 42, which then holds neither key. *)
Lemma save_user_profile_untouched_when_mkdir_raises :
  StorageManager.save_user_profile Demo.dumps Demo.dict_of_iterable Demo.no_mkdir
    Demo.storage 42 Demo.one_user []
  = (false, (Demo.one_user, []))
  /\ lookup 42 (EmotionManager.user_emotions Demo.one_user) = Some Demo.happy
  /\ py_in "relationship" Demo.happy = inr false
  /\ py_in "interaction_stats" Demo.happy = inr false.
Proof. repeat split. Qed.

(** C10, amended.  For a user whose entry in the emotion container is a
    mapping [d], the statistics entry being a mapping [c] or missing: when the
    profiles directory can be made, [save_user_profile] leaves in the
    container, under that user, [d] with [relationship] set to the user's
    entry of the relationship container (an empty mapping when missing) and
    [interaction_stats] set to [c]; and so does [save_data]. *)
Theorem save_user_profile_mutates_entry
    (json_dumps : pyval -> option string) (dict_of_iterable : pyval -> exn + pyval)
    (os : FS.env) (self : StorageManager.t) (em : EmotionManager.t)
    (cm : option ConversationManager.t) (clock : Z -> string) (fs : FS.t)
    (uid : Z) (d c : dict) :
  FS.mkdir_raises os (StorageManager.profiles_dir self) = false ->
  lookup uid (EmotionManager.user_emotions em) = Some (VDict d) ->
  lookup_default uid (VDict []) (EmotionManager.interaction_stats em) = VDict c ->
  let entry :=
    dict_set "interaction_stats" (VDict c)
      (dict_set "relationship"
         (lookup_default uid (VDict []) (EmotionManager.relationship_progress em)) d) in
  lookup uid (EmotionManager.user_emotions
                (fst (snd (StorageManager.save_user_profile json_dumps dict_of_iterable
                             os self uid em fs))))
  = Some (VDict entry)
  /\ lookup uid (EmotionManager.user_emotions
                   (fst (snd (StorageManager.save_data json_dumps dict_of_iterable
                                os self em cm clock fs))))
     = Some (VDict entry)
  /\ dict_get "relationship" entry
     = Some (lookup_default uid (VDict []) (EmotionManager.relationship_progress em))
  /\ dict_get "interaction_stats" entry = Some (VDict c).
Proof.
  intros Hmk Hd Hc entry. repeat split.
  - now apply save_user_profile_entry.
  - now apply save_data_entry.
  - unfold entry. rewrite dict_get_set_other by discriminate. apply dict_get_set_same.
  - apply dict_get_set_same.
Qed.

Lemma save_user_profile_mutates_entry_witness :
  let entry :=
    dict_set "interaction_stats" (VDict [])
      (dict_set "relationship"
         (lookup_default 42 (VDict []) (EmotionManager.relationship_progress Demo.one_user))
         [(VStr "mood", VStr "happy")]) in
  lookup 42 (EmotionManager.user_emotions
               (fst (snd (StorageManager.save_user_profile Demo.dumps Demo.dict_of_iterable
                            Demo.quiet Demo.storage 42 Demo.one_user []))))
  = Some (VDict entry)
  /\ lookup 42 (EmotionManager.user_emotions
                  (fst (snd (StorageManager.save_data Demo.dumps Demo.dict_of_iterable
                               Demo.quiet Demo.storage Demo.one_user None
                               (fun _ => "t") []))))
     = Some (VDict entry)
  /\ dict_get "relationship" entry
     = Some (lookup_default 42 (VDict []) (EmotionManager.relationship_progress Demo.one_user))
  /\ dict_get "interaction_stats" entry = Some (VDict []).
Proof.
  apply (save_user_profile_mutates_entry Demo.dumps Demo.dict_of_iterable Demo.quiet
           Demo.storage Demo.one_user None (fun _ => "t") [] 42
           [(VStr "mood", VStr "happy")] []); reflexivity.
Defined.

(** ** Loading *)

Section Loading.

Variable json_loads : string -> option pyval.
Variable count_items : pyval -> exn + pyval.
Variable set_of : pyval -> exn + list pyval.
Variable os : FS.env.
Variable self : StorageManager.t.

Let load_data := StorageManager.load_data json_loads count_items set_of os self.
Let load_user_profile := StorageManager.load_user_profile json_loads count_items os self.
Let load_profiles := StorageManager.load_profiles json_loads count_items os.
Let load_profile_entry := StorageManager.load_profile_entry json_loads count_items os.

(** The module as it is written binds no [defaultdict]: every call of
    [load_data] ends in [NameError] after its first assignment, whatever the
    disk holds. *)
Lemma load_data_name_error clock stamps em cm fs :
  load_data StorageManager.module_globals clock stamps (em, cm, fs)
  = Raised NameError (EmotionManager.with_user_emotions (fun _ => []) em, cm, fs).
Proof. reflexivity. Qed.

(** The loop skips the files whose stem has an underscore. *)
Lemma load_profiles_composites files fs : forall pc ec em,
  load_profiles files fs pc ec em
  = load_profiles
      (filter (fun file => negb (Text.has_char "_" (Path.stem file))) files)
      fs pc ec em.
Proof.
  induction files as [|f files IH]; intros pc ec em; [reflexivity|].
  cbn [filter]. unfold load_profiles in *. cbn [StorageManager.load_profiles].
  destruct (Text.has_char "_" (Path.stem f)) eqn:E; cbn [negb].
  - apply IH.
  - cbn [StorageManager.load_profiles]. rewrite E.
    destruct (StorageManager.load_profile_entry _ _ _ _ _ _) as [[] em1|e em1]; apply IH.
Qed.

(** A file whose text does not decode counts as one error and changes
    nothing in the manager. *)
Lemma malformed_entry_raises file fs em uid text :
  Text.py_int (Path.stem file) = Some uid ->
  FS.read_raises os file = false -> FS.read file fs = Some text ->
  Text.blank text = false -> json_loads text = None ->
  load_profile_entry file fs em = Raised JSONDecodeError em.
Proof.
  intros Hint Hr Hread Hb Hl.
  unfold load_profile_entry, StorageManager.load_profile_entry, bind, lift,
    StorageManager.int_, StorageManager.read_text, StorageManager.loads.
  now rewrite Hint, Hr, Hread, Hb, Hl.
Qed.

Lemma stem_child dir n : Path.stem (Path.child dir n) = Path.stem [n].
Proof. unfold Path.stem, Path.name, Path.child. now rewrite last_last. Qed.

Lemma dict_has_pop_other k k' d :
  k' <> k -> dict_has k' (dict_pop k d) = dict_has k' d.
Proof. intros H. unfold dict_has. now rewrite dict_get_pop_other. Qed.

(** What [load_user_profile] hands back holds neither sub-document. *)
Lemma split_profile_clean uid data em :
  match StorageManager.split_profile count_items uid data em with
  | Returned rest _ =>
      py_in "relationship" rest = inr false /\ py_in "interaction_stats" rest = inr false
  | Raised _ _ => True
  end.
Proof.
  unfold StorageManager.split_profile, bind, lift, ret, modify.
  destruct data as [| b | z | bits | s | l | d]; cbn [py_in]; try exact I.
  - (* a string *)
    destruct (contains "relationship" s) eqn:E1; cbn [py_pop]; [exact I|].
    cbn [py_in]. destruct (contains "interaction_stats" s) eqn:E2;
      cbn [py_pop_default]; [exact I|].
    cbn [py_in]. now rewrite E1, E2.
  - (* a list *)
    destruct (existsb (key_is "relationship") l) eqn:E1; cbn [py_pop]; [exact I|].
    cbn [py_in]. destruct (existsb (key_is "interaction_stats") l) eqn:E2;
      cbn [py_pop_default]; [exact I|].
    cbn [py_in]. now rewrite E1, E2.
  - (* a mapping *)
    destruct (dict_has "relationship" d) eqn:E1.
    + cbn [py_pop]. unfold dict_has in E1.
      destruct (dict_get "relationship" d) as [v|]; [|discriminate]. cbn [fst snd py_in].
      destruct (dict_has "interaction_stats" (dict_pop "relationship" d)) eqn:E2.
      * cbn [py_pop_default fst snd].
        destruct (StorageManager.Counter count_items _); [exact I|].
        cbn [py_in]. rewrite dict_has_pop_other by discriminate.
        now rewrite !dict_has_pop_same.
      * cbn [py_in]. now rewrite E2, dict_has_pop_same.
    + cbn [py_in]. destruct (dict_has "interaction_stats" d) eqn:E2.
      * cbn [py_pop_default fst snd].
        destruct (StorageManager.Counter count_items _); [exact I|].
        cbn [py_in]. rewrite dict_has_pop_other by discriminate.
        now rewrite E1, dict_has_pop_same.
      * cbn [py_in]. now rewrite E1, E2.
Qed.

Lemma load_user_profile_clean uid em fs :
  py_in "relationship" (fst (load_user_profile uid em fs)) = inr false
  /\ py_in "interaction_stats" (fst (load_user_profile uid em fs)) = inr false.
Proof.
  unfold load_user_profile, StorageManager.load_user_profile.
  destruct (FS.exists_ _ fs); [|split; reflexivity].
  unfold bind, lift, ret.
  destruct (StorageManager.read_text os _ fs) as [e|content]; cbv beta iota;
    [split; reflexivity|].
  destruct (Text.blank content); cbv beta iota; [split; reflexivity|].
  destruct (StorageManager.loads json_loads content) as [e|data]; cbv beta iota;
    [split; reflexivity|].
  pose proof (split_profile_clean uid data em) as H.
  destruct (StorageManager.split_profile count_items uid data em) as [rest em1|e em1];
    cbv beta iota; [exact H | split; reflexivity].
Qed.

Let file42 : Path.t := Path.child (StorageManager.profiles_dir self) "42.json".

(** [load_user_profile] on the document of the scenario. *)
Lemma load_user_profile_doc42 text em fs :
  json_loads text = Some Demo.doc42 -> Text.blank text = false ->
  FS.read file42 fs = Some text -> FS.read_raises os file42 = false ->
  load_user_profile 42 em fs
  = (Demo.happy,
     StorageManager.set_stats 42 (VDict [(VStr "greet", VInt 3)])
       (StorageManager.set_relationship 42 (VDict [(VStr "trust", VInt 5)]) em)).
Proof.
  intros Hl Hb Hread Hr.
  unfold load_user_profile, StorageManager.load_user_profile.
  change (Path.child (StorageManager.profiles_dir self) (str_of_int 42 ++ ".json"))
    with file42.
  unfold FS.exists_, StorageManager.read_text, StorageManager.loads, bind, lift, ret.
  rewrite Hread, Hr, Hb, Hl. reflexivity.
Qed.

(** [load_data], once [defaultdict] is bound, on a profiles directory whose
    only composite document is that of the scenario. *)
Lemma load_data_doc42 globals clock stamps text em cm fs fs1 :
  StorageManager.name_bound globals "defaultdict" = true ->
  json_loads text = Some Demo.doc42 -> Text.blank text = false ->
  StorageManager.verify_data_directories os self fs = (true, fs1) ->
  StorageManager.composites self fs1 = [file42] ->
  FS.read file42 fs1 = Some text -> FS.read_raises os file42 = false ->
  exists r em' cm',
    load_data globals clock stamps (em, cm, fs) = Returned r (em', cm', fs1)
    /\ StorageManager.profiles_reported r = Some (1, 0)%nat
    /\ EmotionManager.user_emotions em'
       = [(42%Z, VDict [(VStr "mood", VStr "happy");
                      (VStr "relationship", VDict [(VStr "trust", VInt 5)]);
                      (VStr "interaction_stats", VDict [(VStr "greet", VInt 3)]);
                      (VStr "first_interaction", VStr (clock 42%Z))])]
    /\ EmotionManager.relationship_progress em' = [(42%Z, VDict [(VStr "trust", VInt 5)])]
    /\ EmotionManager.interaction_stats em' = [(42%Z, VDict [(VStr "greet", VInt 3)])].
Proof.
  intros Hg Hl Hb Hv Hc Hread Hr.
  unfold load_data, StorageManager.load_data. rewrite Hg, Hv. cbn [negb].
  fold load_profiles. rewrite load_profiles_composites.
  fold (StorageManager.composites self fs1). rewrite Hc.
  unfold load_profiles. cbn [StorageManager.load_profiles].
  unfold file42 at 1. rewrite stem_child.
  change (Text.has_char "_" (Path.stem ["42.json"])) with false. cbv iota.
  assert (He : StorageManager.load_profile_entry json_loads count_items os file42 fs1
                 (EmotionManager.mk [] [] [] [] [] [] (EmotionManager.dm_enabled_users em))
               = Returned true
                   (EmotionManager.mk [(42%Z, Demo.doc42)] [] [] []
                      [(42%Z, VDict [(VStr "greet", VInt 3)])]
                      [(42%Z, VDict [(VStr "trust", VInt 5)])]
                      (EmotionManager.dm_enabled_users em))).
  { unfold StorageManager.load_profile_entry, bind, lift, ret, modify,
      StorageManager.int_, StorageManager.read_text, StorageManager.loads.
    unfold file42 at 1. rewrite stem_child.
    change (Text.py_int (Path.stem ["42.json"])) with (Some 42%Z).
    cbv iota. rewrite Hr, Hread. cbv iota. rewrite Hb, Hl. reflexivity. }
  fold file42. rewrite He.
  repeat match goal with
         | |- context [StorageManager.try_each ?b ?l ?n ?s] =>
             destruct (StorageManager.try_each b l n s)
         end.
  eexists _, _, _. split; [reflexivity|]. repeat split.
Qed.

(** A file that does not decode counts as an error whatever its name. *)
Lemma malformed_counts_as_error file fs em :
  StorageManager.malformed json_loads os fs file ->
  exists e, load_profile_entry file fs em = Raised e em.
Proof.
  intros (Hr & text & Hread & Hb & Hl).
  unfold load_profile_entry, StorageManager.load_profile_entry, bind, lift,
    StorageManager.int_, StorageManager.read_text, StorageManager.loads.
  destruct (Text.py_int (Path.stem file)); [|now eexists].
  rewrite Hr, Hread, Hb, Hl. now eexists.
Qed.

(** A file that decodes to a mapping is counted, and the mapping becomes the
    entry of its user. *)
Lemma decoded_counts_as_profile file fs em uid d :
  StorageManager.decodes_to json_loads os fs file uid d ->
  exists em',
    load_profile_entry file fs em = Returned true em'
    /\ EmotionManager.user_emotions em'
       = store uid (VDict d) (EmotionManager.user_emotions em)
    /\ EmotionManager.dm_enabled_users em' = EmotionManager.dm_enabled_users em.
Proof.
  intros (Hint & Hr & (text & Hread & Hb & Hl) & Hstats).
  unfold load_profile_entry, StorageManager.load_profile_entry, bind, lift, ret, modify,
    StorageManager.int_, StorageManager.read_text, StorageManager.loads.
  rewrite Hint, Hr, Hread, Hb, Hl. cbn [py_in py_get].
  unfold dict_has, dict_get_default.
  destruct (dict_get "relationship" d) as [rel|];
    destruct (dict_get "interaction_stats" d) as [[| | | | | |c]|];
    try contradiction; cbn [StorageManager.Counter];
    eexists; (split; [reflexivity | split; reflexivity]).
Qed.

(** The last loop of [load_data] completes when every entry is a mapping; it
    keeps the users and changes no field but [first_interaction]. *)
Lemma backfill_mappings clock uids : forall em,
  (forall uid, In uid uids ->
     exists d, lookup uid (EmotionManager.user_emotions em) = Some (VDict d)) ->
  exists em',
    StorageManager.backfill clock uids em = Returned tt em'
    /\ map fst (EmotionManager.user_emotions em') = map fst (EmotionManager.user_emotions em)
    /\ EmotionManager.dm_enabled_users em' = EmotionManager.dm_enabled_users em
    /\ forall uid d,
         lookup uid (EmotionManager.user_emotions em) = Some (VDict d) ->
         exists d',
           lookup uid (EmotionManager.user_emotions em') = Some (VDict d')
           /\ forall k, k <> "first_interaction" -> dict_get k d' = dict_get k d.
Proof.
  induction uids as [|u uids IH]; intros em Hall.
  - exists em. repeat split. intros uid d H. now exists d.
  - destruct (Hall u (or_introl eq_refl)) as [du Hu].
    cbn [StorageManager.backfill]. unfold lookup_default. rewrite Hu.
    unfold bind at 1, lift at 1. cbn [py_in].
    destruct (dict_has "first_interaction" du) eqn:Hf.
    + apply IH. intros uid Hin. apply Hall. now right.
    + unfold bind, lift, modify. cbn [py_get py_setitem].
      set (du' := dict_set "first_interaction"
                    (dict_get_default "last_interaction" (VStr (clock u)) du) du).
      set (em1 := StorageManager.set_emotion u (VDict du') em).
      destruct (IH em1) as (em' & Hret & Hkeys & Hdm & Hext).
      { intros uid Hin. destruct (Z.eq_dec uid u) as [->|Hne].
        - exists du'. simpl. apply lookup_store_same.
        - destruct (Hall uid (or_intror Hin)) as [d Hd]. exists d.
          simpl. now rewrite lookup_store_other. }
      exists em'. split; [exact Hret|]. split; [|split].
      * rewrite Hkeys. simpl. apply keys_store_present. now apply (lookup_has_key u _ (VDict du)).
      * exact Hdm.
      * intros uid d Hd. destruct (Z.eq_dec uid u) as [->|Hne].
        -- rewrite Hu in Hd. injection Hd as <-.
           destruct (Hext u du') as (d' & Hd' & Hsame); [simpl; apply lookup_store_same|].
           exists d'. split; [exact Hd'|]. intros k Hk. rewrite Hsame by exact Hk.
           unfold du'. now rewrite dict_get_set_other.
        -- apply Hext. simpl. now rewrite lookup_store_other.
Qed.

(** Once [defaultdict] is bound and the startup check has succeeded,
    [load_data] completes when the first loop leaves mappings only; it
    reports the two counters of that loop. *)
Lemma load_data_completes globals clock stamps em cm fs fs1 pc ec em2 :
  StorageManager.name_bound globals "defaultdict" = true ->
  StorageManager.verify_data_directories os self fs = (true, fs1) ->
  load_profiles (StorageManager.composites self fs1) fs1 0 0
    (EmotionManager.mk [] [] [] [] [] [] (EmotionManager.dm_enabled_users em))
  = (pc, ec, em2) ->
  (forall uid, In uid (map fst (EmotionManager.user_emotions em2)) ->
     exists d, lookup uid (EmotionManager.user_emotions em2) = Some (VDict d)) ->
  exists r em' cm',
    load_data globals clock stamps (em, cm, fs) = Returned r (em', cm', fs1)
    /\ StorageManager.profiles_reported r = Some (pc, ec)
    /\ map fst (EmotionManager.user_emotions em')
       = map fst (EmotionManager.user_emotions em2)
    /\ forall uid d,
         lookup uid (EmotionManager.user_emotions em2) = Some (VDict d) ->
         exists d',
           lookup uid (EmotionManager.user_emotions em') = Some (VDict d')
           /\ forall k, k <> "first_interaction" -> dict_get k d' = dict_get k d.
Proof.
  intros Hg Hv Hload Hall.
  unfold load_data, StorageManager.load_data. rewrite Hg, Hv. cbn [negb].
  fold load_profiles. rewrite load_profiles_composites.
  fold (StorageManager.composites self fs1). rewrite Hload.
  repeat match goal with
         | |- context [StorageManager.try_each ?b ?l ?n ?s] =>
             destruct (StorageManager.try_each b l n s)
         end.
  cbn [EmotionManager.user_emotions].
  match goal with
  | |- context [StorageManager.backfill clock ?uids ?e] =>
      destruct (backfill_mappings clock uids e) as (em4 & Hret & Hkeys & _ & Hext);
        [exact Hall | rewrite Hret]
  end.
  eexists _, _, _. split; [reflexivity|]. split; [reflexivity|]. split.
  - exact Hkeys.
  - exact Hext.
Qed.

(** Error isolation, once [defaultdict] is bound: three composite files,
    one of which does not decode while the two others decode to mappings for
    two users.  [load_data] completes, reports two profiles and one error,
    and the emotion container holds the two users with the fields of their
    documents. *)
Lemma load_data_isolates_malformed_file globals clock stamps em cm fs fs1
      f1 f2 f3 ua da ub db :
  StorageManager.name_bound globals "defaultdict" = true ->
  StorageManager.verify_data_directories os self fs = (true, fs1) ->
  StorageManager.composites self fs1 = [f1; f2; f3] ->
  ua <> ub ->
  (StorageManager.malformed json_loads os fs1 f1
   /\ StorageManager.decodes_to json_loads os fs1 f2 ua da
   /\ StorageManager.decodes_to json_loads os fs1 f3 ub db)
  \/ (StorageManager.decodes_to json_loads os fs1 f1 ua da
      /\ StorageManager.malformed json_loads os fs1 f2
      /\ StorageManager.decodes_to json_loads os fs1 f3 ub db)
  \/ (StorageManager.decodes_to json_loads os fs1 f1 ua da
      /\ StorageManager.decodes_to json_loads os fs1 f2 ub db
      /\ StorageManager.malformed json_loads os fs1 f3) ->
  exists r em' cm',
    load_data globals clock stamps (em, cm, fs) = Returned r (em', cm', fs1)
    /\ StorageManager.profiles_reported r = Some (2, 1)%nat
    /\ map fst (EmotionManager.user_emotions em') = [ua; ub]
    /\ (exists d', lookup ua (EmotionManager.user_emotions em') = Some (VDict d')
                   /\ forall k, k <> "first_interaction" -> dict_get k d' = dict_get k da)
    /\ (exists d', lookup ub (EmotionManager.user_emotions em') = Some (VDict d')
                   /\ forall k, k <> "first_interaction" -> dict_get k d' = dict_get k db).
Proof.
  intros Hg Hv Hc Hne Hcases.
  assert (Hunder : forall f, In f [f1; f2; f3] -> Text.has_char "_" (Path.stem f) = false).
  { intros f Hin. rewrite <- Hc in Hin. unfold StorageManager.composites in Hin.
    apply filter_In in Hin as [_ Hin]. now apply negb_true_iff in Hin. }
  assert (Hub : Z.eqb ub ua = false) by (apply Z.eqb_neq; congruence).
  assert (Hload : exists em2,
            load_profiles [f1; f2; f3] fs1 0 0
              (EmotionManager.mk [] [] [] [] [] [] (EmotionManager.dm_enabled_users em))
            = (2, 1, em2)%nat
            /\ EmotionManager.user_emotions em2 = [(ua, VDict da); (ub, VDict db)]).
  { unfold load_profiles. cbn [StorageManager.load_profiles].
    rewrite !Hunder by (simpl; tauto).
    fold load_profile_entry.
    set (em1 := EmotionManager.mk [] [] [] [] [] [] (EmotionManager.dm_enabled_users em)).
    destruct Hcases as [(Hm & Ha & Hb) | [(Ha & Hm & Hb) | (Ha & Hb & Hm)]].
    - destruct (malformed_counts_as_error f1 fs1 em1 Hm) as [e ->].
      destruct (decoded_counts_as_profile f2 fs1 em1 ua da Ha) as (ema & -> & Hea & _).
      destruct (decoded_counts_as_profile f3 fs1 ema ub db Hb) as (emb & -> & Heb & _).
      exists emb. split; [reflexivity|]. rewrite Heb, Hea. simpl. now rewrite Hub.
    - destruct (decoded_counts_as_profile f1 fs1 em1 ua da Ha) as (ema & -> & Hea & _).
      destruct (malformed_counts_as_error f2 fs1 ema Hm) as [e ->].
      destruct (decoded_counts_as_profile f3 fs1 ema ub db Hb) as (emb & -> & Heb & _).
      exists emb. split; [reflexivity|]. rewrite Heb, Hea. simpl. now rewrite Hub.
    - destruct (decoded_counts_as_profile f1 fs1 em1 ua da Ha) as (ema & -> & Hea & _).
      destruct (decoded_counts_as_profile f2 fs1 ema ub db Hb) as (emb & -> & Heb & _).
      destruct (malformed_counts_as_error f3 fs1 emb Hm) as [e ->].
      exists emb. split; [reflexivity|]. rewrite Heb, Hea. simpl. now rewrite Hub. }
  destruct Hload as (em2 & Hload & He2). rewrite <- Hc in Hload.
  destruct (load_data_completes globals clock stamps em cm fs fs1 2 1 em2 Hg Hv Hload)
    as (r & em' & cm' & Hret & Hrep & Hkeys & Hext).
  { rewrite He2. simpl. intros uid [<-|[<-|[]]].
    - exists da. now rewrite Z.eqb_refl.
    - exists db. now rewrite Hub, Z.eqb_refl. }
  exists r, em', cm'. split; [exact Hret|]. split; [exact Hrep|]. split; [|split].
  - now rewrite Hkeys, He2.
  - apply Hext. rewrite He2. simpl. now rewrite Z.eqb_refl.
  - apply Hext. rewrite He2. simpl. now rewrite Hub, Z.eqb_refl.
Qed.

End Loading.

(** C1: a profiles directory that holds the document [42.json] of the
    scenario and nothing else, on a disk where nothing fails.  In the module
    as written [load_data] ends in [NameError] before it reads a file, and
    the containers stay empty.  With [defaultdict] bound it completes, and
    the mapping of user 42 still holds [relationship] and
    [interaction_stats], which are read with [.get] where [load_user_profile]
    pops them: it is not the mapping with [mood] alone. *)
Lemma load_data_keeps_sub_documents :
  StorageManager.load_data Demo.loads Demo.count_items Demo.set_of Demo.quiet
    Demo.storage StorageManager.module_globals (fun _ => "now") (fun _ => ("t0", "t1"))
    (Demo.no_emotions, Demo.no_conversations, Demo.only_42)
  = Raised NameError (Demo.no_emotions, Demo.no_conversations, Demo.only_42)
  /\ exists r em' cm',
       StorageManager.load_data Demo.loads Demo.count_items Demo.set_of Demo.quiet
         Demo.storage Demo.globals_with_defaultdict (fun _ => "now")
         (fun _ => ("t0", "t1"))
         (Demo.no_emotions, Demo.no_conversations, Demo.only_42)
       = Returned r (em', cm', Demo.only_42)
       /\ lookup 42 (EmotionManager.user_emotions em')
          = Some (VDict [(VStr "mood", VStr "happy");
                         (VStr "relationship", VDict [(VStr "trust", VInt 5)]);
                         (VStr "interaction_stats", VDict [(VStr "greet", VInt 3)]);
                         (VStr "first_interaction", VStr "now")])
       /\ lookup 42 (EmotionManager.user_emotions em') <> Some Demo.happy.
Proof.
  split; [reflexivity|].
  eexists _, _, _. split; [vm_compute; reflexivity|].
  split; [reflexivity | discriminate].
Qed.

(** The document of the scenario through both loaders.  With [42.json]
    holding it, [load_user_profile(42)] returns the mapping with [mood] alone
    and leaves [{trust: 5}] and [{greet: 3}] under user 42 in the
    relationship and statistics containers; what [load_user_profile] returns
    never holds [relationship] or [interaction_stats]; and in a module that
    binds [defaultdict], when the startup check succeeds and [42.json] is
    the only composite document, [load_data] completes with [{trust: 5}] and
    [{greet: 3}] in the two containers and an emotion mapping for user 42
    that holds [mood] and the backfilled [first_interaction]. *)
Theorem load_splits_composite_document
    (json_loads : string -> option pyval) (count_items : pyval -> exn + pyval)
    (set_of : pyval -> exn + list pyval) (os : FS.env) (self : StorageManager.t)
    (text : string) :
  json_loads text = Some Demo.doc42 -> Text.blank text = false ->
  FS.read_raises os (Path.child (StorageManager.profiles_dir self) "42.json") = false ->
  (forall em fs,
     FS.read (Path.child (StorageManager.profiles_dir self) "42.json") fs = Some text ->
     exists em',
       StorageManager.load_user_profile json_loads count_items os self 42 em fs
       = (VDict [(VStr "mood", VStr "happy")], em')
       /\ lookup 42 (EmotionManager.relationship_progress em')
          = Some (VDict [(VStr "trust", VInt 5)])
       /\ lookup 42 (EmotionManager.interaction_stats em')
          = Some (VDict [(VStr "greet", VInt 3)]))
  /\ (forall uid em fs,
        py_in "relationship"
          (fst (StorageManager.load_user_profile json_loads count_items os self uid em fs))
        = inr false
        /\ py_in "interaction_stats"
             (fst (StorageManager.load_user_profile json_loads count_items os self uid em fs))
           = inr false)
  /\ (forall globals clock stamps em cm fs fs1,
        StorageManager.name_bound globals "defaultdict" = true ->
        StorageManager.verify_data_directories os self fs = (true, fs1) ->
        StorageManager.composites self fs1
        = [Path.child (StorageManager.profiles_dir self) "42.json"] ->
        FS.read (Path.child (StorageManager.profiles_dir self) "42.json") fs1 = Some text ->
        exists r em' cm' d,
          StorageManager.load_data json_loads count_items set_of os self globals
            clock stamps (em, cm, fs)
          = Returned r (em', cm', fs1)
          /\ lookup 42 (EmotionManager.relationship_progress em')
             = Some (VDict [(VStr "trust", VInt 5)])
          /\ lookup 42 (EmotionManager.interaction_stats em')
             = Some (VDict [(VStr "greet", VInt 3)])
          /\ lookup 42 (EmotionManager.user_emotions em') = Some (VDict d)
          /\ dict_get "mood" d = Some (VStr "happy")
          /\ dict_get "first_interaction" d = Some (VStr (clock 42%Z))).
Proof.
  intros Hl Hb Hr. split; [|split].
  - intros em fs Hread. eexists. split.
    + apply (load_user_profile_doc42 json_loads count_items os self text em fs Hl Hb Hread Hr).
    + split; simpl; apply lookup_store_same.
  - intros uid em fs. apply load_user_profile_clean.
  - intros globals clock stamps em cm fs fs1 Hg Hv Hc Hread.
    destruct (load_data_doc42 json_loads count_items set_of os self globals clock stamps
                text em cm fs fs1 Hg Hl Hb Hv Hc Hread Hr)
      as (r & em' & cm' & Hret & _ & He & Hrel & Hst).
    exists r, em', cm'. eexists. split; [exact Hret|].
    rewrite Hrel, Hst, He. repeat split.
Qed.

Lemma load_splits_composite_document_witness :
  (exists em',
     StorageManager.load_user_profile Demo.loads Demo.count_items Demo.quiet Demo.storage
       42 Demo.no_emotions Demo.only_42
     = (VDict [(VStr "mood", VStr "happy")], em')
     /\ lookup 42 (EmotionManager.relationship_progress em')
        = Some (VDict [(VStr "trust", VInt 5)])
     /\ lookup 42 (EmotionManager.interaction_stats em')
        = Some (VDict [(VStr "greet", VInt 3)]))
  /\ exists r em' cm' d,
       StorageManager.load_data Demo.loads Demo.count_items Demo.set_of Demo.quiet
         Demo.storage Demo.globals_with_defaultdict (fun _ => "now")
         (fun _ => ("t0", "t1"))
         (Demo.no_emotions, Demo.no_conversations, Demo.only_42)
       = Returned r (em', cm', Demo.only_42)
       /\ lookup 42 (EmotionManager.relationship_progress em')
          = Some (VDict [(VStr "trust", VInt 5)])
       /\ lookup 42 (EmotionManager.interaction_stats em')
          = Some (VDict [(VStr "greet", VInt 3)])
       /\ lookup 42 (EmotionManager.user_emotions em') = Some (VDict d)
       /\ dict_get "mood" d = Some (VStr "happy")
       /\ dict_get "first_interaction" d = Some (VStr "now").
Proof.
  pose proof (load_splits_composite_document Demo.loads Demo.count_items Demo.set_of
                Demo.quiet Demo.storage Demo.text42 eq_refl eq_refl eq_refl)
    as (H1 & _ & H3).
  split.
  - apply H1. reflexivity.
  - apply (H3 Demo.globals_with_defaultdict (fun _ => "now") (fun _ => ("t0", "t1"))
              Demo.no_emotions Demo.no_conversations Demo.only_42 Demo.only_42);
      reflexivity.
Defined.

(** C3: a data directory that holds the one decodable document [42.json]
    and nothing else, on a disk where the startup check succeeds.  In the
    module as written [load_data] ends in [NameError].  With [defaultdict]
    bound it counts one profile and no error, and still returns [False]:
    [profile_count] is set back to zero before the loop over the
    [*_profile.json] files, and that second count is what is returned. *)
Lemma load_data_fails_with_one_profile :
  StorageManager.verify_data_directories Demo.quiet Demo.storage Demo.only_42
  = (true, Demo.only_42)
  /\ StorageManager.load_data Demo.loads Demo.count_items Demo.set_of Demo.quiet
       Demo.storage StorageManager.module_globals (fun _ => "now")
       (fun _ => ("t0", "t1"))
       (Demo.no_emotions, Demo.no_conversations, Demo.only_42)
     = Raised NameError (Demo.no_emotions, Demo.no_conversations, Demo.only_42)
  /\ exists w,
       StorageManager.load_data Demo.loads Demo.count_items Demo.set_of Demo.quiet
         Demo.storage Demo.globals_with_defaultdict (fun _ => "now")
         (fun _ => ("t0", "t1"))
         (Demo.no_emotions, Demo.no_conversations, Demo.only_42)
       = Returned (StorageManager.mk_result false (Some (1, 0)%nat)) w.
Proof.
  split; [reflexivity|]. split; [reflexivity|].
  eexists. vm_compute. reflexivity.
Qed.

(** C4: a profiles directory with two decodable documents and one that is
    no JSON.  In the module as written [load_data] does not complete: it ends
    in [NameError] with an empty emotion container.  With [defaultdict] bound
    it completes, reports two profiles and one error, and the emotion
    container holds the users 42 and 7. *)
Lemma load_data_raises_on_three_files :
  StorageManager.load_data Demo.loads Demo.count_items Demo.set_of Demo.quiet
    Demo.storage StorageManager.module_globals (fun _ => "now") (fun _ => ("t0", "t1"))
    (Demo.no_emotions, Demo.no_conversations, Demo.two_good_one_broken)
  = Raised NameError (Demo.no_emotions, Demo.no_conversations, Demo.two_good_one_broken)
  /\ exists r em' cm',
       StorageManager.load_data Demo.loads Demo.count_items Demo.set_of Demo.quiet
         Demo.storage Demo.globals_with_defaultdict (fun _ => "now")
         (fun _ => ("t0", "t1"))
         (Demo.no_emotions, Demo.no_conversations, Demo.two_good_one_broken)
       = Returned r (em', cm', Demo.two_good_one_broken)
       /\ StorageManager.profiles_reported r = Some (2, 1)%nat
       /\ map fst (EmotionManager.user_emotions em') = [42%Z; 7%Z].
Proof.
  split; [reflexivity|].
  eexists _, _, _. split; [vm_compute; reflexivity|]. split; reflexivity.
Qed.

(** * Further properties: the profile summary, the names, the loaders *)

(** ** The summary of a profile *)

Section Summary.
Import ProfileSummary.

Variable py_str : pyval -> string.

Lemma strings_of_firstn n : forall l ss,
  strings_of l = Some ss -> strings_of (firstn n l) = Some (firstn n ss).
Proof.
  induction n as [|n IH]; intros l ss H; [reflexivity|].
  destruct l as [|v l]; simpl in *.
  - injection H as <-. reflexivity.
  - destruct v; try discriminate.
    destruct (strings_of l) as [ss'|] eqn:E; [|discriminate].
    injection H as <-. simpl. now rewrite (IH l ss' E).
Qed.

Lemma field_is_get test self field :
  field_is test self field = true ->
  exists v, dict_get field self = Some v /\ test v = true.
Proof.
  unfold field_is. destruct (dict_get field self) as [v|]; [|discriminate].
  intros H. now exists v.
Qed.

Lemma name_part_typed self :
  field_is name_typed self "preferred_name" = true ->
  field_is name_typed self "nickname" = true ->
  field_is name_typed self "name" = true ->
  exists a, name_part py_str self = Some a.
Proof.
  intros H1 H2 H3.
  apply field_is_get in H1 as [v1 [E1 T1]].
  apply field_is_get in H2 as [v2 [E2 T2]].
  apply field_is_get in H3 as [v3 [E3 T3]].
  unfold name_part, read_field. rewrite E1, E2, E3.
  destruct (truthy v1); [eexists; reflexivity|].
  destruct (truthy v2); [eexists; reflexivity|].
  destruct (truthy v3); eexists; reflexivity.
Qed.

Lemma list_part_typed label sep n field self :
  field_is list_typed self field = true ->
  exists a, list_part label sep n field self = Some a.
Proof.
  intros H. apply field_is_get in H as [v [E T]].
  unfold list_part, read_field. rewrite E.
  destruct v; try discriminate. simpl in T.
  destruct (strings_of items) as [ss|] eqn:Es; [|discriminate].
  destruct (truthy (VList items)); [|eexists; reflexivity].
  unfold joined_prefix. rewrite (strings_of_firstn n items ss Es).
  eexists; reflexivity.
Qed.

(** Reading a field other than the one just assigned. *)
Lemma read_field_set_other self k k' v :
  k' <> k -> read_field (dict_set k v self) k' = read_field self k'.
Proof. intros H. unfold read_field. now apply dict_get_set_other. Qed.

Lemma read_field_set_same self k v : read_field (dict_set k v self) k = Some v.
Proof. unfold read_field. apply dict_get_set_same. Qed.

Lemma name_part_set_other self k v :
  k <> "preferred_name" -> k <> "nickname" -> k <> "name" ->
  name_part py_str (dict_set k v self) = name_part py_str self.
Proof.
  intros H1 H2 H3. unfold name_part.
  rewrite !read_field_set_other by congruence. reflexivity.
Qed.

Lemma list_part_set_other label sep n field self k v :
  field <> k ->
  list_part label sep n field (dict_set k v self) = list_part label sep n field self.
Proof.
  intros H. unfold list_part. now rewrite read_field_set_other.
Qed.

Lemma list_part_firstn label sep n field self l :
  (0 < n)%nat ->
  list_part label sep n field (dict_set field (VList (firstn n l)) self)
  = list_part label sep n field (dict_set field (VList l) self).
Proof.
  intros Hn. unfold list_part. rewrite !read_field_set_same.
  destruct l as [|x l]; [now rewrite firstn_nil|].
  destruct n as [|n]; [lia|].
  cbn [firstn truthy]. unfold joined_prefix.
  change (x :: firstn n l) with (firstn (S n) (x :: l)).
  rewrite firstn_firstn, Nat.min_id. reflexivity.
Qed.

End Summary.

(** X1.  A profile whose three names are [None] or strings and whose four
    lists are lists of strings has a summary: [get_summary] does not raise
    on it. *)
Theorem get_summary_returns (py_str : pyval -> string) (self : UserProfile.t) :
  ProfileSummary.well_typed self = true ->
  exists s, ProfileSummary.get_summary py_str self = Some s.
Proof.
  unfold ProfileSummary.well_typed. cbn [forallb].
  rewrite !andb_true_r. intros H.
  repeat match goal with
         | H0 : (_ && _) = true |- _ => apply andb_true_iff in H0 as [? ?]
         end.
  destruct (name_part_typed py_str self) as [a Ha]; try assumption.
  unfold ProfileSummary.get_summary, ProfileSummary.summary_parts. rewrite Ha.
  destruct (list_part_typed "Personality: " ", " 3 "personality_traits" self) as [b Hb];
    [assumption|]. rewrite Hb.
  destruct (list_part_typed "Interests: " ", " 3 "interests" self) as [c Hc];
    [assumption|]. rewrite Hc.
  destruct (list_part_typed "Notable facts: " "; " 2 "notable_facts" self) as [d Hd];
    [assumption|]. rewrite Hd.
  destruct (list_part_typed "Relationship context: " "; " 2 "relationship_context" self)
    as [e He]; [assumption|]. rewrite He.
  eexists; reflexivity.
Qed.

Lemma get_summary_returns_witness :
  exists s,
    ProfileSummary.get_summary (fun _ => "?")
      (dict_set "interests" (VList [VStr "chess"; VStr "tea"])
         (UserProfile.init (VInt 42) "t0" "t1")) = Some s.
Proof.
  apply (get_summary_returns (fun _ => "?")
           (dict_set "interests" (VList [VStr "chess"; VStr "tea"])
              (UserProfile.init (VInt 42) "t0" "t1"))).
  reflexivity.
Defined.

(** X2.  Only the head of each list reaches the summary: the first three
    personality traits and interests, the first two notable facts and
    relationship contexts.  Cutting a list to that length changes nothing,
    whatever the items cut off are. *)
Theorem get_summary_reads_list_heads (py_str : pyval -> string)
    (self : UserProfile.t) (field : string) (n : nat) (l : list pyval) :
  In (field, n) [("personality_traits", 3%nat); ("interests", 3%nat);
                 ("notable_facts", 2%nat); ("relationship_context", 2%nat)] ->
  ProfileSummary.get_summary py_str (dict_set field (VList (firstn n l)) self)
  = ProfileSummary.get_summary py_str (dict_set field (VList l) self).
Proof.
  intros Hin. unfold ProfileSummary.get_summary, ProfileSummary.summary_parts.
  simpl in Hin.
  destruct Hin as [E|[E|[E|[E|[]]]]]; injection E as <- <-;
    rewrite !name_part_set_other by discriminate;
    repeat match goal with
           | |- context [ProfileSummary.list_part ?lb ?sp ?m ?f (dict_set ?k ?v ?s)] =>
               rewrite (list_part_set_other lb sp m f s k v) by discriminate
           end;
    rewrite list_part_firstn by lia;
    reflexivity.
Qed.

Lemma get_summary_reads_list_heads_witness :
  ProfileSummary.get_summary (fun _ => "?")
    (dict_set "notable_facts" (VList (firstn 2 [VStr "a"; VStr "b"; VInt 3]))
       (UserProfile.init (VInt 42) "t0" "t1"))
  = ProfileSummary.get_summary (fun _ => "?")
      (dict_set "notable_facts" (VList [VStr "a"; VStr "b"; VInt 3])
         (UserProfile.init (VInt 42) "t0" "t1")).
Proof.
  apply (get_summary_reads_list_heads (fun _ => "?")
           (UserProfile.init (VInt 42) "t0" "t1") "notable_facts" 2
           [VStr "a"; VStr "b"; VInt 3]).
  simpl. right. right. left. reflexivity.
Defined.

(** ** Names and profiles in the conversation manager *)

Section Names.
Import ConversationManager.

Lemma prefix_app (a b : string) : String.prefix a (a ++ b) = true.
Proof.
  induction a as [|c a IH]; simpl; [now destruct b|].
  destruct (ascii_dec c c) as [_|N]; [exact IH | now elim N].
Qed.

Lemma concat_head sep (x : string) rest :
  exists tail, String.concat sep (x :: rest) = (x ++ tail)%string.
Proof.
  destruct rest as [|y rest]; simpl.
  - exists EmptyString. clear. induction x as [|c x IH]; simpl; [reflexivity|].
    now rewrite <- IH.
  - eexists. reflexivity.
Qed.

(** The profile [get_or_create_profile] hands out is the one the manager
    holds afterwards. *)
Lemma get_or_create_profile_held self uid username t0 t1 :
  lookup uid (user_profiles (snd (Conversation.get_or_create_profile self uid username t0 t1)))
  = Some (fst (Conversation.get_or_create_profile self uid username t0 t1)).
Proof.
  unfold Conversation.get_or_create_profile.
  destruct (lookup uid (user_profiles self)) as [p|] eqn:E; simpl; [exact E|].
  apply lookup_store_same.
Qed.

(** A summary that has a name block starts with it. *)
Lemma summary_after_name py_str p (x s : string) :
  ProfileSummary.name_part py_str p = Some [x] ->
  ProfileSummary.get_summary py_str p = Some s ->
  String.prefix x s = true.
Proof.
  intros Hn. unfold ProfileSummary.get_summary, ProfileSummary.summary_parts.
  rewrite Hn.
  repeat match goal with
         | |- context [ProfileSummary.list_part ?a ?b ?c ?d ?e] =>
             destruct (ProfileSummary.list_part a b c d e)
         end; try discriminate.
  cbn [option_map]. intros H.
  match type of H with
  | context [[x] ++ ?r] =>
      destruct (concat_head " | " x r) as [tail Htail];
      change ([x] ++ r) with (x :: r) in H; rewrite Htail in H
  end.
  injection H as <-. apply prefix_app.
Qed.

End Names.

(** X3.  The summary of a profile opens with the name
    [get_preferred_name] gives for its user, whenever that is a name and
    the summary can be made. *)
Theorem summary_opens_with_preferred_name (py_str : pyval -> string)
    (cm : ConversationManager.t) (uid : Z) (p : UserProfile.t) (v : pyval)
    (s : string) :
  lookup uid (ConversationManager.user_profiles cm) = Some p ->
  Conversation.get_preferred_name cm uid = Some v ->
  truthy v = true ->
  ProfileSummary.get_summary py_str p = Some s ->
  String.prefix ("Name: " ++ ProfileSummary.format py_str v) s = true.
Proof.
  intros Hp Hv Ht. apply summary_after_name.
  unfold Conversation.get_preferred_name in Hv. rewrite Hp in Hv.
  unfold ProfileSummary.name_part.
  destruct (ProfileSummary.read_field p "preferred_name") as [v1|]; [|discriminate].
  destruct (truthy v1); [now injection Hv as ->|].
  destruct (ProfileSummary.read_field p "nickname") as [v2|]; [|discriminate].
  destruct (truthy v2); [now injection Hv as ->|].
  destruct (ProfileSummary.read_field p "name") as [v3|]; [|discriminate].
  destruct (truthy v3); [now injection Hv as ->|].
  injection Hv as <-. discriminate.
Qed.

Lemma summary_opens_with_preferred_name_witness :
  String.prefix ("Name: " ++ ProfileSummary.format (fun _ => "?") (VStr "Annie"))
    "Name: Annie | Interests: chess" = true.
Proof.
  apply (summary_opens_with_preferred_name (fun _ => "?")
           (ConversationManager.mk [] []
              [(42%Z, dict_set "interests" (VList [VStr "chess"])
                        (dict_set "nickname" (VStr "Annie")
                           (dict_set "name" (VStr "Ann")
                              (UserProfile.init (VInt 42) "t0" "t1"))))])
           42%Z
           (dict_set "interests" (VList [VStr "chess"])
              (dict_set "nickname" (VStr "Annie")
                 (dict_set "name" (VStr "Ann")
                    (UserProfile.init (VInt 42) "t0" "t1"))))
           (VStr "Annie") "Name: Annie | Interests: chess");
    reflexivity.
Defined.

(** X4.  A profile made by [get_or_create_profile] for a user the manager
    did not know has the user name as its whole summary, and the empty
    summary when no user name was given. *)
Theorem created_profile_summary (py_str : pyval -> string)
    (cm : ConversationManager.t) (uid : Z) (username : pyval)
    (t_created t_updated : string) :
  lookup uid (ConversationManager.user_profiles cm) = None ->
  ProfileSummary.get_summary py_str
    (fst (Conversation.get_or_create_profile cm uid username t_created t_updated))
  = Some (if truthy username
          then ("Name: " ++ ProfileSummary.format py_str username)%string
          else EmptyString).
Proof.
  intros H. unfold Conversation.get_or_create_profile. rewrite H.
  cbn [fst]. destruct (truthy username) eqn:T.
  - unfold ProfileSummary.get_summary, ProfileSummary.summary_parts,
      ProfileSummary.name_part, ProfileSummary.list_part, ProfileSummary.read_field.
    cbn. rewrite T. cbn.
    clear. induction ("Name: " ++ ProfileSummary.format py_str username)%string;
      reflexivity.
  - reflexivity.
Qed.

Lemma created_profile_summary_witness :
  ProfileSummary.get_summary (fun _ => "?")
    (fst (Conversation.get_or_create_profile Demo.no_conversations 42 (VStr "Ann")
            "t0" "t1"))
  = Some "Name: Ann".
Proof.
  apply (created_profile_summary (fun _ => "?") Demo.no_conversations 42 (VStr "Ann")
           "t0" "t1").
  reflexivity.
Defined.

(** X5.  [get_or_create_profile] is idempotent: a second call for the same
    user returns the profile of the first and leaves the manager as the
    first left it, whatever user name it is given. *)
Theorem get_or_create_profile_again (cm : ConversationManager.t) (uid : Z)
    (username username' : pyval) (t0 t1 t0' t1' : string) :
  Conversation.get_or_create_profile
    (snd (Conversation.get_or_create_profile cm uid username t0 t1))
    uid username' t0' t1'
  = Conversation.get_or_create_profile cm uid username t0 t1.
Proof.
  pose proof (get_or_create_profile_held cm uid username t0 t1) as H.
  destruct (Conversation.get_or_create_profile cm uid username t0 t1) as [p cm1].
  cbn [fst snd] in *. unfold Conversation.get_or_create_profile. now rewrite H.
Qed.

(** X6.  [get_or_create_profile] touches nothing but the profile of its
    user: the profiles of all other users, the histories and the summaries
    are as before. *)
Theorem get_or_create_profile_frame (cm : ConversationManager.t) (uid : Z)
    (username : pyval) (t0 t1 : string) :
  let cm' := snd (Conversation.get_or_create_profile cm uid username t0 t1) in
  (forall uid', uid' <> uid ->
     lookup uid' (ConversationManager.user_profiles cm')
     = lookup uid' (ConversationManager.user_profiles cm))
  /\ ConversationManager.conversations cm' = ConversationManager.conversations cm
  /\ ConversationManager.conversation_summaries cm'
     = ConversationManager.conversation_summaries cm.
Proof.
  unfold Conversation.get_or_create_profile.
  destruct (lookup uid (ConversationManager.user_profiles cm)); cbn.
  - repeat split.
  - repeat split. intros uid' Hne. now apply lookup_store_other.
Qed.

(** X7.  [update_name_recognition] cannot take a name away: called with no
    name, or with empty ones, it leaves the answer of [get_preferred_name]
    for that user as it was, also when it has to create the profile. *)
Theorem update_name_recognition_keeps_names (cm : ConversationManager.t) (uid : Z)
    (name nickname preferred_name : pyval) (t0 t1 now : string) :
  truthy name = false -> truthy nickname = false -> truthy preferred_name = false ->
  Conversation.get_preferred_name
    (snd (Conversation.update_name_recognition cm uid name nickname preferred_name
            t0 t1 now)) uid
  = Conversation.get_preferred_name cm uid.
Proof.
  intros H1 H2 H3.
  unfold Conversation.update_name_recognition, Conversation.get_or_create_profile.
  rewrite H1, H2, H3.
  destruct (lookup uid (ConversationManager.user_profiles cm)) as [p|] eqn:E.
  - unfold Conversation.get_preferred_name. cbn. rewrite lookup_store_same, E.
    unfold ProfileSummary.read_field.
    rewrite !dict_get_set_other by discriminate. reflexivity.
  - unfold Conversation.get_preferred_name. cbn. rewrite lookup_store_same, E.
    reflexivity.
Qed.

Lemma update_name_recognition_keeps_names_witness :
  Conversation.get_preferred_name
    (snd (Conversation.update_name_recognition
            (ConversationManager.mk [] []
               [(42%Z, dict_set "nickname" (VStr "Annie")
                         (UserProfile.init (VInt 42) "t0" "t1"))])
            42 VNone (VStr EmptyString) VNone "t2" "t3" "t4")) 42
  = Conversation.get_preferred_name
      (ConversationManager.mk [] []
         [(42%Z, dict_set "nickname" (VStr "Annie")
                   (UserProfile.init (VInt 42) "t0" "t1"))]) 42.
Proof.
  apply (update_name_recognition_keeps_names
           (ConversationManager.mk [] []
              [(42%Z, dict_set "nickname" (VStr "Annie")
                        (UserProfile.init (VInt 42) "t0" "t1"))])
           42 VNone (VStr EmptyString) VNone "t2" "t3" "t4"); reflexivity.
Defined.

(** X8.  A preferred name given to [update_name_recognition] is what
    [get_preferred_name] answers afterwards, whatever name and nickname the
    profile has or is given. *)
Theorem update_name_recognition_sets_preferred (cm : ConversationManager.t) (uid : Z)
    (name nickname preferred_name : pyval) (t0 t1 now : string) :
  truthy preferred_name = true ->
  Conversation.get_preferred_name
    (snd (Conversation.update_name_recognition cm uid name nickname preferred_name
            t0 t1 now)) uid
  = Some preferred_name.
Proof.
  intros H.
  unfold Conversation.update_name_recognition.
  destruct (Conversation.get_or_create_profile cm uid VNone t0 t1) as [p cm1].
  rewrite H. unfold Conversation.get_preferred_name. cbn [snd].
  cbn [ConversationManager.user_profiles Conversation.with_user_profiles].
  rewrite lookup_store_same. unfold ProfileSummary.read_field.
  rewrite dict_get_set_other by discriminate.
  now rewrite dict_get_set_same, H.
Qed.

Lemma update_name_recognition_sets_preferred_witness :
  Conversation.get_preferred_name
    (snd (Conversation.update_name_recognition Demo.no_conversations 42
            (VStr "Ann") VNone (VStr "Captain") "t0" "t1" "t2")) 42
  = Some (VStr "Captain").
Proof.
  apply (update_name_recognition_sets_preferred Demo.no_conversations 42
           (VStr "Ann") VNone (VStr "Captain") "t0" "t1" "t2").
  reflexivity.
Defined.

(** ** The history shown to the model *)

Section HistoryText.
Import ConversationManager.

Variable py_str : pyval -> string.

Lemma lines_app l1 : forall l2 ls1 ls2,
  Conversation.lines py_str l1 = Some ls1 ->
  Conversation.lines py_str l2 = Some ls2 ->
  Conversation.lines py_str (l1 ++ l2) = Some (ls1 ++ ls2).
Proof.
  induction l1 as [|m l1 IH]; intros l2 ls1 ls2 H1 H2; simpl in *.
  - injection H1 as <-. exact H2.
  - destruct (Conversation.line py_str m) as [x|]; [|discriminate].
    destruct (Conversation.lines py_str l1) as [xs|] eqn:E; [|discriminate].
    injection H1 as <-. now rewrite (IH l2 xs ls2 eq_refl H2).
Qed.

Lemma lines_length l : forall ls,
  Conversation.lines py_str l = Some ls -> List.length ls = List.length l.
Proof.
  induction l as [|m l IH]; intros ls H; simpl in *.
  - now injection H as <-.
  - destruct (Conversation.line py_str m) as [x|]; [|discriminate].
    destruct (Conversation.lines py_str l) as [xs|] eqn:E; [|discriminate].
    injection H as <-. simpl. now rewrite (IH xs eq_refl).
Qed.

Lemma lines_skipn k : forall l ls,
  Conversation.lines py_str l = Some ls ->
  Conversation.lines py_str (skipn k l) = Some (skipn k ls).
Proof.
  induction k as [|k IH]; intros l ls H; [exact H|].
  destruct l as [|m l]; simpl in *.
  - now injection H as <-.
  - destruct (Conversation.line py_str m) as [x|]; [|discriminate].
    destruct (Conversation.lines py_str l) as [xs|] eqn:E; [|discriminate].
    injection H as <-. simpl. now apply IH.
Qed.

Lemma lines_last_n n l ls :
  Conversation.lines py_str l = Some ls ->
  Conversation.lines py_str (last_n n l) = Some (last_n n ls).
Proof.
  intros H. unfold last_n. rewrite (lines_length l ls H). now apply lines_skipn.
Qed.

(** The line of a message made by [add_message]. *)
Lemma line_message content flag now :
  Conversation.line py_str (message content flag now)
  = Some ((if truthy flag then "A2" else "User") ++ ": "
          ++ ProfileSummary.format py_str content)%string.
Proof. reflexivity. Qed.

End HistoryText.

(** X9.  After [add_message] the text of [get_conversation_history] is the
    text before it with the line of the new message added, cut to its last
    ten lines: the sender is [A2] when the flag is truthy and [User]
    otherwise. *)
Theorem history_text_after_add_message (py_str : pyval -> string)
    (cm : ConversationManager.t) (uid : Z) (content flag : pyval) (now : string)
    (l : list pyval) (ls : list string) :
  ConversationManager.history cm uid = Some l ->
  Conversation.lines py_str l = Some ls ->
  exists cm',
    ConversationManager.add_message cm uid content flag now = Returned tt cm'
    /\ Conversation.get_conversation_history py_str cm' uid
       = Some (String.concat Conversation.newline
                 (ConversationManager.last_n ConversationManager.MAX_HISTORY
                    (ls ++ [((if truthy flag then "A2" else "User") ++ ": "
                             ++ ProfileSummary.format py_str content)%string]))).
Proof.
  intros Hh Hl.
  destruct (add_message_history cm uid content flag now l Hh) as [cm' [Hadd Hlook]].
  exists cm'. split; [exact Hadd|].
  unfold Conversation.get_conversation_history. rewrite Hlook.
  cbn [Conversation.items_of].
  rewrite (lines_last_n py_str _ _ _
             (lines_app py_str l [ConversationManager.message content flag now] ls _ Hl
                (eq_refl : Conversation.lines py_str
                             [ConversationManager.message content flag now] = Some [_]))).
  reflexivity.
Qed.

Lemma history_text_after_add_message_witness :
  exists cm',
    ConversationManager.add_message Demo.no_conversations 42 (VStr "hello") (VBool false)
      "t0" = Returned tt cm'
    /\ Conversation.get_conversation_history (fun _ => "?") cm' 42
       = Some "User: hello".
Proof.
  apply (history_text_after_add_message (fun _ => "?") Demo.no_conversations 42
           (VStr "hello") (VBool false) "t0" [] []); reflexivity.
Defined.

(** X10.  [add_message] changes the history of its user only: however it
    ends, the histories of all other users, the summaries and the profiles
    are as before. *)
Theorem add_message_frame (cm : ConversationManager.t) (uid : Z)
    (content flag : pyval) (now : string) :
  let cm' := state_of (ConversationManager.add_message cm uid content flag now) in
  (forall uid', uid' <> uid ->
     lookup uid' (ConversationManager.conversations cm')
     = lookup uid' (ConversationManager.conversations cm))
  /\ ConversationManager.conversation_summaries cm'
     = ConversationManager.conversation_summaries cm
  /\ ConversationManager.user_profiles cm' = ConversationManager.user_profiles cm.
Proof.
  unfold ConversationManager.add_message.
  set (convs := if has_key uid (ConversationManager.conversations cm)
                then ConversationManager.conversations cm
                else store uid (VList []) (ConversationManager.conversations cm)).
  assert (Hconvs : forall uid', uid' <> uid ->
            lookup uid' convs = lookup uid' (ConversationManager.conversations cm)).
  { intros uid' Hne. unfold convs.
    destruct (has_key uid _); [reflexivity | now apply lookup_store_other]. }
  destruct (lookup_default uid (VList []) convs);
    try (cbn; repeat split; exact Hconvs).
  destruct (Nat.ltb _ _); cbn; repeat split; intros uid' Hne;
    rewrite !lookup_store_other by exact Hne; now apply Hconvs.
Qed.

(** ** Round trips through the disk *)

Section Loaders.

Variable json_loads : string -> option pyval.
Variable json_dumps : pyval -> option string.
Variable os : FS.env.
Variable self : StorageManager.t.

Hypothesis Hos : RoundTrip.reliable os.

Let save_file := StorageManager.save_file json_dumps os.

(** On a reliable disk the file of a user holds the serialization after
    [save_file]. *)
Lemma save_named_reads dir uid (base : string) data text fs :
  Text.has_char "." base = false ->
  json_dumps data = Some text ->
  FS.read (Path.child dir (str_of_int uid ++ (base ++ String "." "json")))
    (snd (save_file (Path.child dir (str_of_int uid ++ (base ++ String "." "json")))
            data StorageManager.tmp fs))
  = Some text.
Proof.
  intros Hb Hd. destruct Hos as (Hw & Hr & _).
  apply (save_file_writes json_dumps os _
           (Path.child dir (str_of_int uid ++ (base ++ ".tmp"))) data text fs).
  - apply temp_of_named; [discriminate | exact Hb | reflexivity].
  - exact Hd.
  - apply Hw.
  - apply Hr.
Qed.

(** Reading a file that is there, on a reliable disk. *)
Lemma read_text_reliable file fs text :
  FS.read file fs = Some text -> StorageManager.read_text os file fs = inr text.
Proof.
  intros H. destruct Hos as (_ & _ & Hr).
  unfold StorageManager.read_text. now rewrite Hr, H.
Qed.

Lemma exists_read file fs text : FS.read file fs = Some text -> FS.exists_ file fs = true.
Proof. unfold FS.exists_. now intros ->. Qed.

End Loaders.

(** X11.  What [save_conversation] writes, [load_conversation] reads back:
    on a disk where nothing fails, for a user with a history and a summary
    that JSON round-trips, loading into any manager returns [True] and
    leaves that history and that summary as the entries of the user. *)
Theorem load_conversation_after_save
    (json_loads : string -> option pyval) (json_dumps : pyval -> option string)
    (os : FS.env) (self : StorageManager.t)
    (uid : Z) (cm cm0 : ConversationManager.t) (now : string) (fs : FS.t)
    (conv summary : pyval) :
  RoundTrip.reliable os ->
  lookup uid (ConversationManager.conversations cm) = Some conv ->
  lookup uid (ConversationManager.conversation_summaries cm) = Some summary ->
  RoundTrip.round_trips json_dumps json_loads conv ->
  RoundTrip.round_trips json_dumps json_loads
    (VDict [(VStr "summary", summary); (VStr "updated_at", VStr now)]) ->
  StorageLoaders.load_conversation json_loads os self uid cm0
    (snd (StorageManager.save_conversation json_dumps os self uid cm now fs))
  = (true,
     ConversationManager.mk
       (store uid conv (ConversationManager.conversations cm0))
       (store uid summary (ConversationManager.conversation_summaries cm0))
       (ConversationManager.user_profiles cm0)).
Proof.
  intros Hos Hc Hs (tc & Hdc & Hbc & Hlc) (ts & Hds & Hbs & Hls).
  unfold StorageManager.save_conversation. rewrite Hc, Hs. cbn [snd].
  set (dir := StorageManager.conversations_dir self).
  set (doc := VDict [(VStr "summary", summary); (VStr "updated_at", VStr now)]) in *.
  set (fs1 := snd (StorageManager.save_file json_dumps os
                     (Path.child dir (str_of_int uid ++ "_conversations.json"))
                     conv StorageManager.tmp fs)).
  set (fs2 := snd (StorageManager.save_file json_dumps os
                     (Path.child dir (str_of_int uid ++ "_summary.json"))
                     doc StorageManager.tmp fs1)).
  assert (Hsum : FS.read (Path.child dir (str_of_int uid ++ "_summary.json")) fs2 = Some ts).
  { apply (save_named_reads json_dumps os Hos dir uid "_summary" doc ts fs1);
      [reflexivity | exact Hds]. }
  assert (Hconv : FS.read (Path.child dir (str_of_int uid ++ "_conversations.json")) fs2
                  = Some tc).
  { unfold fs2.
    rewrite (save_named_other json_dumps os dir uid "_summary" "json" doc fs1);
      try reflexivity; try discriminate.
    - apply (save_named_reads json_dumps os Hos dir uid "_conversations" conv tc fs);
        [reflexivity | exact Hdc].
    - intros H. apply child_inj in H as [_ H]. apply named_inj in H;
        [destruct H as [_ H]; discriminate H | reflexivity | reflexivity].
    - intros H. apply child_inj in H as [_ H]. apply named_inj in H;
        [destruct H as [_ H]; discriminate H | reflexivity | reflexivity]. }
  unfold StorageLoaders.load_conversation, StorageLoaders.load_history,
    StorageLoaders.load_summary, StorageLoaders.conversation_path,
    StorageLoaders.summary_path.
  fold dir.
  rewrite (exists_read _ _ _ Hconv), (exists_read _ _ _ Hsum).
  rewrite (read_text_reliable os Hos _ _ _ Hconv), (read_text_reliable os Hos _ _ _ Hsum).
  unfold bind, lift, modify, ret, StorageManager.loads.
  rewrite Hbc, Hbs, Hlc, Hls. reflexivity.
Qed.

Lemma load_conversation_after_save_witness :
  StorageLoaders.load_conversation
    (RoundTrip.loads_of [Samples.greeting; Samples.summary_doc]) Demo.quiet Demo.storage
    42 Demo.no_conversations
    (snd (StorageManager.save_conversation Demo.dumps Demo.quiet Demo.storage 42
            Samples.talked "t1" []))
  = (true,
     ConversationManager.mk [(42%Z, Samples.greeting)] [(42%Z, VStr "a greeting")] []).
Proof.
  apply (load_conversation_after_save
           (RoundTrip.loads_of [Samples.greeting; Samples.summary_doc]) Demo.dumps
           Demo.quiet Demo.storage 42 Samples.talked Demo.no_conversations "t1" []
           Samples.greeting (VStr "a greeting")).
  - repeat split.
  - reflexivity.
  - reflexivity.
  - eexists. split; [vm_compute; reflexivity | split; vm_compute; reflexivity].
  - eexists. split; [vm_compute; reflexivity | split; vm_compute; reflexivity].
Defined.

(** The summary reads the three names and the four lists only. *)
Lemma get_summary_fields py_str (p p' : UserProfile.t) :
  (forall f, In f UserProfile.fields -> dict_get f p' = dict_get f p) ->
  ProfileSummary.get_summary py_str p' = ProfileSummary.get_summary py_str p.
Proof.
  intros H.
  unfold ProfileSummary.get_summary, ProfileSummary.summary_parts,
    ProfileSummary.name_part, ProfileSummary.list_part, ProfileSummary.read_field.
  rewrite !H by (unfold UserProfile.fields; simpl; tauto).
  reflexivity.
Qed.

(** X12.  What [save_user_profile_data] writes, [load_user_profile_data]
    reads back for a user the manager already knows: on a disk where
    nothing fails, the profile installed has every attribute of the
    constructor as the saved profile had it, and so the same summary. *)
Theorem load_user_profile_data_after_save
    (json_loads : string -> option pyval) (json_dumps : pyval -> option string)
    (py_str : pyval -> string) (os : FS.env) (self : StorageManager.t)
    (uid : Z) (profile p0 : UserProfile.t) (cm0 : ConversationManager.t)
    (t_created t_updated : string) (fs : FS.t) :
  RoundTrip.reliable os ->
  UserProfile.attr_dict profile = true ->
  UserProfile.has_fields profile = true ->
  dict_has "to_dict" profile = false ->
  RoundTrip.round_trips json_dumps json_loads (VDict profile) ->
  lookup uid (ConversationManager.user_profiles cm0) = Some p0 ->
  exists p',
    StorageLoaders.load_user_profile_data json_loads os self uid cm0 t_created t_updated
      (snd (StorageManager.save_user_profile_data json_dumps os self uid profile fs))
    = (true,
       Conversation.with_user_profiles cm0
         (store uid p' (ConversationManager.user_profiles cm0)))
    /\ (forall f, In f UserProfile.fields -> dict_get f p' = dict_get f profile)
    /\ ProfileSummary.get_summary py_str p' = ProfileSummary.get_summary py_str profile.
Proof.
  intros Hos Hattr Hfields Hto (text & Hd & Hb & Hl) Hknown.
  destruct (hydrate_get profile
              (UserProfile.init (dict_get_default "user_id" VNone profile)
                 t_created t_updated) Hattr) as [p' [Hhyd Hget]].
  assert (Hsame : forall f, In f UserProfile.fields -> dict_get f p' = dict_get f profile).
  { intros f Hf. rewrite Hget.
    destruct (has_fields_get profile f Hfields Hf) as [v ->].
    now rewrite hasattr_init_field. }
  exists p'. split; [|split; [exact Hsame | now apply get_summary_fields]].
  unfold StorageManager.save_user_profile_data, UserProfile.call_to_dict,
    UserProfile.to_dict.
  rewrite Hto. cbn [snd].
  set (dir := StorageManager.user_profiles_dir self).
  assert (Hread : FS.read (Path.child dir (str_of_int uid ++ "_profile.json"))
                    (snd (StorageManager.save_file json_dumps os
                            (Path.child dir (str_of_int uid ++ "_profile.json"))
                            (VDict profile) StorageManager.tmp fs))
                  = Some text).
  { apply (save_named_reads json_dumps os Hos dir uid "_profile" (VDict profile) text fs);
      [reflexivity | exact Hd]. }
  unfold StorageLoaders.load_user_profile_data, StorageLoaders.profile_path.
  fold dir.
  rewrite (exists_read _ _ _ Hread), (read_text_reliable os Hos _ _ _ Hread).
  unfold bind, lift, modify, ret, StorageManager.loads, UserProfile.from_dict.
  rewrite Hb. cbn [negb]. rewrite Hl. cbv beta iota.
  rewrite Hknown. cbv beta iota. rewrite Hhyd. reflexivity.
Qed.

Lemma load_user_profile_data_after_save_witness :
  exists p',
    StorageLoaders.load_user_profile_data (RoundTrip.loads_of [VDict Samples.ann])
      Demo.quiet Demo.storage 42 Samples.met "t4" "t5"
      (snd (StorageManager.save_user_profile_data Demo.dumps Demo.quiet Demo.storage 42
              Samples.ann []))
    = (true,
       Conversation.with_user_profiles Samples.met
         (store 42 p' (ConversationManager.user_profiles Samples.met)))
    /\ (forall f, In f UserProfile.fields -> dict_get f p' = dict_get f Samples.ann)
    /\ ProfileSummary.get_summary (fun _ => "?") p'
       = ProfileSummary.get_summary (fun _ => "?") Samples.ann.
Proof.
  apply (load_user_profile_data_after_save (RoundTrip.loads_of [VDict Samples.ann])
           Demo.dumps (fun _ => "?") Demo.quiet Demo.storage 42 Samples.ann
           (UserProfile.init (VInt 42) "t2" "t3") Samples.met "t4" "t5" []).
  - repeat split.
  - reflexivity.
  - reflexivity.
  - reflexivity.
  - eexists. split; [vm_compute; reflexivity | split; vm_compute; reflexivity].
  - reflexivity.
Defined.

(** X13.  [load_user_profile_data] never makes a profile for a user the
    manager does not know: it returns [False] and leaves the manager as it
    was, whatever the file of the user holds and however the disk
    behaves. *)
Theorem load_user_profile_data_unknown_user
    (json_loads : string -> option pyval) (os : FS.env) (self : StorageManager.t)
    (uid : Z) (cm : ConversationManager.t) (t_created t_updated : string) (fs : FS.t) :
  lookup uid (ConversationManager.user_profiles cm) = None ->
  StorageLoaders.load_user_profile_data json_loads os self uid cm t_created t_updated fs
  = (false, cm).
Proof.
  intros H. unfold StorageLoaders.load_user_profile_data.
  destruct (FS.exists_ _ fs); [|reflexivity].
  unfold bind, lift, modify, ret.
  destruct (StorageManager.read_text os _ fs) as [e|text]; [reflexivity|].
  destruct (Text.blank text); [reflexivity|]. cbn [negb].
  destruct (StorageManager.loads json_loads text) as [e|data]; [reflexivity|].
  now rewrite H.
Qed.

Lemma load_user_profile_data_unknown_user_witness :
  StorageLoaders.load_user_profile_data (RoundTrip.loads_of [VDict Samples.ann])
    Demo.quiet Demo.storage 42 Demo.no_conversations "t4" "t5"
    (snd (StorageManager.save_user_profile_data Demo.dumps Demo.quiet Demo.storage 42
            Samples.ann []))
  = (false, Demo.no_conversations).
Proof.
  apply (load_user_profile_data_unknown_user (RoundTrip.loads_of [VDict Samples.ann])
           Demo.quiet Demo.storage 42 Demo.no_conversations "t4" "t5").
  reflexivity.
Defined.

(** X14.  One [try] covers both halves of [load_conversation]: when the
    history file of the user is there but does not decode, the call returns
    [False] and leaves the manager as it was, so the summary is not loaded
    either, whatever its file holds. *)
Theorem load_conversation_stops_at_bad_history
    (json_loads : string -> option pyval) (os : FS.env) (self : StorageManager.t)
    (uid : Z) (cm : ConversationManager.t) (fs : FS.t) :
  StorageManager.malformed json_loads os fs (StorageLoaders.conversation_path self uid) ->
  StorageLoaders.load_conversation json_loads os self uid cm fs = (false, cm).
Proof.
  intros (Hr & text & Hread & Hb & Hl).
  unfold StorageLoaders.load_conversation, StorageLoaders.load_history.
  unfold FS.exists_, StorageManager.read_text, StorageManager.loads, bind, lift.
  now rewrite Hread, Hr, Hb, Hl.
Qed.

Lemma load_conversation_stops_at_bad_history_witness :
  StorageLoaders.load_conversation Demo.loads Demo.quiet Demo.storage 42
    Demo.no_conversations
    [(["data"; "users"; "conversations"; "42_conversations.json"], Demo.broken_text);
     (["data"; "users"; "conversations"; "42_summary.json"], Demo.text7)]
  = (false, Demo.no_conversations).
Proof.
  apply (load_conversation_stops_at_bad_history Demo.loads Demo.quiet Demo.storage 42
           Demo.no_conversations
           [(["data"; "users"; "conversations"; "42_conversations.json"], Demo.broken_text);
            (["data"; "users"; "conversations"; "42_summary.json"], Demo.text7)]).
  split; [reflexivity|].
  exists Demo.broken_text. repeat split.
Defined.

(** X15.  [load_conversation] changes the entries of its user only: however
    it ends, the histories and summaries of all other users and all
    profiles are as before. *)
Theorem load_conversation_frame
    (json_loads : string -> option pyval) (os : FS.env) (self : StorageManager.t)
    (uid : Z) (cm : ConversationManager.t) (fs : FS.t) :
  let cm' := snd (StorageLoaders.load_conversation json_loads os self uid cm fs) in
  (forall uid', uid' <> uid ->
     lookup uid' (ConversationManager.conversations cm')
     = lookup uid' (ConversationManager.conversations cm)
     /\ lookup uid' (ConversationManager.conversation_summaries cm')
        = lookup uid' (ConversationManager.conversation_summaries cm))
  /\ ConversationManager.user_profiles cm' = ConversationManager.user_profiles cm.
Proof.
  set (I := fun c : ConversationManager.t =>
    (forall uid', uid' <> uid ->
       lookup uid' (ConversationManager.conversations c)
       = lookup uid' (ConversationManager.conversations cm)
       /\ lookup uid' (ConversationManager.conversation_summaries c)
          = lookup uid' (ConversationManager.conversation_summaries cm))
    /\ ConversationManager.user_profiles c = ConversationManager.user_profiles cm).
  assert (H0 : I cm) by (split; [intros; split|]; reflexivity).
  assert (Hstep : forall c, I c ->
            I (state_of (StorageLoaders.load_history json_loads os self uid fs c))
            /\ I (state_of (StorageLoaders.load_summary json_loads os self uid fs c))).
  { intros c [Hc Hp].
    unfold StorageLoaders.load_history, StorageLoaders.load_summary, bind, lift, modify, ret.
    split.
    - destruct (FS.exists_ _ fs); [|now split].
      destruct (StorageManager.read_text os _ fs) as [e|text]; [now split|].
      destruct (negb (Text.blank text)); [|now split].
      destruct (StorageManager.loads json_loads text) as [e|data]; [now split|].
      split; [|exact Hp]. intros uid' Hne. cbn.
      rewrite lookup_store_other by exact Hne. now apply Hc.
    - destruct (FS.exists_ _ fs); [|now split].
      destruct (StorageManager.read_text os _ fs) as [e|text]; [now split|].
      destruct (negb (Text.blank text)); [|now split].
      destruct (StorageManager.loads json_loads text) as [e|data]; [now split|].
      destruct (py_get "summary" (VStr EmptyString) data) as [e|summary]; [now split|].
      split; [|exact Hp]. intros uid' Hne. cbn.
      rewrite lookup_store_other by exact Hne. now apply Hc. }
  change (I (snd (StorageLoaders.load_conversation json_loads os self uid cm fs))).
  unfold StorageLoaders.load_conversation.
  pose proof (state_of_bind I (StorageLoaders.load_history json_loads os self uid fs)
                (fun _ => StorageLoaders.load_summary json_loads os self uid fs) cm) as Hb.
  match type of Hb with
  | _ -> _ -> _ -> I (state_of ?o) =>
      assert (Ho : I (state_of o));
      [ apply Hb; [exact H0 | intros s Hs; apply Hstep, Hs | intros _ s Hs; apply Hstep, Hs]
      | destruct o; exact Ho ]
  end.
Qed.

(** X16.  What [save_dm_settings] writes, [load_dm_settings] reads back: on
    a disk where nothing fails the loaded set is the set of the users
    saved. *)
Theorem load_dm_settings_after_save
    (json_loads : string -> option pyval) (json_dumps : pyval -> option string)
    (set_of : pyval -> exn + list pyval) (os : FS.env) (self : StorageManager.t)
    (users : list pyval) (temp : Path.t) (fs : FS.t) :
  RoundTrip.reliable os ->
  Path.with_suffix (StorageManager.dm_settings_file self) StorageManager.tmp = Some temp ->
  RoundTrip.round_trips json_dumps json_loads
    (VDict [(VStr "enabled_users", VList users)]) ->
  StorageManager.load_dm_settings json_loads set_of os self
    (snd (StorageManager.save_dm_settings json_dumps os self users fs))
  = match set_of (VList users) with inr l => l | inl _ => [] end.
Proof.
  intros Hos Htemp (text & Hd & Hb & Hl).
  pose proof Hos as (Hw & Hr & _).
  destruct (save_file_writes json_dumps os (StorageManager.dm_settings_file self) temp
              (VDict [(VStr "enabled_users", VList users)]) text fs
              Htemp Hd (Hw _) (Hr _ _)) as [Hread _].
  unfold StorageManager.load_dm_settings, StorageManager.save_dm_settings.
  rewrite (exists_read _ _ _ Hread), (read_text_reliable os Hos _ _ _ Hread).
  unfold bind, lift, ret, StorageManager.loads.
  rewrite Hb. cbn [negb]. rewrite Hl. cbn [py_get dict_get_default dict_get key_is].
  cbn. destruct (set_of (VList users)); reflexivity.
Qed.

Lemma load_dm_settings_after_save_witness :
  StorageManager.load_dm_settings
    (RoundTrip.loads_of [VDict [(VStr "enabled_users", VList [VInt 42; VInt 7])]])
    (fun v => match v with VList l => inr l | _ => inl TypeError end)
    Demo.quiet Demo.storage
    (snd (StorageManager.save_dm_settings Demo.dumps Demo.quiet Demo.storage
            [VInt 42; VInt 7] []))
  = [VInt 42; VInt 7].
Proof.
  apply (load_dm_settings_after_save
           (RoundTrip.loads_of [VDict [(VStr "enabled_users", VList [VInt 42; VInt 7])]])
           Demo.dumps
           (fun v => match v with VList l => inr l | _ => inl TypeError end)
           Demo.quiet Demo.storage [VInt 42; VInt 7] ["data"; "dm_settings.tmp"] []).
  - repeat split.
  - reflexivity.
  - eexists. split; [vm_compute; reflexivity | split; vm_compute; reflexivity].
Defined.

(** ** File names read back *)

Section NamesBack.

Lemma numeric_not_space c : Text.numeric c = true -> Text.is_int_space c = false.
Proof. destruct c as [[] [] [] [] [] [] [] []]; try reflexivity; discriminate. Qed.

Lemma lstrip_solid l :
  forallb (fun c => negb (Text.is_int_space c)) l = true -> Text.int_lstrip l = l.
Proof.
  destruct l as [|c l]; simpl; [reflexivity|].
  intros H. apply andb_true_iff in H as [H _]. apply negb_true_iff in H. now rewrite H.
Qed.

Lemma numeric_solid s :
  Text.all_chars Text.numeric s = true ->
  forallb (fun c => negb (Text.is_int_space c)) (list_ascii_of_string s) = true.
Proof.
  induction s as [|c s IH]; simpl; [reflexivity|].
  intros H. apply andb_true_iff in H as [Hc Hs].
  now rewrite (numeric_not_space c Hc), IH.
Qed.

(** [int] has nothing to skip around a text without white space. *)
Lemma strip_numeric s : Text.all_chars Text.numeric s = true -> Text.int_strip s = s.
Proof.
  intros H. apply numeric_solid in H. unfold Text.int_strip.
  rewrite (lstrip_solid _ H). rewrite lstrip_solid.
  - now rewrite rev_involutive, string_of_list_ascii_of_string.
  - apply forallb_forall. intros c Hc. apply in_rev in Hc.
    now apply (proj1 (forallb_forall _ _) H).
Qed.

Lemma digits_acc d : forall acc,
  Text.digits_value (NilEmpty.string_of_uint d) (Zpos acc) true
  = Some (Zpos (Pos.of_uint_acc d acc)).
Proof.
  induction d; intros acc; cbn [NilEmpty.string_of_uint Pos.of_uint_acc];
    [reflexivity | ..];
    unfold Text.digits_value; fold Text.digits_value;
    match goal with
    | |- context [Text.is_digit ?c] => change (Text.is_digit c) with true
    end; cbv iota;
    match goal with
    | |- Text.digits_value _ ?v true = Some (Zpos (Pos.of_uint_acc _ ?q)) =>
        replace v with (Zpos q)
          by (match goal with
              | |- context [Z.of_nat ?k] =>
                  let z := eval vm_compute in (Z.of_nat k) in
                  change (Z.of_nat k) with z
              end; lia)
    end; apply IHd.
Qed.

Lemma digits_zero d :
  Text.digits_value (NilEmpty.string_of_uint d) 0 true = Some (Z.of_N (Pos.of_uint d)).
Proof.
  induction d; cbn [NilEmpty.string_of_uint Pos.of_uint]; [reflexivity | exact IHd | ..];
    unfold Text.digits_value; fold Text.digits_value;
    match goal with
    | |- context [Text.is_digit ?c] => change (Text.is_digit c) with true
    end; cbv iota;
    match goal with
    | |- Text.digits_value _ ?v true = Some (Z.of_N (Npos (Pos.of_uint_acc _ ?q))) =>
        change v with (Zpos q)
    end; apply digits_acc.
Qed.

(** The digits of a number that is not zero, read as [int] reads them. *)
Lemma digits_of_positive p :
  NilZero.string_of_uint (Pos.to_uint p) = NilEmpty.string_of_uint (Pos.to_uint p)
  /\ Text.digits_value (NilEmpty.string_of_uint (Pos.to_uint p)) 0 false = Some (Zpos p)
  /\ exists c rest,
       NilEmpty.string_of_uint (Pos.to_uint p) = String c rest /\ Text.is_digit c = true.
Proof.
  pose proof (digits_zero (Pos.to_uint p)) as H.
  rewrite Unsigned.of_to in H.
  pose proof (Unsigned.to_uint_nonnil p) as Hn.
  destruct (Pos.to_uint p); [contradiction | ..];
    (split; [reflexivity | split; [exact H | eexists; eexists; split; reflexivity]]).
Qed.

(** [int(str(n)) == n] *)
Lemma py_int_str_of_int n : Text.py_int (str_of_int n) = Some n.
Proof.
  unfold Text.py_int. rewrite strip_numeric by apply str_of_int_numeric.
  unfold str_of_int, NilZero.string_of_int.
  destruct n as [|p|p]; cbn [Z.to_int]; [reflexivity | |];
    destruct (digits_of_positive p) as (-> & Hv & c & rest & Hs & Hc).
  - rewrite Hs in *.
    destruct c as [[] [] [] [] [] [] [] []]; try discriminate Hc; exact Hv.
  - now rewrite Hv.
Qed.

Lemma before_numeric (s rest : string) :
  Text.all_chars Text.numeric s = true ->
  Text.before "_" (s ++ String "_" rest) = s.
Proof.
  induction s as [|c s IH]; simpl; [reflexivity|].
  intros H. apply andb_true_iff in H as [Hc Hs]. rewrite (IH Hs).
  destruct (Ascii.eqb c "_") eqn:E; [|reflexivity].
  apply Ascii.eqb_eq in E. subst c. discriminate.
Qed.

Lemma numeric_no_underscore s :
  Text.all_chars Text.numeric s = true -> Text.has_char "_" s = false.
Proof.
  induction s as [|c s IH]; simpl; [reflexivity|].
  intros H. apply andb_true_iff in H as [Hc Hs]. rewrite (IH Hs).
  destruct (Ascii.eqb c "_") eqn:E; [|reflexivity].
  apply Ascii.eqb_eq in E. subst c. discriminate.
Qed.

(** The stem of [<stem>.<ext>]. *)
Lemma stem_named dir (s ext : string) :
  s <> EmptyString -> ext <> EmptyString ->
  Text.has_char "." s = false -> Text.has_char "." ext = false ->
  Path.stem (Path.child dir (s ++ String "." ext)) = s.
Proof.
  intros Hs He Hds Hde. rewrite stem_child.
  unfold Path.stem, Path.name. cbn [last].
  unfold Path.suffix_start. rewrite rfind_dot_app by exact Hds. simpl.
  rewrite rfind_dot_none by exact Hde.
  rewrite append_length. simpl.
  assert (H1 : (0 <? String.length s)%nat = true).
  { apply Nat.ltb_lt. destruct s; [contradiction | simpl; lia]. }
  assert (H2 : (String.length s <? String.length s + S (String.length ext) - 1)%nat = true).
  { apply Nat.ltb_lt. destruct ext; [contradiction | simpl; lia]. }
  rewrite H1, H2. simpl. apply substring_prefix.
Qed.

End NamesBack.

(** X17.  The names [save_user_profile], [save_conversation] and
    [save_user_profile_data] give their files are read back by the loops of
    [load_data] as the same user: the stem of the composite document has no
    underscore and [int] of it is the user id, and for the six other files
    [int] of the stem up to the first underscore is. *)
Theorem saved_names_read_back (dir : Path.t) (uid : Z) :
  Text.has_char "_" (Path.stem (Path.child dir (str_of_int uid ++ ".json"))) = false
  /\ Text.py_int (Path.stem (Path.child dir (str_of_int uid ++ ".json"))) = Some uid
  /\ forall ending,
       In ending ["_memories.json"; "_events.json"; "_milestones.json";
                  "_profile.json"; "_conversations.json"; "_summary.json"] ->
       Text.py_int
         (Text.before "_" (Path.stem (Path.child dir (str_of_int uid ++ ending))))
       = Some uid.
Proof.
  pose proof (str_of_int_numeric uid) as Hnum.
  pose proof (str_of_int_nonempty uid) as Hne.
  assert (Hstem : Path.stem (Path.child dir (str_of_int uid ++ ".json")) = str_of_int uid).
  { apply (stem_named dir (str_of_int uid) "json");
      [exact Hne | discriminate | now apply numeric_no_dot | reflexivity]. }
  rewrite Hstem. split; [now apply numeric_no_underscore|].
  split; [apply py_int_str_of_int|].
  intros ending Hin.
  assert (Hfam : forall base : string,
            Text.has_char "." base = false ->
            Text.py_int
              (Text.before "_"
                 (Path.stem (Path.child dir
                               (str_of_int uid ++ String "_" (base ++ String "." "json")))))
            = Some uid).
  { intros base Hb.
    change (str_of_int uid ++ String "_" (base ++ String "." "json"))%string
      with (str_of_int uid ++ (String "_" base ++ String "." "json"))%string.
    rewrite <- append_assoc.
    rewrite stem_named.
    - rewrite before_numeric by exact Hnum. apply py_int_str_of_int.
    - destruct (str_of_int uid); [contradiction | discriminate].
    - discriminate.
    - rewrite has_char_app. cbn [Text.has_char]. rewrite Hb.
      now rewrite (numeric_no_dot _ Hnum).
    - reflexivity. }
  simpl in Hin.
  destruct Hin as [<-|[<-|[<-|[<-|[<-|[<-|[]]]]]]].
  - apply (Hfam "memories"). reflexivity.
  - apply (Hfam "events"). reflexivity.
  - apply (Hfam "milestones"). reflexivity.
  - apply (Hfam "profile"). reflexivity.
  - apply (Hfam "conversations"). reflexivity.
  - apply (Hfam "summary"). reflexivity.
Qed.

(** ** The composite document through the disk *)

Section Composite.

Variable json_dumps : pyval -> option string.
Variable os : FS.env.
Variable self : StorageManager.t.

Lemma composite_not_family f uid :
  Path.child (StorageManager.profiles_dir self) (str_of_int uid ++ ".json")
  <> Family.path self f uid
  /\ Path.child (StorageManager.profiles_dir self) (str_of_int uid ++ ".json")
     <> Family.temp_path self f uid.
Proof.
  unfold Family.path, Family.temp_path.
  split; intros H; apply child_inj in H as [_ H];
    destruct f; cbn [append Family.ending Family.base] in H;
    (apply named_inj in H;
       [destruct H as [_ H]; discriminate H | reflexivity | reflexivity]).
Qed.

Lemma dict_pop_set_same k v d : dict_pop k (dict_set k v d) = dict_pop k d.
Proof.
  unfold dict_pop. induction d as [|[k0 v0] d IH]; simpl.
  - now rewrite String.eqb_refl.
  - destruct (key_is k k0) eqn:E; simpl; rewrite E; simpl; [reflexivity|].
    now rewrite IH.
Qed.

Lemma dict_pop_set_other k k' v d :
  k <> k' -> dict_pop k (dict_set k' v d) = dict_set k' v (dict_pop k d).
Proof.
  intros Hne. unfold dict_pop. induction d as [|[k0 v0] d IH]; simpl.
  - destruct (String.eqb k k') eqn:E; [apply String.eqb_eq in E; contradiction|].
    reflexivity.
  - destruct (key_is k' k0) eqn:E'; simpl.
    + destruct (key_is k k0) eqn:E; simpl.
      * exfalso. apply Hne. eapply key_is_eq; eassumption.
      * now rewrite E'.
    + destruct (key_is k k0) eqn:E; simpl; [exact IH|].
      now rewrite E', IH.
Qed.

End Composite.

(** X18.  What [save_user_profile] writes, [load_user_profile] reads back:
    on a disk where nothing fails, for a user whose emotion entry and
    statistics are mappings, loading hands back the entry without its two
    sub-documents and puts the relationship and the statistics that were
    saved into the manager it is given. *)
Theorem load_user_profile_after_save
    (json_loads : string -> option pyval) (json_dumps : pyval -> option string)
    (count_items dict_of_iterable : pyval -> exn + pyval)
    (os : FS.env) (self : StorageManager.t)
    (uid : Z) (em em0 : EmotionManager.t) (fs : FS.t) (d c : dict) :
  RoundTrip.reliable os ->
  FS.mkdir_raises os (StorageManager.profiles_dir self) = false ->
  lookup uid (EmotionManager.user_emotions em) = Some (VDict d) ->
  lookup_default uid (VDict []) (EmotionManager.interaction_stats em) = VDict c ->
  RoundTrip.round_trips json_dumps json_loads (StorageManager.recomposed em uid d c) ->
  StorageManager.load_user_profile json_loads count_items os self uid em0
    (snd (snd (StorageManager.save_user_profile json_dumps dict_of_iterable os self
                 uid em fs)))
  = (VDict (dict_pop "interaction_stats" (dict_pop "relationship" d)),
     StorageManager.set_stats uid (VDict c)
       (StorageManager.set_relationship uid
          (lookup_default uid (VDict []) (EmotionManager.relationship_progress em))
          em0)).
Proof.
  intros Hos Hmk Hd Hc (text & Hdump & Hb & Hl).
  rewrite (save_user_profile_good json_dumps dict_of_iterable os self uid em fs d c
             Hmk Hd Hc).
  cbn [snd].
  set (file := Path.child (StorageManager.profiles_dir self) (str_of_int uid ++ ".json")).
  set (P := fun fs0 : FS.t => FS.read file fs0 = Some text).
  assert (Hlist : forall f fs0, P fs0 ->
            P (state_of (StorageManager.save_list json_dumps os self (Family.ending f)
                           (Family.container f em) uid fs0))).
  { intros f fs0 H0. unfold P.
    destruct (composite_not_family self f uid) as [H1 H2].
    now rewrite save_list_other. }
  assert (Hread : P (state_of
            ((StorageManager.save_list json_dumps os self "_memories.json"
                (EmotionManager.user_memories em) uid ;;;
              StorageManager.save_list json_dumps os self "_events.json"
                (EmotionManager.user_events em) uid ;;;
              StorageManager.save_list json_dumps os self "_milestones.json"
                (EmotionManager.user_milestones em) uid)
               (snd (StorageManager.save_file json_dumps os file
                       (StorageManager.recomposed em uid d c) StorageManager.tmp fs))))).
  { apply state_of_bind.
    - apply (save_named_reads json_dumps os Hos (StorageManager.profiles_dir self) uid
               EmptyString (StorageManager.recomposed em uid d c) text fs);
        [reflexivity | exact Hdump].
    - apply (Hlist Family.Memories).
    - intros _ s0 Hs0. apply state_of_bind; [exact Hs0 | apply (Hlist Family.Events) |].
      intros _ s1 Hs1. apply (Hlist Family.Milestones), Hs1. }
  unfold P in Hread.
  unfold StorageManager.load_user_profile. fold file.
  rewrite (exists_read _ _ _ Hread), (read_text_reliable os Hos _ _ _ Hread).
  unfold bind, lift, ret, StorageManager.loads.
  rewrite Hb, Hl. unfold StorageManager.recomposed, StorageManager.split_profile.
  unfold bind, lift, ret, modify. cbn [py_in].
  rewrite dict_has_set_other by discriminate. rewrite dict_has_set_same.
  cbn [py_pop]. rewrite dict_get_set_other by discriminate. rewrite dict_get_set_same.
  cbn [fst snd py_in].
  rewrite dict_has_pop_other by discriminate. rewrite dict_has_set_same.
  cbn [py_pop_default fst snd]. unfold dict_get_default.
  rewrite dict_get_pop_other by discriminate. rewrite dict_get_set_same.
  cbn [StorageManager.Counter].
  rewrite dict_pop_set_other by discriminate.
  rewrite dict_pop_set_same, dict_pop_set_same. reflexivity.
Qed.

Lemma load_user_profile_after_save_witness :
  StorageManager.load_user_profile (RoundTrip.loads_of [Demo.doc42]) Demo.count_items
    Demo.quiet Demo.storage 42 Demo.no_emotions
    (snd (snd (StorageManager.save_user_profile Demo.dumps Demo.dict_of_iterable
                 Demo.quiet Demo.storage 42 Samples.bonded [])))
  = (Demo.happy,
     EmotionManager.mk [] [] [] [] [(42%Z, VDict [(VStr "greet", VInt 3)])]
       [(42%Z, VDict [(VStr "trust", VInt 5)])] []).
Proof.
  apply (load_user_profile_after_save (RoundTrip.loads_of [Demo.doc42]) Demo.dumps
           Demo.count_items Demo.dict_of_iterable Demo.quiet Demo.storage 42
           Samples.bonded Demo.no_emotions []
           [(VStr "mood", VStr "happy")] [(VStr "greet", VInt 3)]).
  - repeat split.
  - reflexivity.
  - reflexivity.
  - reflexivity.
  - eexists. split; [vm_compute; reflexivity | split; vm_compute; reflexivity].
Defined.

(** ** The startup check and [save_file] on the files around them *)

(** X19.  [verify_data_directories] touches one file only, its test file
    [write_test.tmp] in the data directory: every other file reads as
    before, however the check ends, and when the check succeeds the test
    file is gone, also when a file of that name was there before. *)
Theorem verify_data_directories_frame (os : FS.env) (self : StorageManager.t)
    (fs : FS.t) :
  let test_file := Path.child (StorageManager.data_dir self) "write_test.tmp" in
  let r := StorageManager.verify_data_directories os self fs in
  (forall q, q <> test_file -> FS.read q (snd r) = FS.read q fs)
  /\ (fst r = true -> FS.read test_file (snd r) = None).
Proof.
  cbv zeta. unfold StorageManager.verify_data_directories.
  repeat match goal with
         | |- context [negb (StorageManager.ensure_dir os ?d)] =>
             destruct (negb (StorageManager.ensure_dir os d));
               [split; [reflexivity | discriminate]|]
         end.
  set (test_file := Path.child (StorageManager.data_dir self) "write_test.tmp").
  pose proof (fun q => write_text_other os test_file q "Test write access" fs) as Hw.
  destruct (FS.write_text os test_file "Test write access" fs) as [ok fs1].
  cbn [snd] in Hw. destruct ok.
  - destruct (FS.unlink_raises os test_file); cbn [fst snd].
    + split; [intros q Hq; now apply Hw | discriminate].
    + split.
      * intros q Hq. rewrite read_remove_other by exact Hq. now apply Hw.
      * intros _. apply read_remove_same.
  - split; [intros q Hq; now apply Hw | discriminate].
Qed.

(** X20.  A successful [save_file] leaves no temporary file: when the call
    returns [True] on a target that is not its own temporary path, the
    temporary path holds no file afterwards, also when one was there
    before. *)
Theorem save_file_leaves_no_temp (json_dumps : pyval -> option string) (os : FS.env)
    (path temp : Path.t) (data : pyval) (temp_suffix : string) (fs : FS.t) :
  Path.with_suffix path temp_suffix = Some temp ->
  temp <> path ->
  fst (StorageManager.save_file json_dumps os path data temp_suffix fs) = true ->
  FS.read temp (snd (StorageManager.save_file json_dumps os path data temp_suffix fs))
  = None.
Proof.
  intros Ht Hne. unfold StorageManager.save_file. rewrite Ht.
  destruct (json_dumps data) as [text|]; [|discriminate].
  destruct (FS.write_text os temp text fs) as [[] fs1]; [|discriminate].
  destruct (FS.exists_ temp fs1) eqn:Hex; [|discriminate].
  destruct (FS.replace_raises os temp path); [discriminate|].
  cbn [fst snd]. intros _. unfold FS.rename.
  unfold FS.exists_ in Hex.
  destruct (FS.read temp fs1) as [s|]; [|discriminate].
  rewrite path_eqb_neq by exact Hne.
  rewrite read_write_other by exact Hne. apply read_remove_same.
Qed.

Lemma save_file_leaves_no_temp_witness :
  FS.read ["data"; "dm_settings.tmp"]
    (snd (StorageManager.save_file Demo.dumps Demo.quiet
            ["data"; "dm_settings.json"] (VInt 7) StorageManager.tmp
            [(["data"; "dm_settings.tmp"], "left over")])) = None.
Proof.
  apply (save_file_leaves_no_temp Demo.dumps Demo.quiet ["data"; "dm_settings.json"]
           ["data"; "dm_settings.tmp"] (VInt 7) StorageManager.tmp
           [(["data"; "dm_settings.tmp"], "left over")]).
  - reflexivity.
  - discriminate.
  - reflexivity.
Defined.

(** X21.  [save_file] changes two files at most, its target and its
    temporary file: every other file reads as before, however the call
    ends. *)
Theorem save_file_touches_two_files (json_dumps : pyval -> option string) (os : FS.env)
    (path temp q : Path.t) (data : pyval) (temp_suffix : string) (fs : FS.t) :
  Path.with_suffix path temp_suffix = Some temp ->
  q <> path -> q <> temp ->
  FS.read q (snd (StorageManager.save_file json_dumps os path data temp_suffix fs))
  = FS.read q fs.
Proof.
  intros Ht H1 H2. apply save_file_other; [exact H1|].
  rewrite Ht. intros [= E]. now apply H2.
Qed.

Lemma save_file_touches_two_files_witness :
  FS.read ["data"; "users"; "profiles"; "42.json"]
    (snd (StorageManager.save_file Demo.dumps Demo.no_room_for_42
            ["data"; "dm_settings.json"] (VInt 7) StorageManager.tmp Demo.only_42))
  = FS.read ["data"; "users"; "profiles"; "42.json"] Demo.only_42.
Proof.
  apply (save_file_touches_two_files Demo.dumps Demo.no_room_for_42
           ["data"; "dm_settings.json"] ["data"; "dm_settings.tmp"]
           ["data"; "users"; "profiles"; "42.json"] (VInt 7) StorageManager.tmp
           Demo.only_42).
  - reflexivity.
  - discriminate.
  - discriminate.
Defined.

(** ** The profiles [load_data] installs *)

Section ProfileLoop.

Variable json_loads : string -> option pyval.
Variable os : FS.env.
Variable stamps : Path.t -> string * string.
Variable fs : FS.t.

Let body (file : Path.t) : M (umap UserProfile.t) bool :=
  StorageManager.load_profile_data_entry json_loads os stamps file fs.

(** One turn of the loop over [*_profile.json]: it counts a file only when
    it replaced the profile of a user the manager knew. *)
Lemma load_profile_data_entry_cases file profiles :
  match body file profiles with
  | Returned true s1 =>
      exists uid p, has_key uid profiles = true /\ s1 = store uid p profiles
  | Returned false s1 => s1 = profiles
  | Raised _ s1 => s1 = profiles
  end.
Proof.
  unfold body, StorageManager.load_profile_data_entry, bind, lift, modify, ret.
  destruct (StorageManager.int_ _) as [e|uid]; [reflexivity|].
  destruct (StorageManager.read_text os file fs) as [e|text]; [reflexivity|].
  destruct (negb (Text.blank text)); [|reflexivity].
  destruct (StorageManager.loads json_loads text) as [e|data]; [reflexivity|].
  destruct (lookup uid profiles) as [p0|] eqn:E; [|reflexivity].
  destruct (UserProfile.from_dict data _ _) as [e|p]; [reflexivity|].
  exists uid, p. split; [|reflexivity]. unfold has_key. now rewrite E.
Qed.

Lemma try_each_profiles files : forall count profiles,
  map fst (snd (StorageManager.try_each body files count profiles)) = map fst profiles
  /\ (profiles = [] -> fst (StorageManager.try_each body files count profiles) = count).
Proof.
  induction files as [|file files IH]; intros count profiles; [split; reflexivity|].
  cbn [StorageManager.try_each].
  pose proof (load_profile_data_entry_cases file profiles) as Hc.
  destruct (body file profiles) as [[] s1|e s1].
  - destruct Hc as (uid & p & Hk & ->).
    destruct (IH (S count) (store uid p profiles)) as [IH1 _]. split.
    + rewrite IH1. now apply keys_store_present.
    + intros ->. discriminate Hk.
  - subst s1. apply IH.
  - subst s1. apply IH.
Qed.

End ProfileLoop.

(** What the loop over [*_profile.json] leaves of the profiles, and of its
    counter when there were none. *)
Lemma load_data_profiles
    (json_loads : string -> option pyval)
    (count_items : pyval -> exn + pyval) (set_of : pyval -> exn + list pyval)
    (os : FS.env) (self : StorageManager.t) (globals : list string)
    (clock : Z -> string) (stamps : Path.t -> string * string)
    (em : EmotionManager.t) (cm : ConversationManager.t) (fs : FS.t) :
  let o := StorageManager.load_data json_loads count_items set_of os self globals
             clock stamps (em, cm, fs) in
  map fst (ConversationManager.user_profiles (snd (fst (state_of o))))
  = map fst (ConversationManager.user_profiles cm)
  /\ (ConversationManager.user_profiles cm = [] ->
      forall r w, o = Returned r w -> StorageManager.success r = false).
Proof.
  cbv zeta. unfold StorageManager.load_data.
  destruct (negb (StorageManager.name_bound globals "defaultdict"));
    [split; [reflexivity | discriminate]|].
  destruct (StorageManager.verify_data_directories os self fs) as [[] fs1];
    [|split; [reflexivity | now intros _ r w [= <- _]]].
  destruct (StorageManager.load_profiles _ _ _ _ _ _ _ _) as [[pc ec] em2].
  repeat match goal with
         | |- context [StorageManager.try_each
                         (fun f => StorageManager.load_family_entry ?a ?b f ?c) ?l ?n ?s] =>
             destruct (StorageManager.try_each
                         (fun f => StorageManager.load_family_entry a b f c) l n s)
         end.
  match goal with
  | |- context [StorageManager.try_each
                  (fun f => StorageManager.load_profile_data_entry ?a ?b ?c f ?d) ?l ?n ?s] =>
      destruct (try_each_profiles a b c d l n s) as [Hkeys Hcount];
      destruct (StorageManager.try_each
                  (fun f => StorageManager.load_profile_data_entry a b c f d) l n s)
        as [count profiles]
  end.
  cbn [fst snd] in Hkeys, Hcount.
  repeat match goal with
         | |- context [StorageManager.try_each ?b ?l ?n ?s] =>
             destruct (StorageManager.try_each b l n s)
         end.
  destruct (StorageManager.backfill _ _ _) as [? em4|e em4]; cbn [state_of fst snd].
  - split; [exact Hkeys|]. intros Hnil r w [= <- _]. cbn. now rewrite (Hcount Hnil).
  - split; [exact Hkeys | discriminate].
Qed.

(** X22.  [load_data] makes no profile: however it ends, the conversation
    manager holds profiles for the users it held them for before, in the same
    order, whatever the profile files on the disk are. *)
Theorem load_data_adds_no_profile
    (json_loads : string -> option pyval)
    (count_items : pyval -> exn + pyval) (set_of : pyval -> exn + list pyval)
    (os : FS.env) (self : StorageManager.t) (globals : list string)
    (clock : Z -> string) (stamps : Path.t -> string * string)
    (em : EmotionManager.t) (cm : ConversationManager.t) (fs : FS.t) :
  map fst (ConversationManager.user_profiles (snd (fst (state_of
    (StorageManager.load_data json_loads count_items set_of os self globals
       clock stamps (em, cm, fs))))))
  = map fst (ConversationManager.user_profiles cm).
Proof.
  apply (load_data_profiles json_loads count_items set_of os self globals clock stamps
           em cm fs).
Qed.

(** ** The summary of a conversation *)

Section ConversationSummary.
Import ConversationManager.

Variable py_str : pyval -> string.
Variable set_order : list string -> list string.

Lemma substring_length_le n : forall m (s : string),
  (String.length (substring n m s) <= m)%nat.
Proof.
  induction n as [|n IH]; intros m s.
  - revert s. induction m as [|m IHm]; intros s; destruct s; simpl; try lia.
    specialize (IHm s). lia.
  - destruct s; simpl; [destruct m; simpl; lia | apply IH].
Qed.

Lemma in_firstn {A} n : forall (l : list A) x, In x (firstn n l) -> In x l.
Proof.
  induction n as [|n IH]; intros [|y l] x H; simpl in *; try contradiction.
  destruct H as [H|H]; [now left | right; now apply IH].
Qed.

Lemma clip_length text : (String.length (Summaries.clip text) <= 1000)%nat.
Proof.
  unfold Summaries.clip.
  destruct (Nat.ltb 1000 (String.length text)) eqn:E.
  - apply substring_length_le.
  - apply Nat.ltb_ge in E. exact E.
Qed.

Lemma topic_words_in msgs : forall words w,
  Summaries.topic_words msgs = Some words -> In w words ->
  Summaries.is_topic w = true
  /\ exists msg content,
       In msg msgs
       /\ Conversation.py_getitem "content" msg = Some (VStr content)
       /\ In w (Summaries.split (Summaries.lower content)).
Proof.
  induction msgs as [|msg msgs IH]; intros words w H Hin; simpl in H.
  - injection H as <-. contradiction.
  - destruct (Conversation.py_getitem "content" msg) as [[| | | |content| |]|] eqn:E;
      try discriminate.
    destruct (Summaries.topic_words msgs) as [ws|]; [|discriminate].
    injection H as <-. apply in_app_or in Hin as [Hin|Hin].
    + apply filter_In in Hin as [Hin Ht]. split; [exact Ht|].
      exists msg, content. split; [now left | split; [exact E | exact Hin]].
    + destruct (IH ws w eq_refl Hin) as [Ht (m & c & Hm & Hc & Hw)].
      split; [exact Ht|]. exists m, c. split; [now right | split; assumption].
Qed.

End ConversationSummary.

(** X24.  A user who has sent fewer than three messages gets no summary:
    after fewer than three calls of [add_message] for a user without a
    history, [generate_summary] returns the notice that there is not enough
    history and stores nothing, whatever helper it is given. *)
Theorem generate_summary_needs_three_messages
    (py_str : pyval -> string) (set_order : list string -> list string)
    (helper : option (string -> option pyval))
    (cm : ConversationManager.t) (uid : Z) (msgs : list (pyval * pyval * string)) :
  lookup uid (ConversationManager.conversations cm) = None ->
  (List.length msgs < 3)%nat ->
  exists cm',
    ConversationManager.add_messages cm uid msgs = Returned tt cm'
    /\ Summaries.generate_summary py_str set_order helper cm' uid
       = Some (VStr Summaries.not_enough, cm').
Proof.
  intros Hnew Hlen.
  destruct (add_messages_history msgs cm uid []) as [cm' [Hadd Hh]].
  { unfold ConversationManager.history. now rewrite Hnew. }
  exists cm'. split; [exact Hadd|].
  unfold ConversationManager.history in Hh.
  unfold Summaries.generate_summary.
  destruct (lookup uid (ConversationManager.conversations cm')) as [entry|];
    [|reflexivity].
  destruct entry; try discriminate. injection Hh as Hh.
  cbn [py_len].
  assert (Hshort : (List.length items < 3)%nat).
  { rewrite Hh. unfold ConversationManager.last_n. rewrite length_skipn. cbn [app].
    rewrite length_map. lia. }
  apply Nat.ltb_lt in Hshort. now rewrite Hshort.
Qed.

Lemma generate_summary_needs_three_messages_witness :
  exists cm',
    ConversationManager.add_messages Demo.no_conversations 42
      [(VStr "hello", VBool false, "t0"); (VStr "hi there", VBool true, "t1")]
    = Returned tt cm'
    /\ Summaries.generate_summary (fun _ => "?") (fun ws => ws) None cm' 42
       = Some (VStr Summaries.not_enough, cm').
Proof.
  apply (generate_summary_needs_three_messages (fun _ => "?") (fun ws => ws) None
           Demo.no_conversations 42
           [(VStr "hello", VBool false, "t0"); (VStr "hi there", VBool true, "t1")]).
  - reflexivity.
  - simpl. lia.
Defined.

(** X25.  [generate_summary] reads the last five messages only: two
    histories of three messages or more that end in the same five messages
    get the same summary, whatever helper is given. *)
Theorem generate_summary_reads_last_five
    (py_str : pyval -> string) (set_order : list string -> list string)
    (helper : option (string -> option pyval))
    (cm : ConversationManager.t) (uid : Z) (l l' : list pyval) :
  (3 <= List.length l)%nat -> (3 <= List.length l')%nat ->
  ConversationManager.last_n 5 l = ConversationManager.last_n 5 l' ->
  option_map fst
    (Summaries.generate_summary py_str set_order helper
       (ConversationManager.with_conversations cm
          (store uid (VList l) (ConversationManager.conversations cm))) uid)
  = option_map fst
      (Summaries.generate_summary py_str set_order helper
         (ConversationManager.with_conversations cm
            (store uid (VList l') (ConversationManager.conversations cm))) uid).
Proof.
  intros Hl Hl' Hlast. unfold Summaries.generate_summary.
  cbn [ConversationManager.conversations ConversationManager.with_conversations].
  rewrite !lookup_store_same. cbn [py_len].
  apply Nat.ltb_ge in Hl, Hl'. rewrite Hl, Hl', Hlast.
  destruct (Conversation.lines py_str (ConversationManager.last_n 5 l')) as [history|];
    [|reflexivity].
  match goal with
  | |- context [truthy ?v] => destruct (truthy v); [reflexivity|]
  end.
  destruct (Summaries.from_topics set_order (ConversationManager.last_n 5 l'));
    reflexivity.
Qed.

Lemma generate_summary_reads_last_five_witness :
  option_map fst
    (Summaries.generate_summary (fun _ => "?") (fun ws => ws) None
       (ConversationManager.with_conversations Demo.no_conversations
          (store 42 (VList Samples.six_messages)
             (ConversationManager.conversations Demo.no_conversations))) 42)
  = option_map fst
      (Summaries.generate_summary (fun _ => "?") (fun ws => ws) None
         (ConversationManager.with_conversations Demo.no_conversations
            (store 42 (VList (tl Samples.six_messages))
               (ConversationManager.conversations Demo.no_conversations))) 42).
Proof.
  apply (generate_summary_reads_last_five (fun _ => "?") (fun ws => ws) None
           Demo.no_conversations 42 Samples.six_messages (tl Samples.six_messages)).
  - simpl. lia.
  - simpl. lia.
  - reflexivity.
Defined.

(** X26.  The transformer helper never gets more than the last thousand
    characters of the conversation text: a helper that is changed on longer
    texts gives the same result. *)
Theorem generate_summary_clips_text
    (py_str : pyval -> string) (set_order : list string -> list string)
    (summarize other : string -> option pyval)
    (cm : ConversationManager.t) (uid : Z) :
  Summaries.generate_summary py_str set_order (Some summarize) cm uid
  = Summaries.generate_summary py_str set_order
      (Some (fun text => if (String.length text <=? 1000)%nat then summarize text
                         else other text)) cm uid.
Proof.
  unfold Summaries.generate_summary.
  destruct (lookup uid (ConversationManager.conversations cm)) as [entry|]; [|reflexivity].
  destruct (py_len entry) as [e|n]; [reflexivity|].
  destruct (Nat.ltb n 3); [reflexivity|].
  destruct entry; try reflexivity.
  destruct (Conversation.lines py_str _) as [history|]; [|reflexivity].
  pose proof (clip_length (String.concat Conversation.newline history)) as Hc.
  apply Nat.leb_le in Hc. now rewrite Hc.
Qed.

(** X27.  Without a helper, a summary that [generate_summary] makes is the
    notice of a conversation without topic, or names one to three topics;
    each topic is a word of more than four letters, none of the ten common
    words, from the lowered content of one of the last five messages.  The
    summary is stored for the user. *)
Theorem generate_summary_names_recent_words
    (py_str : pyval -> string) (set_order : list string -> list string)
    (cm cm' : ConversationManager.t) (uid : Z) (l : list pyval) (v : pyval) :
  (forall words w, In w (set_order words) -> In w words) ->
  lookup uid (ConversationManager.conversations cm) = Some (VList l) ->
  (3 <= List.length l)%nat ->
  Summaries.generate_summary py_str set_order None cm uid = Some (v, cm') ->
  lookup uid (ConversationManager.conversation_summaries cm') = Some v
  /\ (v = VStr Summaries.no_topic
      \/ exists topics,
           v = VStr ("Recent conversation about: "
                     ++ String.concat ", " topics ++ ".")
           /\ (1 <= List.length topics <= 3)%nat
           /\ forall w, In w topics ->
                Summaries.is_topic w = true
                /\ exists msg content,
                     In msg (ConversationManager.last_n 5 l)
                     /\ Conversation.py_getitem "content" msg = Some (VStr content)
                     /\ In w (Summaries.split (Summaries.lower content))).
Proof.
  intros Hset Hlook Hlen. unfold Summaries.generate_summary.
  rewrite Hlook. cbn [py_len]. apply Nat.ltb_ge in Hlen. rewrite Hlen.
  destruct (Conversation.lines py_str _) as [history|]; [|discriminate].
  cbn [truthy String.eqb negb]. unfold Summaries.from_topics.
  destruct (Summaries.topic_words (ConversationManager.last_n 5 l)) as [words|] eqn:Hw;
    [|discriminate].
  destruct (set_order words) as [|t ts] eqn:Hs.
  - intros [= <- <-]. split; [apply lookup_store_same | now left].
  - intros [= <- <-]. split; [apply lookup_store_same|]. right.
    exists (firstn 3 (t :: ts)). split; [reflexivity|]. split.
    + rewrite length_firstn. cbn [List.length]. lia.
    + intros w Hin. apply in_firstn in Hin. rewrite <- Hs in Hin.
      apply (topic_words_in _ words w Hw), Hset, Hin.
Qed.

Lemma generate_summary_names_recent_words_witness :
  exists v cm',
    Summaries.generate_summary (fun _ => "?") (fun ws => ws) None Samples.chess_talk 42
    = Some (v, cm')
    /\ v = VStr "Recent conversation about: playing, chess, sounds."
    /\ lookup 42 (ConversationManager.conversation_summaries cm') = Some v.
Proof.
  eexists. eexists. split; [vm_compute; reflexivity|]. split; [reflexivity|].
  eapply (generate_summary_names_recent_words (fun _ => "?") (fun ws => ws)
            Samples.chess_talk _ 42 Samples.six_messages).
  - intros words w H. exact H.
  - reflexivity.
  - simpl. lia.
  - vm_compute. reflexivity.
Defined.

(** ** What a message adds to a profile *)

Section ProfileFacts.
Import ProfileInfo.

Variable finditer : string -> string -> list (string * string).

Lemma bind_returned {St A B} (c : M St A) (k : A -> M St B) s a s1 :
  c s = Returned a s1 -> bind c k s = k a s1.
Proof. unfold bind. now intros ->. Qed.

Lemma for_each_app {St A} (body : A -> M St unit) l1 : forall l2 s,
  for_each body (l1 ++ l2) s = (for_each body l1 ;;; for_each body l2) s.
Proof.
  induction l1 as [|x l1 IH]; intros l2 s; [reflexivity|].
  cbn [app for_each]. unfold bind.
  destruct (body x s) as [[] s1|e s1]; [|reflexivity].
  rewrite IH. reflexivity.
Qed.

(** Two nested loops run as one loop over the items of the inner one. *)
Lemma for_each_flat {St A B} (body : B -> M St unit) (g : A -> list B) ps : forall s,
  for_each (fun x => for_each body (g x)) ps s = for_each body (flat_map g ps) s.
Proof.
  induction ps as [|x ps IH]; intros s; [reflexivity|].
  cbn [for_each flat_map]. rewrite for_each_app. unfold bind.
  destruct (for_each body (g x) s) as [[] s1|e s1]; [apply IH | reflexivity].
Qed.

Lemma existsb_key_is c l : existsb (key_is c) l = true <-> In (VStr c) l.
Proof.
  rewrite existsb_exists. split.
  - intros [x [Hin Hk]]. destruct x; try discriminate. simpl in Hk.
    apply String.eqb_eq in Hk. now subst.
  - intros H. exists (VStr c). split; [exact H | apply String.eqb_refl].
Qed.

Lemma dict_set_set k v v' d : dict_set k v' (dict_set k v d) = dict_set k v' d.
Proof.
  induction d as [|[k0 v0] d IH]; simpl.
  - now rewrite String.eqb_refl.
  - destruct (key_is k k0) eqn:E; simpl; rewrite E; [reflexivity | now rewrite IH].
Qed.

(** A loop that appends what is new runs to its end on a list, and what it
    appends is new and without repeats. *)
Lemma add_loop {A} field (cand : A -> string) (keep : A -> bool) ms : forall p l,
  dict_get field p = Some (VList l) ->
  exists added,
    for_each (fun m => if keep m then append_new field (cand m) else ret tt) ms p
    = Returned tt (dict_set field (VList (l ++ map VStr added)) p)
    /\ NoDup added
    /\ (forall a, In a added ->
          ~ In (VStr a) l /\ exists m, In m ms /\ keep m = true /\ cand m = a)
    /\ (forall m, In m ms -> keep m = true -> In (VStr (cand m)) (l ++ map VStr added)).
Proof.
  induction ms as [|m ms IH]; intros p l Hl.
  - exists []. cbn [map for_each]. rewrite app_nil_r, (dict_set_same _ _ _ Hl).
    repeat split; [constructor | contradiction | contradiction | contradiction].
  - cbn [for_each]. destruct (keep m) eqn:Hk.
    + unfold bind, append_new at 1. rewrite Hl. cbn [py_in].
      destruct (existsb (key_is (cand m)) l) eqn:Hin.
      * destruct (IH p l Hl) as (added & Hrun & Hnd & Hnew & Hall).
        exists added. split; [exact Hrun|]. split; [exact Hnd|]. split.
        -- intros a Ha. destruct (Hnew a Ha) as [H1 (m' & H2 & H3 & H4)].
           split; [exact H1|]. exists m'. split; [now right | now split].
        -- intros m' [<-|Hm'] Hk'; [|now apply Hall].
           apply in_or_app. left. now apply existsb_key_is.
      * assert (Hl1 : dict_get field (dict_set field (VList (l ++ [VStr (cand m)])) p)
                      = Some (VList (l ++ [VStr (cand m)]))) by apply dict_get_set_same.
        destruct (IH _ _ Hl1) as (added & Hrun & Hnd & Hnew & Hall).
        exists (cand m :: added). split; [|split; [|split]].
        -- rewrite Hrun, dict_set_set. cbn [map]. now rewrite <- app_assoc.
        -- constructor; [|exact Hnd]. intros Ha. destruct (Hnew _ Ha) as [H1 _].
           apply H1, in_or_app. right. now left.
        -- intros a [<-|Ha].
           ++ split.
              ** intros H. apply existsb_key_is in H. congruence.
              ** exists m. split; [now left | now split].
           ++ destruct (Hnew a Ha) as [H1 (m' & H2 & H3 & H4)]. split.
              ** intros H. apply H1, in_or_app. now left.
              ** exists m'. split; [now right | now split].
        -- intros m' Hm' Hk'. cbn [map].
           replace (l ++ VStr (cand m) :: map VStr added)
             with ((l ++ [VStr (cand m)]) ++ map VStr added)
             by (now rewrite <- app_assoc).
           destruct Hm' as [<-|Hm']; [|now apply Hall].
           apply in_or_app. left. apply in_or_app. right. now left.
    + unfold bind, ret at 1.
      destruct (IH p l Hl) as (added & Hrun & Hnd & Hnew & Hall).
      exists added. split; [exact Hrun|]. split; [exact Hnd|]. split.
      * intros a Ha. destruct (Hnew a Ha) as [H1 (m' & H2 & H3 & H4)].
        split; [exact H1|]. exists m'. split; [now right | now split].
      * intros m' [<-|Hm'] Hk'; [congruence | now apply Hall].
Qed.

(** The same loop on a list that holds every candidate already: nothing
    changes. *)
Lemma add_loop_again {A} field (cand : A -> string) (keep : A -> bool) ms p l :
  dict_get field p = Some (VList l) ->
  (forall m, In m ms -> keep m = true -> In (VStr (cand m)) l) ->
  for_each (fun m => if keep m then append_new field (cand m) else ret tt) ms p
  = Returned tt p.
Proof.
  intros Hl. induction ms as [|m ms IH]; intros Hall; [reflexivity|].
  cbn [for_each]. unfold bind.
  assert (Hstep : (if keep m then append_new field (cand m) else ret tt) p = Returned tt p).
  { destruct (keep m) eqn:Hk; [|reflexivity].
    unfold append_new. rewrite Hl. cbn [py_in].
    assert (H : existsb (key_is (cand m)) l = true)
      by (apply existsb_key_is, Hall; [now left | exact Hk]).
    now rewrite H. }
  rewrite Hstep. apply IH. intros m' Hm'. apply Hall. now right.
Qed.

(** The name loop assigns one attribute, [nickname] or [name] by the text
    of the message, and the last pattern that matches decides its value. *)
Lemma extract_names_effect content :
  exists key o,
    (key = "nickname" \/ key = "name")
    /\ forall p,
      exists p',
        extract_names finditer content p = Returned tt p'
        /\ forall k, dict_get k p'
                     = if String.eqb k key
                       then match o with Some v => Some (VStr v) | None => dict_get k p end
                       else dict_get k p.
Proof.
  unfold extract_names.
  set (by_nickname := contains "nickname" (Summaries.lower content)
                      || contains "call me" (Summaries.lower content)).
  exists (if by_nickname then "nickname" else "name")%string.
  set (key := (if by_nickname then "nickname" else "name")%string).
  assert (Hkey : key = "nickname" \/ key = "name")
    by (unfold key; destruct by_nickname; [now left | now right]).
  enough (Hloop : exists o, forall p,
            exists p',
              for_each
                (fun pattern =>
                   match search finditer pattern content with
                   | Some m =>
                       if by_nickname
                       then modify (dict_set "nickname" (VStr (Text.strip (snd m))))
                       else modify (dict_set "name" (VStr (Text.strip (snd m))))
                   | None => ret tt
                   end) name_patterns p = Returned tt p'
              /\ forall k, dict_get k p'
                           = if String.eqb k key
                             then match o with
                                  | Some v => Some (VStr v)
                                  | None => dict_get k p
                                  end
                             else dict_get k p)
    by (destruct Hloop as [o Ho]; exists o; split; [exact Hkey | exact Ho]).
  clear Hkey.
  induction name_patterns as [|pattern ps IH].
  - exists None. intros p. exists p. split; [reflexivity|].
    intros k. now destruct (String.eqb k key).
  - destruct IH as [o IH]. cbn [for_each].
    destruct (search finditer pattern content) as [m|].
    + exists (match o with Some v => Some v | None => Some (Text.strip (snd m)) end).
      intros p.
      destruct (IH (dict_set key (VStr (Text.strip (snd m))) p)) as (p' & Hrun & Hget).
      exists p'. split.
      * unfold bind. unfold key in *. destruct by_nickname; exact Hrun.
      * intros k. rewrite Hget. destruct (String.eqb k key) eqn:E.
        -- apply String.eqb_eq in E. subst k.
           destruct o; [reflexivity | apply dict_get_set_same].
        -- apply String.eqb_neq in E. now apply dict_get_set_other.
    + exists o. intros p. destruct (IH p) as (p' & Hrun & Hget).
      exists p'. split; [exact Hrun | exact Hget].
Qed.

(** The whole body on a profile whose three lists are lists: it runs to its
    end, each list grows by items that are new, and a second run on the
    same message changes nothing but the time stamp. *)
Lemma extract_body_run content now p li lt lf :
  dict_get "interests" p = Some (VList li) ->
  dict_get "personality_traits" p = Some (VList lt) ->
  dict_get "notable_facts" p = Some (VList lf) ->
  exists p' ai ats af,
    extract_body finditer content now p = Returned tt p'
    /\ dict_get "interests" p' = Some (VList (li ++ map VStr ai))
    /\ dict_get "personality_traits" p' = Some (VList (lt ++ map VStr ats))
    /\ dict_get "notable_facts" p' = Some (VList (lf ++ map VStr af))
    /\ (NoDup ai /\ forall a, In a ai -> ~ In (VStr a) li)
    /\ (NoDup ats /\ forall a, In a ats -> ~ In (VStr a) lt /\ In a personality_traits)
    /\ (NoDup af /\ forall a, In a af -> ~ In (VStr a) lf)
    /\ (forall now', exists p'',
          extract_body finditer content now' p' = Returned tt p''
          /\ forall k, k <> "updated_at" -> dict_get k p'' = dict_get k p').
Proof.
  intros Hi Ht Hf.
  set (candI := fun m : string * string => Summaries.lower (Text.strip (snd m))).
  set (keepI := fun m : string * string => negb (String.eqb (candI m) EmptyString)).
  set (keepT := fun m : string * string =>
                  existsb (String.eqb (candI m)) personality_traits).
  set (candF := fun m : string * string => Text.strip (fst m)).
  set (keepF := fun m : string * string => negb (String.eqb (candF m) EmptyString)).
  set (found := fun patterns : list string =>
                  flat_map (fun pattern => finditer pattern content) patterns).
  assert (HI : forall q, extract_interests finditer content q
                         = for_each (fun m => if keepI m then append_new "interests" (candI m)
                                              else ret tt) (found interest_patterns) q)
    by (intros q; unfold extract_interests; apply for_each_flat).
  assert (HT : forall q, extract_traits finditer content q
                         = for_each (fun m => if keepT m
                                              then append_new "personality_traits" (candI m)
                                              else ret tt) (found trait_patterns) q)
    by (intros q; unfold extract_traits; apply for_each_flat).
  assert (HF : forall q, extract_facts finditer content q
                         = for_each (fun m => if keepF m
                                              then append_new "notable_facts" (candF m)
                                              else ret tt) (found fact_patterns) q)
    by (intros q; unfold extract_facts; apply for_each_flat).
  destruct (add_loop "interests" candI keepI (found interest_patterns) p li Hi)
    as (ai & HrunI & HndI & HnewI & HallI).
  set (p1 := dict_set "interests" (VList (li ++ map VStr ai)) p) in *.
  assert (Ht1 : dict_get "personality_traits" p1 = Some (VList lt))
    by (unfold p1; now rewrite dict_get_set_other).
  destruct (add_loop "personality_traits" candI keepT (found trait_patterns) p1 lt Ht1)
    as (ats & HrunT & HndT & HnewT & HallT).
  set (p2 := dict_set "personality_traits" (VList (lt ++ map VStr ats)) p1) in *.
  assert (Hf2 : dict_get "notable_facts" p2 = Some (VList lf))
    by (unfold p2, p1; now rewrite !dict_get_set_other).
  destruct (add_loop "notable_facts" candF keepF (found fact_patterns) p2 lf Hf2)
    as (af & HrunF & HndF & HnewF & HallF).
  set (p3 := dict_set "notable_facts" (VList (lf ++ map VStr af)) p2) in *.
  destruct (extract_names_effect content) as (key & o & Hkey & Hnames).
  destruct (Hnames p3) as (p4 & HrunN & HgetN).
  assert (Hother : forall q k, k <> key -> k <> "updated_at" ->
            forall q4, (forall k0, dict_get k0 q4
                          = if String.eqb k0 key
                            then match o with
                                 | Some v => Some (VStr v)
                                 | None => dict_get k0 q
                                 end
                            else dict_get k0 q) ->
            forall stamp, dict_get k (dict_set "updated_at" (VStr stamp) q4) = dict_get k q).
  { intros q k Hk Hu q4 Hq4 stamp. rewrite dict_get_set_other by exact Hu.
    rewrite Hq4. apply String.eqb_neq in Hk. now rewrite Hk. }
  assert (Hlists : "interests" <> key /\ "personality_traits" <> key
                   /\ "notable_facts" <> key)
    by (destruct Hkey as [-> | ->]; repeat split; discriminate).
  destruct Hlists as (Hk1 & Hk2 & Hk3).
  set (p' := dict_set "updated_at" (VStr now) p4).
  assert (Hi' : dict_get "interests" p' = Some (VList (li ++ map VStr ai))).
  { unfold p'. rewrite (Hother p3 "interests" Hk1 ltac:(discriminate) p4 HgetN).
    unfold p3, p2, p1. rewrite !dict_get_set_other by discriminate.
    apply dict_get_set_same. }
  assert (Ht' : dict_get "personality_traits" p' = Some (VList (lt ++ map VStr ats))).
  { unfold p'. rewrite (Hother p3 "personality_traits" Hk2 ltac:(discriminate) p4 HgetN).
    unfold p3, p2. rewrite dict_get_set_other by discriminate.
    apply dict_get_set_same. }
  assert (Hf' : dict_get "notable_facts" p' = Some (VList (lf ++ map VStr af))).
  { unfold p'. rewrite (Hother p3 "notable_facts" Hk3 ltac:(discriminate) p4 HgetN).
    unfold p3. apply dict_get_set_same. }
  exists p', ai, ats, af.
  split; [|split; [exact Hi'|split; [exact Ht'|split; [exact Hf'|]]]].
  { unfold extract_body.
    rewrite (bind_returned _ _ p tt p1) by (rewrite HI; exact HrunI).
    rewrite (bind_returned _ _ p1 tt p2) by (rewrite HT; exact HrunT).
    rewrite (bind_returned _ _ p2 tt p3) by (rewrite HF; exact HrunF).
    rewrite (bind_returned _ _ p3 tt p4) by exact HrunN.
    reflexivity. }
  split; [split; [exact HndI | intros a Ha; apply (HnewI a Ha)]|].
  split.
  { split; [exact HndT|]. intros a Ha.
    destruct (HnewT a Ha) as [Hnew (m & _ & Hkeep & <-)]. split; [exact Hnew|].
    unfold keepT in Hkeep. apply existsb_exists in Hkeep as [x [Hx Hex]].
    apply String.eqb_eq in Hex. now rewrite Hex. }
  split; [split; [exact HndF | intros a Ha; apply (HnewF a Ha)]|].
  intros now'.
  destruct (Hnames p') as (p4' & HrunN' & HgetN').
  exists (dict_set "updated_at" (VStr now') p4'). split.
  - unfold extract_body.
    rewrite (bind_returned _ _ p' tt p')
      by (rewrite HI; now apply (add_loop_again "interests" candI keepI _ p' _ Hi')).
    rewrite (bind_returned _ _ p' tt p')
      by (rewrite HT; now apply (add_loop_again "personality_traits" candI keepT _ p' _ Ht')).
    rewrite (bind_returned _ _ p' tt p')
      by (rewrite HF; now apply (add_loop_again "notable_facts" candF keepF _ p' _ Hf')).
    rewrite (bind_returned _ _ p' tt p4') by exact HrunN'.
    reflexivity.
  - intros k Hk. rewrite dict_get_set_other by exact Hk. rewrite HgetN'.
    destruct (String.eqb k key) eqn:E; [|reflexivity].
    destruct o as [v|]; [|reflexivity].
    unfold p'. rewrite dict_get_set_other by exact Hk. rewrite HgetN. now rewrite E.
Qed.

End ProfileFacts.

(** X28.  On a profile whose interests, traits and facts are lists,
    [extract_profile_info] returns, and each of the three lists afterwards is
    the list before followed by items that were not in it, none of them
    twice; every trait added is one of the sixteen known traits.  The
    profile returned is the one the manager holds. *)
Theorem extract_profile_info_appends
    (finditer : string -> string -> list (string * string))
    (cm : ConversationManager.t) (uid : Z) (content t0 t1 now : string)
    (li lt lf : list pyval) :
  let profile := fst (Conversation.get_or_create_profile cm uid VNone t0 t1) in
  dict_get "interests" profile = Some (VList li) ->
  dict_get "personality_traits" profile = Some (VList lt) ->
  dict_get "notable_facts" profile = Some (VList lf) ->
  exists p' cm' ai ats af,
    ProfileInfo.extract_profile_info finditer cm uid content t0 t1 now = Returned p' cm'
    /\ lookup uid (ConversationManager.user_profiles cm') = Some p'
    /\ dict_get "interests" p' = Some (VList (li ++ map VStr ai))
    /\ dict_get "personality_traits" p' = Some (VList (lt ++ map VStr ats))
    /\ dict_get "notable_facts" p' = Some (VList (lf ++ map VStr af))
    /\ (NoDup ai /\ forall a, In a ai -> ~ In (VStr a) li)
    /\ (NoDup ats /\ forall a, In a ats ->
                        ~ In (VStr a) lt /\ In a ProfileInfo.personality_traits)
    /\ (NoDup af /\ forall a, In a af -> ~ In (VStr a) lf).
Proof.
  cbv zeta. intros Hi Ht Hf.
  unfold ProfileInfo.extract_profile_info.
  destruct (Conversation.get_or_create_profile cm uid VNone t0 t1) as [profile cm1].
  cbn [fst] in Hi, Ht, Hf.
  destruct (extract_body_run finditer content now profile li lt lf Hi Ht Hf)
    as (p' & ai & ats & af & Hrun & Hi' & Ht' & Hf' & HI & HT & HF & _).
  rewrite Hrun. eexists p', _, ai, ats, af.
  split; [reflexivity|]. split; [apply lookup_store_same|].
  repeat (split; [assumption|]). assumption.
Qed.

Lemma extract_profile_info_appends_witness :
  exists p' cm' ai ats af,
    ProfileInfo.extract_profile_info Samples.finditer Samples.met 42 Samples.painter
      "t4" "t5" "t6" = Returned p' cm'
    /\ lookup 42 (ConversationManager.user_profiles cm') = Some p'
    /\ dict_get "interests" p' = Some (VList ([] ++ map VStr ai))
    /\ dict_get "personality_traits" p' = Some (VList ([] ++ map VStr ats))
    /\ dict_get "notable_facts" p' = Some (VList ([] ++ map VStr af))
    /\ (NoDup ai /\ forall a, In a ai -> ~ In (VStr a) [])
    /\ (NoDup ats /\ forall a, In a ats ->
                        ~ In (VStr a) [] /\ In a ProfileInfo.personality_traits)
    /\ (NoDup af /\ forall a, In a af -> ~ In (VStr a) []).
Proof.
  apply (extract_profile_info_appends Samples.finditer Samples.met 42 Samples.painter
           "t4" "t5" "t6" [] [] []); reflexivity.
Defined.

(** X29.  [extract_profile_info] is idempotent on a profile whose three
    lists are lists: a second call with the same message returns a profile
    that differs from the one the first call returned in [updated_at] at
    most. *)
Theorem extract_profile_info_twice
    (finditer : string -> string -> list (string * string))
    (cm : ConversationManager.t) (uid : Z) (content t0 t1 now t0' t1' now' : string)
    (li lt lf : list pyval) :
  let profile := fst (Conversation.get_or_create_profile cm uid VNone t0 t1) in
  dict_get "interests" profile = Some (VList li) ->
  dict_get "personality_traits" profile = Some (VList lt) ->
  dict_get "notable_facts" profile = Some (VList lf) ->
  exists p1 cm1 p2 cm2,
    ProfileInfo.extract_profile_info finditer cm uid content t0 t1 now = Returned p1 cm1
    /\ ProfileInfo.extract_profile_info finditer cm1 uid content t0' t1' now'
       = Returned p2 cm2
    /\ forall k, k <> "updated_at" -> dict_get k p2 = dict_get k p1.
Proof.
  cbv zeta. intros Hi Ht Hf.
  unfold ProfileInfo.extract_profile_info at 1.
  destruct (Conversation.get_or_create_profile cm uid VNone t0 t1) as [profile cm1].
  cbn [fst] in Hi, Ht, Hf.
  destruct (extract_body_run finditer content now profile li lt lf Hi Ht Hf)
    as (p1 & ai & ats & af & Hrun & _ & _ & _ & _ & _ & _ & Hagain).
  destruct (Hagain now') as (p2 & Hrun2 & Hsame).
  rewrite Hrun. eexists p1, _, p2, _. split; [reflexivity|].
  unfold ProfileInfo.extract_profile_info, Conversation.get_or_create_profile.
  cbn [ConversationManager.user_profiles Conversation.with_user_profiles].
  rewrite lookup_store_same, Hrun2. split; [reflexivity | exact Hsame].
Qed.

Lemma extract_profile_info_twice_witness :
  exists p1 cm1 p2 cm2,
    ProfileInfo.extract_profile_info Samples.finditer Samples.met 42 Samples.painter
      "t4" "t5" "t6" = Returned p1 cm1
    /\ ProfileInfo.extract_profile_info Samples.finditer cm1 42 Samples.painter
         "t7" "t8" "t9" = Returned p2 cm2
    /\ forall k, k <> "updated_at" -> dict_get k p2 = dict_get k p1.
Proof.
  apply (extract_profile_info_twice Samples.finditer Samples.met 42 Samples.painter
           "t4" "t5" "t6" "t7" "t8" "t9" [] [] []); reflexivity.
Defined.

(** X30.  [extract_profile_info] touches nothing but the profile of its
    user: however it ends, the profiles of all other users, the histories
    and the summaries are as before. *)
Theorem extract_profile_info_frame
    (finditer : string -> string -> list (string * string))
    (cm : ConversationManager.t) (uid : Z) (content t0 t1 now : string) :
  let cm' := state_of (ProfileInfo.extract_profile_info finditer cm uid content
                         t0 t1 now) in
  (forall uid', uid' <> uid ->
     lookup uid' (ConversationManager.user_profiles cm')
     = lookup uid' (ConversationManager.user_profiles cm))
  /\ ConversationManager.conversations cm' = ConversationManager.conversations cm
  /\ ConversationManager.conversation_summaries cm'
     = ConversationManager.conversation_summaries cm.
Proof.
  cbv zeta. unfold ProfileInfo.extract_profile_info.
  pose proof (fun uid' (H : uid' <> uid) =>
                lookup_store_other uid uid' (UserProfile.init (VInt uid) t0 t1)
                  (ConversationManager.user_profiles cm) H) as Hnew.
  unfold Conversation.get_or_create_profile.
  destruct (lookup uid (ConversationManager.user_profiles cm)) as [p|];
    destruct (ProfileInfo.extract_body finditer content now _) as [[] p'|e p'];
    cbn; repeat split; intros uid' Hne;
    rewrite ?lookup_store_other by exact Hne; reflexivity.
Qed.
